(** * genai-rag-chatbot: ingestion, deletion, listing and question endpoints

    A shallow embedding of [app/api/v1/endpoints/document.py],
    [app/api/v1/endpoints/chat.py], [app/crud/vertex_ai.py] and
    [app/crud/firestore.py].

    The Python code is effectful: it talks to an embedding service, to a
    document store and to an answer service, and it raises exceptions.  It is
    embedded in a state-and-exception monad over a [World] that holds the
    document store, a clock, the supply of fresh document ids and the log of
    the calls made to the two model services.  The remote services are
    oracles gathered in a [Services] record; every definition and theorem is
    parametric in it. *)

From Stdlib Require Import Ascii.
From stdpp Require Import gmap strings list fin_maps pretty.

(** ** Python values *)

Module Py.

(** Exceptions.  [HTTPException] is FastAPI's; every other exception class
    is kept by name. *)
Inductive exn : Type :=
| HTTPException (status_code : Z) (detail : string)
| PyError (cls : string) (msg : string).

(** [str(e)]: Starlette prints an [HTTPException] as
    ["{status_code}: {detail}"], a plain exception as its message. *)
Definition str (e : exn) : string :=
  match e with
  | HTTPException status_code detail => pretty status_code ++ ": " ++ detail
  | PyError _ msg => msg
  end.

(** The outcome of a computation: a value, or a raised exception. *)
Inductive result (A : Type) : Type :=
| Ok (a : A)
| Raise (e : exn).
Arguments Ok {A} a.
Arguments Raise {A} e.

Definition is_http (e : exn) : bool :=
  match e with HTTPException _ _ => true | PyError _ _ => false end.

(** Truth value of a list and of a string: non-empty. *)
Definition truthy_list {A} (l : list A) : bool :=
  match l with [] => false | _ :: _ => true end.

Definition truthy_str (s : string) : bool :=
  match s with EmptyString => false | String _ _ => true end.

Definition truthy_opt_str (o : option string) : bool :=
  match o with None => false | Some s => truthy_str s end.

(** A Python [str] is a sequence of Unicode code points.  It is represented
    by its UTF-8 encoding, one [ascii] per byte, which is also how a string
    literal of this file is read.  Concatenation and equality of [str]
    values are concatenation and equality of their encodings; only the
    character tests below look at code points. *)

(** The payload of a continuation byte [10xxxxxx]. *)
Definition continuation (c : ascii) : option N :=
  let b := N_of_ascii c in
  if ((0x80 <=? b) && (b <? 0xC0))%N then Some (b - 0x80)%N else None.

(** A byte that does not start a well-formed sequence stands for itself as
    the lone surrogate [0xDC00 + byte], as with Python's [surrogateescape]
    error handler; the encoding of a [str] has no such byte. *)
Definition escaped (c : ascii) : N := (0xDC00 + N_of_ascii c)%N.

(** The code points of a [str], decoded from its encoding: one byte below
    [0x80]; two bytes for [0x80..0x7FF]; three for [0x800..0xFFFF] without
    the surrogates; four for [0x10000..0x10FFFF].  Overlong forms are not
    well formed. *)
Fixpoint code_points (s : string) : list N :=
  match s with
  | EmptyString => []
  | String c0 s1 =>
    let b0 := N_of_ascii c0 in
    if (b0 <? 0x80)%N then b0 :: code_points s1
    else if (b0 <? 0xE0)%N then
      match s1 with
      | String c1 s2 =>
        match continuation c1 with
        | Some x1 =>
          if (0xC2 <=? b0)%N
          then ((b0 - 0xC0) * 0x40 + x1)%N :: code_points s2
          else escaped c0 :: code_points s1
        | None => escaped c0 :: code_points s1
        end
      | EmptyString => escaped c0 :: code_points s1
      end
    else if (b0 <? 0xF0)%N then
      match s1 with
      | String c1 (String c2 s3) =>
        match continuation c1, continuation c2 with
        | Some x1, Some x2 =>
          let cp := ((b0 - 0xE0) * 0x1000 + x1 * 0x40 + x2)%N in
          if ((0x800 <=? cp) && negb ((0xD800 <=? cp) && (cp <? 0xE000)))%N
          then cp :: code_points s3
          else escaped c0 :: code_points s1
        | _, _ => escaped c0 :: code_points s1
        end
      | _ => escaped c0 :: code_points s1
      end
    else
      match s1 with
      | String c1 (String c2 (String c3 s4)) =>
        match continuation c1, continuation c2, continuation c3 with
        | Some x1, Some x2, Some x3 =>
          let cp :=
            ((b0 - 0xF0) * 0x40000 + x1 * 0x1000 + x2 * 0x40 + x3)%N in
          if ((b0 <? 0xF8) && (0x10000 <=? cp) && (cp <=? 0x10FFFF))%N
          then cp :: code_points s4
          else escaped c0 :: code_points s1
        | _, _, _ => escaped c0 :: code_points s1
        end
      | _ => escaped c0 :: code_points s1
      end
  end.

(** [c.isspace()], the white space that [str.strip()] removes: the
    characters of general category [Zs] or of bidirectional class [WS],
    [B] or [S].  These are the controls [U+0009..U+000D] and
    [U+001C..U+001F], the space [U+0020], [U+0085], [U+00A0], [U+1680],
    [U+2000..U+200A], [U+2028], [U+2029], [U+202F], [U+205F] and
    [U+3000]. *)
Definition isspace (cp : N) : bool :=
  ((0x09 <=? cp) && (cp <=? 0x0D)
   || (0x1C <=? cp) && (cp <=? 0x20)
   || (cp =? 0x85) || (cp =? 0xA0) || (cp =? 0x1680)
   || (0x2000 <=? cp) && (cp <=? 0x200A)
   || (cp =? 0x2028) || (cp =? 0x2029) || (cp =? 0x202F)
   || (cp =? 0x205F) || (cp =? 0x3000))%N.

(** [not s.strip()]: stripping leaves nothing exactly when every character
    is white space. *)
Definition strip_is_empty (s : string) : bool :=
  forallb isspace (code_points s).

(** [len(range(0, stop, step))] for a positive step. *)
Definition range_len (stop step : nat) : nat :=
  if decide (0 < stop) then (stop - 1) / step + 1 else 0.

(** [range(0, stop, step)]: a zero step raises, a negative step from 0
    up to a non-negative stop is empty. *)
Definition range0 (stop : nat) (step : Z) : result (list nat) :=
  if decide (step = 0)%Z then
    Raise (PyError "ValueError" "range() arg 3 must not be zero")
  else if decide (step < 0)%Z then Ok []
  else Ok ((λ k, k * Z.to_nat step) <$> seq 0 (range_len stop (Z.to_nat step))).

(** [l[i : i + n]] for [0 <= i] and [0 < n], which is how the batcher
    slices: a slice stops at the end of the list. *)
Definition slice {A} (l : list A) (i : nat) (n : Z) : list A :=
  take (Z.to_nat n) (drop i l).

End Py.

Import Py.

(** ** External services and the world *)

(** [google.genai.types.ContentEmbedding], of which the code reads
    [values]. *)
Record ContentEmbedding {float : Type} : Type :=
  { values : list float }.
Arguments ContentEmbedding : clear implicits.

Record EmbedContentConfig : Type :=
  { task_type : string; output_dimensionality : Z }.

(** A time field: the sentinel [firestore.SERVER_TIMESTAMP] in a write, the
    server's clock once stored. *)
Inductive FieldTime : Type :=
| SERVER_TIMESTAMP
| Time (t : nat).

(** A stored chunk document: a Firestore document is a schemaless map, so
    every field may be absent. *)
Record DocData {float : Type} : Type :=
  { doc_filename : option string;
    doc_created_at : option FieldTime;
    doc_text : option string;
    doc_embedding : option (list float);
    doc_active : option bool }.
Arguments DocData : clear implicits.

(** Path of a chunk document:
    [users/{user}/sessions/{session}/documents/{id}].  Auto-generated ids are
    opaque fresh tokens; they are numbered in order of allocation. *)
Definition DocRef : Type := string * string * nat.

(** The store: the marker documents of users and sessions (their [updated]
    field) and the chunk documents. *)
Record Store {float : Type} : Type :=
  { users : gmap string FieldTime;
    sessions : gmap (string * string) FieldTime;
    documents : gmap (string * string * nat) (DocData float) }.
Arguments Store : clear implicits.

(** Calls made to the model services, in order. *)
Inductive Event {float : Type} : Type :=
| EvEmbedContent (model : string) (contents : list string)
    (config : EmbedContentConfig)
| EvGetAnswer (user_question : string) (vectors_list : list (list float))
    (texts_list : list (option string)).
Arguments Event : clear implicits.

Record World {float : Type} : Type :=
  { w_db : Store float;
    w_now : nat;
    w_next_id : nat;
    w_log : list (Event float) }.
Arguments World : clear implicits.

(** [utils/globals.py]: settings read from the environment. *)
Record Globals : Type :=
  { GEMINI_EMBEDDING_MODEL : string;
    GEMINI_EMBEDDING_DIMENSIONALITY : Z }.

(** The collaborators.  Each remote call is an oracle indexed by the time of
    the call, so that the same request may succeed once and fail later.
    [chunk_document_text] and [LangChainQA.get_answer] are the two functions
    that the endpoints import from [crud/langchain.py]; they are oracles as
    well, with the types that their call sites and the specification give
    them (an answer is a text, or is absent or empty when there is none). *)
Record Services {float : Type} : Type :=
  { globals : Globals;
    (** [client.models.embed_content] *)
    embed_content :
      nat → string → list string → EmbedContentConfig →
      result (list (ContentEmbedding float));
    (** a store round trip (stream, commit) fails when this returns an
        exception *)
    store_fault : nat → option exn;
    (** [PdfReader(...).pages], each page's [extract_text() or ""], joined *)
    pdf_text : list Byte.byte → result string;
    chunk_document_text : string → Z → Z → result (list string);
    (** [LangChainQA.get_answer]; an absent or empty answer is falsy *)
    get_answer :
      nat → string → list (list float) → list (option string) →
      result (option string) }.
Arguments Services : clear implicits.

(** ** The monad of the asynchronous code *)

Section Monad.
Context {float : Type}.

Definition M (A : Type) : Type := World float → result A * World float.

Definition ret {A} (a : A) : M A := λ w, (Ok a, w).

Definition raise {A} (e : exn) : M A := λ w, (Raise e, w).

Definition bind {A B} (m : M A) (k : A → M B) : M B :=
  λ w, match m w with
       | (Ok a, w') => k a w'
       | (Raise e, w') => (Raise e, w')
       end.

(** [try: body / except Exception as e: handler e] *)
Definition try_except {A} (body : M A) (handler : exn → M A) : M A :=
  λ w, match body w with
       | (Ok a, w') => (Ok a, w')
       | (Raise e, w') => handler e w'
       end.

(** Lifting a pure computation that may raise. *)
Definition lift {A} (r : result A) : M A := λ w, (r, w).

(** [await asyncio.gather] over a list of tasks: every task is started, in
    order, and runs even when an earlier one has raised; the first
    exception, if any, is what the caller sees, and otherwise the results in
    task order.  The tasks run one after the other, in list order: the
    interleaving of tasks at their own [await] points is not modelled. *)
Fixpoint gather {A} (tasks : list (M A)) : M (list A) :=
  match tasks with
  | [] => ret []
  | t :: ts =>
      λ w, match t w with
           | (r, w1) =>
               match gather ts w1 with
               | (rs, w2) =>
                   (match r, rs with
                    | Raise e, _ => Raise e
                    | Ok _, Raise e => Raise e
                    | Ok a, Ok l => Ok (a :: l)
                    end, w2)
               end
           end
  end.

Definition tick : M unit :=
  λ w, (Ok tt,
        {| w_db := w_db w; w_now := S (w_now w);
           w_next_id := w_next_id w; w_log := w_log w |}).

Definition emit (ev : Event float) : M unit :=
  λ w, (Ok tt,
        {| w_db := w_db w; w_now := w_now w;
           w_next_id := w_next_id w; w_log := w_log w ++ [ev] |}).

Definition now : M nat := λ w, (Ok (w_now w), w).

End Monad.
Arguments M float A : clear implicits.

Notation "x <- c ;; k" := (bind c (λ x, k))
  (at level 100, c at next level, right associativity).
Notation "c ;;; k" := (bind c (λ _, k))
  (at level 100, right associativity).

(** ** [crud/vertex_ai.py] *)

Module VertexAICRUD.
Section Defs.
Context {float : Type} (env : Services float).

(** The remote call: logged, timed, and answered by the oracle. *)
Definition call_embed_content (model : string) (contents : list string)
    (config : EmbedContentConfig) : M float (list (ContentEmbedding float)) :=
  emit (EvEmbedContent model contents config) ;;;
  t <- now ;;
  tick ;;;
  lift (embed_content env t model contents config).

Definition generate_embedding_with (texts : list string) (model : string)
    (output_dimensionality : Z) (task_type : string)
    : M float (list (ContentEmbedding float)) :=
  try_except
    (let embed_config :=
       {| task_type := task_type;
          output_dimensionality := output_dimensionality |} in
     call_embed_content model texts embed_config)
    (λ e, raise (HTTPException 500
                   ("Failed to generate embeddings: " ++ str e))).

(** The call with the default arguments, as [document.py] makes it. *)
Definition generate_embedding (texts : list string)
    : M float (list (ContentEmbedding float)) :=
  generate_embedding_with texts
    (GEMINI_EMBEDDING_MODEL (globals env))
    (GEMINI_EMBEDDING_DIMENSIONALITY (globals env))
    "RETRIEVAL_DOCUMENT".

End Defs.
End VertexAICRUD.

(** ** The document store client *)

(** One write of a [WriteBatch]. *)
Inductive WriteOp {float : Type} : Type :=
| SetUserUpdated (user : string)
| SetSessionUpdated (user session : string)
| SetDocument (ref : DocRef) (payload : DocData float)
| DeleteDocument (ref : DocRef).
Arguments WriteOp : clear implicits.

Module Firestore.
Section Defs.
Context {float : Type} (env : Services float).

(** The server replaces the [SERVER_TIMESTAMP] sentinel by its clock. *)
Definition resolve_time (t : nat) (v : FieldTime) : FieldTime :=
  match v with SERVER_TIMESTAMP => Time t | Time t' => Time t' end.

Definition resolve_doc (t : nat) (d : DocData float) : DocData float :=
  {| doc_filename := doc_filename d;
     doc_created_at := resolve_time t <$> doc_created_at d;
     doc_text := doc_text d;
     doc_embedding := doc_embedding d;
     doc_active := doc_active d |}.

Definition apply_op (t : nat) (db : Store float) (op : WriteOp float)
    : Store float :=
  match op with
  | SetUserUpdated user =>
      {| users := <[user := Time t]> (users db);
         sessions := sessions db;
         documents := documents db |}
  | SetSessionUpdated user session =>
      {| users := users db;
         sessions := <[(user, session) := Time t]> (sessions db);
         documents := documents db |}
  | SetDocument ref payload =>
      {| users := users db;
         sessions := sessions db;
         documents := <[ref := resolve_doc t payload]> (documents db) |}
  | DeleteDocument ref =>
      {| users := users db;
         sessions := sessions db;
         documents := base.delete ref (documents db) |}
  end.

Definition apply_batch (t : nat) (db : Store float)
    (batch : list (WriteOp float)) : Store float :=
  foldl (apply_op t) db batch.

Definition get_db : M float (Store float) := λ w, (Ok (w_db w), w).

Definition put_db (db : Store float) : M float unit :=
  λ w, (Ok tt,
        {| w_db := db; w_now := w_now w;
           w_next_id := w_next_id w; w_log := w_log w |}).

(** A round trip to the store, which may fail. *)
Definition round_trip : M float nat :=
  t <- now ;;
  tick ;;;
  match store_fault env t with
  | Some e => raise e
  | None => ret t
  end.

(** [batch.commit()]: the store applies every write of the batch, or,
    when the commit fails, none of them.  This is the store's contract,
    taken as given. *)
Definition commit (batch : list (WriteOp float)) : M float unit :=
  t <- round_trip ;;
  db <- get_db ;;
  put_db (apply_batch t db batch).

(** [collection.document()]: a reference with a fresh id, made on the
    client. *)
Definition document_auto_id : M float nat :=
  λ w, (Ok (w_next_id w),
        {| w_db := w_db w; w_now := w_now w;
           w_next_id := S (w_next_id w); w_log := w_log w |}).

(** The documents of [users/{user}/sessions/{session}/documents], in the
    order in which the store streams them (here, the order of the map's
    own enumeration). *)
Definition collection_documents (db : Store float) (user session : string)
    : list (nat * DocData float) :=
  omap (λ kv : (string * string * nat) * DocData float,
          if decide (kv.1.1.1 = user ∧ kv.1.1.2 = session)
          then Some (kv.1.2, kv.2) else None)
       (map_to_list (documents db)).

(** The ids of the session markers of [users/{user}/sessions]. *)
Definition collection_sessions (db : Store float) (user : string)
    : list string :=
  omap (λ kv : (string * string) * FieldTime,
          if decide (kv.1.1 = user) then Some kv.1.2 else None)
       (map_to_list (sessions db)).

Definition stream_documents (user session : string)
    : M float (list (nat * DocData float)) :=
  round_trip ;;;
  db <- get_db ;;
  ret (collection_documents db user session).

Definition stream_sessions (user : string) : M float (list string) :=
  round_trip ;;;
  db <- get_db ;;
  ret (collection_sessions db user).

(** [documents_ref.where("filename", "==", filename).stream()] *)
Definition stream_where_filename (user session filename : string)
    : M float (list (nat * DocData float)) :=
  round_trip ;;;
  db <- get_db ;;
  ret (List.filter
         (λ d, bool_decide (doc_filename d.2 = Some filename))
         (collection_documents db user session)).

(** [ref.set(data, merge=True)] outside of a batch: one write, sent at
    once. *)
Definition set_now (op : WriteOp float) : M float unit := commit [op].

(** [ref.create(data)]: a write that the store refuses when the document is
    already there. *)
Definition create (ref : DocRef) (payload : DocData float) : M float unit :=
  t <- round_trip ;;
  db <- get_db ;;
  match documents db !! ref with
  | Some _ => raise (PyError "Conflict" "409 Document already exists")
  | None => put_db (apply_op t db (SetDocument ref payload))
  end.

(** [collection.add(data)]: a reference with a fresh id, then [create]. *)
Definition add (user session : string) (document_data : DocData float)
    : M float nat :=
  new_id <- document_auto_id ;;
  create (user, session, new_id) document_data ;;;
  ret new_id.

End Defs.
End Firestore.

(** ** Python dictionaries, in insertion order *)

Module PyDict.
Section Defs.
Context {V : Type}.

Definition dict : Type := list (string * V).

Fixpoint get (k : string) (d : dict) : option V :=
  match d with
  | [] => None
  | (k', v) :: d' => if decide (k' = k) then Some v else get k d'
  end.

Definition mem (k : string) (d : dict) : bool :=
  match get k d with Some _ => true | None => false end.

(** [d[k] = v]: in place for a key that is present, at the end for a
    new one. *)
Fixpoint set (k : string) (v : V) (d : dict) : dict :=
  match d with
  | [] => [(k, v)]
  | (k', v') :: d' =>
      if decide (k' = k) then (k, v) :: d' else (k', v') :: set k v d'
  end.

Definition values (d : dict) : list V := d.*2.

Definition items (d : dict) : list (string * V) := d.

End Defs.
Arguments dict V : clear implicits.
End PyDict.

(** ** [crud/firestore.py] *)

(** An element of [chunks_with_vectors]: [{"text": ..., "vector": ...}]. *)
Record ChunkData {float : Type} : Type :=
  { cd_text : string; cd_vector : list float }.
Arguments ChunkData : clear implicits.

(** The dictionary that [delete] returns. *)
Record DeleteResult : Type := { message : string }.

(** The dictionary that [index] returns. *)
Record IndexResult : Type :=
  { ir_document_id : nat; ir_message : string }.

(** The rows of [all_documents_flat] and of the summary. *)
Record FlatDocument : Type :=
  { fd_session_id : string; fd_filename : option string }.

Record FileSummary : Type :=
  { fs_filename : string; fs_chunk_count : nat }.

Record SessionSummary : Type :=
  { ss_session_id : string; ss_files : list FileSummary }.

Module FirestoreCRUD.
Import Firestore.
Section Defs.
Context {float : Type} (env : Services float).

Definition document_payload (filename : string) (chunk_data : ChunkData float)
    : DocData float :=
  {| doc_filename := Some filename;
     doc_created_at := Some SERVER_TIMESTAMP;
     doc_text := Some (cd_text chunk_data);
     doc_embedding := Some (cd_vector chunk_data);
     doc_active := Some true |}.

(** [index]: three writes, each sent on its own. *)
Definition index (user session filename : string) (vectors_list : list float)
    (document_text : string) : M float IndexResult :=
  try_except
    (set_now env (SetUserUpdated user) ;;;
     set_now env (SetSessionUpdated user session) ;;;
     let document_data :=
       {| doc_filename := Some filename;
          doc_created_at := Some SERVER_TIMESTAMP;
          doc_text := Some document_text;
          doc_embedding := Some vectors_list;
          doc_active := Some true |} in
     new_id <- add env user session document_data ;;
     ret {| ir_document_id := new_id;
            ir_message := "Document indexed successfully" |})
    (λ e, raise (HTTPException 500
                   ("Failed to index document: " ++ str e))).

(** The loop of [index_batch]: one fresh reference and one [batch.set]
    per chunk, in order. *)
Fixpoint index_batch_loop (user session filename : string)
    (chunks_with_vectors : list (ChunkData float))
    (document_ids : list nat) (batch : list (WriteOp float))
    : M float (list nat * list (WriteOp float)) :=
  match chunks_with_vectors with
  | [] => ret (document_ids, batch)
  | chunk_data :: rest =>
      new_id <- document_auto_id ;;
      index_batch_loop user session filename rest
        (document_ids ++ [new_id])
        (batch ++ [SetDocument (user, session, new_id)
                     (document_payload filename chunk_data)])
  end.

Definition index_batch (user session filename : string)
    (chunks_with_vectors : list (ChunkData float)) : M float (list nat) :=
  try_except
    (r <- index_batch_loop user session filename chunks_with_vectors []
            [SetUserUpdated user; SetSessionUpdated user session] ;;
     commit env r.2 ;;;
     ret r.1)
    (λ e, raise (HTTPException 500
                   ("Falha ao indexar documentos em lote: " ++ str e))).

Definition delete (user session filename : string) : M float DeleteResult :=
  try_except
    (docs_to_delete <- stream_where_filename env user session filename ;;
     if negb (truthy_list docs_to_delete) then
       raise (HTTPException 404
                ("No documents found with the filename '"
                   ++ filename ++ "'."))
     else
       commit env
         ((λ doc : nat * DocData float,
             DeleteDocument (user, session, doc.1)) <$> docs_to_delete) ;;;
       let deleted_count := length docs_to_delete in
       ret {| message :=
                "Successfully deleted " ++ pretty deleted_count
                  ++ " document(s) with the filename '" ++ filename
                  ++ "'." |})
    (λ e, if is_http e then raise e
          else raise (HTTPException 500
                        ("Failed to delete documents: " ++ str e))).

(** The first loop of [list]: the documents of every session, flat. *)
Fixpoint list_flat_loop (user : string) (all_sessions : list string)
    (all_documents_flat : list FlatDocument) : M float (list FlatDocument) :=
  match all_sessions with
  | [] => ret all_documents_flat
  | session :: rest =>
      docs_stream <- stream_documents env user session ;;
      list_flat_loop user rest
        (all_documents_flat ++
           ((λ doc : nat * DocData float,
               {| fd_session_id := session;
                  fd_filename := doc_filename doc.2 |}) <$> docs_stream))
  end.

(** One turn of the second loop of [list]. *)
Definition list_summary_step
    (sessions_summary : PyDict.dict (PyDict.dict FileSummary))
    (doc : FlatDocument) : PyDict.dict (PyDict.dict FileSummary) :=
  let session_id := fd_session_id doc in
  if negb (truthy_str session_id) || negb (truthy_opt_str (fd_filename doc))
  then sessions_summary
  else
    let filename := default "" (fd_filename doc) in
    let sessions_summary1 :=
      if PyDict.mem session_id sessions_summary then sessions_summary
      else PyDict.set session_id [] sessions_summary in
    let files := default [] (PyDict.get session_id sessions_summary1) in
    let files1 :=
      if PyDict.mem filename files then files
      else PyDict.set filename
             {| fs_filename := filename; fs_chunk_count := 0 |} files in
    let files2 :=
      match PyDict.get filename files1 with
      | Some entry =>
          PyDict.set filename
            {| fs_filename := fs_filename entry;
               fs_chunk_count := fs_chunk_count entry + 1 |} files1
      | None => files1
      end in
    PyDict.set session_id files2 sessions_summary1.

Definition list_summary (all_documents_flat : list FlatDocument)
    : PyDict.dict (PyDict.dict FileSummary) :=
  foldl list_summary_step [] all_documents_flat.

Definition list_final_result
    (sessions_summary : PyDict.dict (PyDict.dict FileSummary))
    : list SessionSummary :=
  (λ item : string * PyDict.dict FileSummary,
     {| ss_session_id := item.1; ss_files := PyDict.values item.2 |})
    <$> PyDict.items sessions_summary.

(** The loop of [vectors]: a chunk without embedding, or with an empty
    one, is skipped. *)
Definition vectors_step
    (acc : list (list float) * list (option string))
    (doc : nat * DocData float)
    : list (list float) * list (option string) :=
  let embedding := doc_embedding doc.2 in
  let document_text := doc_text doc.2 in
  match embedding with
  | Some (x :: v) => (acc.1 ++ [x :: v], acc.2 ++ [document_text])
  | Some [] | None => acc
  end.

Definition vectors (user session : string)
    : M float (list (list float) * list (option string)) :=
  try_except
    (docs <- stream_documents env user session ;;
     ret (foldl vectors_step ([], []) docs))
    (λ e, raise (HTTPException 500
                   ("Failed to retrieve vectors: " ++ str e))).

Definition list (user : string) : M float (Datatypes.list SessionSummary) :=
  try_except
    (all_sessions <- stream_sessions env user ;;
     all_documents_flat <- list_flat_loop user all_sessions [] ;;
     let sessions_summary := list_summary all_documents_flat in
     ret (list_final_result sessions_summary))
    (λ e, raise (HTTPException 500
                   ("Failed to list documents: " ++ str e))).

End Defs.
End FirestoreCRUD.

(** ** [api/v1/endpoints/document.py] *)

Record UploadFile : Type :=
  { up_filename : string; up_content : list Byte.byte }.

(** The per-file dictionary: [status] is ["success"] or ["error"]. *)
Inductive FileResult : Type :=
| FileError (filename : string) (detail : string)
| FileSuccess (filename : string) (indexed_chunks : nat)
    (document_ids : list nat).

Inductive Status : Type := success | error.

Definition status (r : FileResult) : Status :=
  match r with
  | FileError _ _ => error
  | FileSuccess _ _ _ => success
  end.

Definition result_filename (r : FileResult) : string :=
  match r with
  | FileError filename _ => filename
  | FileSuccess filename _ _ => filename
  end.

Definition is_success (r : FileResult) : bool :=
  match status r with success => true | error => false end.

Definition is_error (r : FileResult) : bool :=
  match status r with success => false | error => true end.

Record JSONResponse {C : Type} : Type :=
  { status_code : Z; content : C }.
Arguments JSONResponse : clear implicits.

(** The two bodies that [index_documents] answers with. *)
Inductive IndexContent : Type :=
| IndexFailed (msg : string) (results : list FileResult)
| IndexCompleted (msg : string) (successful failed : list FileResult).

Module document.
Section Defs.
Context {float : Type} (env : Services float).

Definition generate_embeddings_in_batches (chunks : list string)
    (batch_size : Z) : M float (list (list float)) :=
  if negb (truthy_list chunks) then ret []
  else
    starts <- lift (range0 (length chunks) batch_size) ;;
    let tasks :=
      (λ i, VertexAICRUD.generate_embedding env (slice chunks i batch_size))
        <$> starts in
    all_batch_responses <- gather tasks ;;
    let final_vectors :=
      batch_responses ← all_batch_responses;
      resp ← batch_responses;
      [values resp] in
    ret final_vectors.

(** The default [batch_size]. *)
Definition default_batch_size : Z := 250.

Definition _extract_and_chunk_text (pdf_content : list Byte.byte)
    : list string :=
  match pdf_text env pdf_content with
  | Raise _ => []
  | Ok document_text =>
      if strip_is_empty document_text then []
      else
        match chunk_document_text env document_text 1000 150 with
        | Ok chunks => chunks
        | Raise _ => []
        end
  end.

Definition chunks_to_index (chunks : list string)
    (chunk_vectors : list (list float)) : list (ChunkData float) :=
  zip_with (λ text vector, {| cd_text := text; cd_vector := vector |})
    chunks chunk_vectors.

Definition _process_and_index_file (user session : string)
    (file : UploadFile) : M float FileResult :=
  try_except
    (let pdf_content := up_content file in
     let chunks := _extract_and_chunk_text pdf_content in
     if negb (truthy_list chunks) then
       ret (FileError (up_filename file)
              "No text found or failed to create chunks.")
     else
       chunk_vectors <-
         generate_embeddings_in_batches chunks default_batch_size ;;
       if negb (truthy_list chunk_vectors) then
         ret (FileError (up_filename file)
                "Failed to generate embeddings for text chunks.")
       else
         indexed_ids <-
           FirestoreCRUD.index_batch env user session (up_filename file)
             (chunks_to_index chunks chunk_vectors) ;;
         ret (FileSuccess (up_filename file) (length indexed_ids)
                indexed_ids))
    (λ e, ret (FileError (up_filename file) (str e))).

Definition index_documents (user session : string)
    (files : list UploadFile) : M float (JSONResponse IndexContent) :=
  if negb (truthy_list files) then
    raise (HTTPException 400 "No files uploaded.")
  else
    let tasks := _process_and_index_file user session <$> files in
    results <- gather tasks ;;
    let successful_files := List.filter is_success results in
    let failed_files := List.filter is_error results in
    if negb (truthy_list successful_files) && truthy_list failed_files
    then
      ret {| status_code := 500;
             content := IndexFailed "Failed to process all documents."
                          failed_files |}
    else
      ret {| status_code := 200;
             content := IndexCompleted "Document processing completed."
                          successful_files failed_files |}.

Definition delete_document (user session filename : string)
    : M float (JSONResponse string) :=
  try_except
    (result <- FirestoreCRUD.delete env user session filename ;;
     ret {| status_code := 200; content := message result |})
    (λ e, raise (HTTPException 500
                   ("Failed to delete the document: " ++ str e))).

Definition list_documents (user : string)
    : M float (JSONResponse (list SessionSummary)) :=
  try_except
    (documents <- FirestoreCRUD.list env user ;;
     ret {| status_code := 200; content := documents |})
    (λ e, raise (HTTPException 500
                   ("Failed to list documents: " ++ str e))).

End Defs.
End document.

(** ** [api/v1/endpoints/chat.py] *)

Module chat.
Section Defs.
Context {float : Type} (env : Services float).

(** The call of [LangChainQA.get_answer]: logged, timed, and answered by
    the oracle. *)
Definition call_get_answer (user_question : string)
    (vectors_list : list (list float)) (texts_list : list (option string))
    : M float (option string) :=
  emit (EvGetAnswer user_question vectors_list texts_list) ;;;
  t <- now ;;
  tick ;;;
  lift (get_answer env t user_question vectors_list texts_list).

Definition question (user session question : string)
    : M float (JSONResponse (option string)) :=
  try_except
    (if strip_is_empty question then
       raise (HTTPException 400 "Question cannot be empty.")
     else
       r <- FirestoreCRUD.vectors env user session ;;
       response <- call_get_answer question r.1 r.2 ;;
       if negb (truthy_opt_str response) then
         raise (HTTPException 404
                  "No relevant information found for the question.")
       else
         ret {| status_code := 200; content := response |})
    (λ e, raise (HTTPException 500
                   ("Failed to generate response: " ++ str e))).

End Defs.
End chat.

(** * Specification-level definitions *)

(** ** The embedding batcher, as a pure function of the oracle *)

Module Batcher.
Section Defs.
Context {float : Type} (env : Services float).

Definition embed_config : EmbedContentConfig :=
  {| task_type := "RETRIEVAL_DOCUMENT";
     output_dimensionality :=
       GEMINI_EMBEDDING_DIMENSIONALITY (globals env) |}.

Definition embed_event (batch : list string) : Event float :=
  EvEmbedContent (GEMINI_EMBEDDING_MODEL (globals env)) batch embed_config.

(** What [generate_embedding] makes of the oracle's answer at time [t]. *)
Definition embed_outcome (t : nat) (batch : list string)
    : result (list (ContentEmbedding float)) :=
  match embed_content env t (GEMINI_EMBEDDING_MODEL (globals env))
          batch embed_config with
  | Ok embeddings => Ok embeddings
  | Raise e =>
      Raise (HTTPException 500 ("Failed to generate embeddings: " ++ str e))
  end.

(** The outcomes of consecutive calls, the first one made at time [t]. *)
Fixpoint embed_outcomes (t : nat) (batches : list (list string))
    : list (result (list (ContentEmbedding float))) :=
  match batches with
  | [] => []
  | batch :: rest => embed_outcome t batch :: embed_outcomes (S t) rest
  end.

(** The embedding service answers with one embedding per text. *)
Definition one_to_one : Prop :=
  ∀ t model (texts : list string) config r,
    embed_content env t model texts config = Ok r →
    length r = length texts.

(** The world after the calls for [batches]. *)
Definition embed_world (w : World float) (batches : list (list string))
    : World float :=
  {| w_db := w_db w;
     w_now := w_now w + length batches;
     w_next_id := w_next_id w;
     w_log := w_log w ++ (embed_event <$> batches) |}.

(** The consecutive batches of [n] chunks that the comprehension over
    [range(0, len(chunks), n)] builds. *)
Definition batches (chunks : list string) (n : nat) : list (list string) :=
  (λ k, take n (drop (k * n) chunks))
    <$> seq 0 (range_len (length chunks) n).

End Defs.

(** All the values, or the first exception. *)
Fixpoint collect {A} (rs : list (result A)) : result (list A) :=
  match rs with
  | [] => Ok []
  | r :: rs' =>
      match r, collect rs' with
      | Raise e, _ => Raise e
      | Ok _, Raise e => Raise e
      | Ok a, Ok l => Ok (a :: l)
      end
  end.

Definition flatten_values {float : Type}
    (all_batch_responses : list (list (ContentEmbedding float)))
    : list (list float) :=
  batch_responses ← all_batch_responses;
  resp ← batch_responses;
  [values resp].

End Batcher.

(** ** The store, as the code leaves it *)

Module StoreSpec.
Section Defs.
Context {float : Type}.

(** The world one round trip later. *)
Definition ticked (w : World float) : World float :=
  {| w_db := w_db w; w_now := S (w_now w);
     w_next_id := w_next_id w; w_log := w_log w |}.

(** The world after a commit of [batch] that the store accepted. *)
Definition committed (w : World float) (batch : list (WriteOp float))
    : World float :=
  {| w_db := Firestore.apply_batch (w_now w) (w_db w) batch;
     w_now := S (w_now w);
     w_next_id := w_next_id w; w_log := w_log w |}.

(** What a stored chunk contributes to the answer context: its vector
    and its text, when the vector is there and is not empty. *)
Definition with_embedding (doc : nat * DocData float)
    : option (list float * option string) :=
  match doc_embedding doc.2 with
  | Some (x :: v) => Some (x :: v, doc_text doc.2)
  | Some [] | None => None
  end.

(** The chunks of a scope that carry a given file name. *)
Definition matches (filename : string) (doc : nat * DocData float) : bool :=
  bool_decide (doc_filename doc.2 = Some filename).

(** The [batch.set] writes of [index_batch] for ids counted from
    [start]. *)
Definition set_ops (user session filename : string) (start : nat)
    (chunks_with_vectors : list (ChunkData float))
    : list (WriteOp float) :=
  zip_with
    (λ id chunk_data,
       SetDocument (user, session, id)
         (FirestoreCRUD.document_payload filename chunk_data))
    (seq start (length chunks_with_vectors)) chunks_with_vectors.

(** The world after [n] document references were made. *)
Definition allocated (w : World float) (n : nat) : World float :=
  {| w_db := w_db w; w_now := w_now w;
     w_next_id := w_next_id w + n; w_log := w_log w |}.

(** The chunk record that a commit at time [t] stores. *)
Definition persisted (t : nat) (filename text : string)
    (vector : list float) : DocData float :=
  {| doc_filename := Some filename;
     doc_created_at := Some (Time t);
     doc_text := Some text;
     doc_embedding := Some vector;
     doc_active := Some true |}.

(** The whole batch of [index_batch]. *)
Definition index_ops (user session filename : string) (start : nat)
    (chunks_with_vectors : list (ChunkData float))
    : list (WriteOp float) :=
  SetUserUpdated user :: SetSessionUpdated user session
    :: set_ops user session filename start chunks_with_vectors.

(** [key] is the path of a chunk of the scope that carries
    [filename]. *)
Definition chunk_of (db : Store float) (user session filename : string)
    (key : string * string * nat) : Prop :=
  key.1.1 = user ∧ key.1.2 = session
  ∧ ∃ d, documents db !! key = Some d ∧ doc_filename d = Some filename.

(** Every file of a summary stands under its own name, and comes from a
    document of [flat]. *)
Definition summary_sound (flat : list FlatDocument)
    (sessions_summary : PyDict.dict (PyDict.dict FileSummary)) : Prop :=
  ∀ session_id files filename entry,
    (session_id, files) ∈ sessions_summary →
    (filename, entry) ∈ files →
    fs_filename entry = filename
    ∧ ∃ doc, doc ∈ flat ∧ fd_session_id doc = session_id
             ∧ fd_filename doc = Some filename.

(** How many documents of [flat] stand in [session_id] under
    [filename]. *)
Definition flat_count (flat : list FlatDocument) (session_id filename : string)
    : nat :=
  length
    (List.filter
       (λ doc, bool_decide (fd_session_id doc = session_id
                            ∧ fd_filename doc = Some filename))
       flat).

(** The documents that the first loop of [list] gathers for [user]. *)
Definition flat_documents (db : Store float) (user : string)
    (all_sessions : list string) : list FlatDocument :=
  session ← all_sessions;
  (λ doc : nat * DocData float,
     {| fd_session_id := session; fd_filename := doc_filename doc.2 |})
    <$> Firestore.collection_documents db user session.

(** The summary of [list] after the documents [processed]: sessions and
    files stand once each, under names that are not empty, and every file
    counts the documents processed under its name. *)
Definition summary_counts (processed : list FlatDocument)
    (sessions_summary : PyDict.dict (PyDict.dict FileSummary)) : Prop :=
  NoDup (sessions_summary.*1)
  ∧ (∀ session_id files,
       PyDict.get session_id sessions_summary = Some files →
       truthy_str session_id = true ∧ files ≠ [] ∧ NoDup (files.*1))
  ∧ (∀ session_id files filename entry,
       PyDict.get session_id sessions_summary = Some files →
       PyDict.get filename files = Some entry →
       fs_filename entry = filename
       ∧ truthy_str filename = true
       ∧ fs_chunk_count entry = flat_count processed session_id filename
       ∧ 0 < fs_chunk_count entry)
  ∧ (∀ session_id filename,
       truthy_str session_id = true → truthy_str filename = true →
       0 < flat_count processed session_id filename →
       ∃ files entry,
         PyDict.get session_id sessions_summary = Some files
         ∧ PyDict.get filename files = Some entry).

(** The number of chunks of a scope that carry [filename]. *)
Definition chunk_count (db : Store float) (user session filename : string)
    : nat :=
  length (List.filter (matches filename)
            (Firestore.collection_documents db user session)).

End Defs.
End StoreSpec.

(** ** Concrete services and worlds, for the examples *)

Module Examples.

Definition globals0 : Globals :=
  {| GEMINI_EMBEDDING_MODEL := "gemini-embedding-001";
     GEMINI_EMBEDDING_DIMENSIONALITY := 768 |}.

(** Strings of white space outside ASCII, as their UTF-8 bytes: the
    no-break space [U+00A0], the next-line control [U+0085], the
    ideographic space [U+3000]; and the zero-width space [U+200B], which
    is not white space for [str.isspace]. *)
Definition no_break_space : string := String "194" (String "160" "").

Definition next_line : string := String "194" (String "133" "").

Definition ideographic_space : string :=
  String "227" (String "128" (String "128" "")).

Definition zero_width_space : string :=
  String "226" (String "128" (String "139" "")).

(** A blank text of four characters, one of them ASCII. *)
Definition blank_text : string :=
  no_break_space ++ " " ++ ideographic_space ++ next_line.

(** An embedding service that maps each text to a one-component vector,
    its length. *)
Definition embed_length (s : string) : ContentEmbedding Z :=
  {| values := [Z.of_nat (length (code_points s))] |}.

(** A PDF reader that finds the text ["abc"] in the empty upload and cannot
    read anything else. *)
Definition read_pdf (pdf_content : list Byte.byte) : result string :=
  match pdf_content with
  | [] => Ok "abc"
  | _ :: _ => Raise (PyError "PdfReadError" "EOF marker not found")
  end.

(** Every remote service answers; a text is cut into itself, ["de"] and
    ["f"]; no question has an answer. *)
Definition env_ok : Services Z :=
  {| globals := globals0;
     embed_content := λ _ _ texts _, Ok (embed_length <$> texts);
     store_fault := λ _, None;
     pdf_text := read_pdf;
     chunk_document_text := λ s _ _, Ok [s; "de"; "f"];
     get_answer := λ _ _ _ _, Ok None |}.

(** As [env_ok], but the embedding call made at time 1 fails. *)
Definition env_embed_fails_at_1 : Services Z :=
  {| globals := globals0;
     embed_content := λ t _ texts _,
       if decide (t = 1)
       then Raise (PyError "ServerError" "503 UNAVAILABLE")
       else Ok (embed_length <$> texts);
     store_fault := λ _, None;
     pdf_text := read_pdf;
     chunk_document_text := λ s _ _, Ok [s; "de"; "f"];
     get_answer := λ _ _ _ _, Ok None |}.

(** An embedding service that breaks its contract: it answers with the
    embedding of the first text only. *)
Definition env_short : Services Z :=
  {| globals := globals0;
     embed_content := λ _ _ texts _, Ok (embed_length <$> take 1 texts);
     store_fault := λ _, None;
     pdf_text := read_pdf;
     chunk_document_text := λ s _ _, Ok [s; "de"; "f"];
     get_answer := λ _ _ _ _, Ok None |}.

(** As [env_ok], but the store round trip made at time [n] fails. *)
Definition env_store_fails_at (n : nat) : Services Z :=
  {| globals := globals0;
     embed_content := λ _ _ texts _, Ok (embed_length <$> texts);
     store_fault := λ t,
       if decide (t = n)
       then Some (PyError "ServiceUnavailable" "503 unavailable")
       else None;
     pdf_text := read_pdf;
     chunk_document_text := λ s _ _, Ok [s; "de"; "f"];
     get_answer := λ _ _ _ _, Ok None |}.

(** As [env_ok], but every upload reads as the blank text. *)
Definition env_blank_pdf : Services Z :=
  {| globals := globals0;
     embed_content := λ _ _ texts _, Ok (embed_length <$> texts);
     store_fault := λ _, None;
     pdf_text := λ _, Ok blank_text;
     chunk_document_text := λ s _ _, Ok [s; "de"; "f"];
     get_answer := λ _ _ _ _, Ok None |}.

(** As [env_ok], but every question has the answer ["42"]. *)
Definition env_answers : Services Z :=
  {| globals := globals0;
     embed_content := λ _ _ texts _, Ok (embed_length <$> texts);
     store_fault := λ _, None;
     pdf_text := read_pdf;
     chunk_document_text := λ s _ _, Ok [s; "de"; "f"];
     get_answer := λ _ _ _ _, Ok (Some "42") |}.

Definition empty_db : Store Z :=
  {| users := ∅; sessions := ∅; documents := ∅ |}.

Definition world0 : World Z :=
  {| w_db := empty_db; w_now := 0; w_next_id := 0; w_log := [] |}.

(** A chunk document as [index_batch] stores it. *)
Definition stored (filename text : string) (vector : list Z) : DocData Z :=
  {| doc_filename := Some filename;
     doc_created_at := Some (Time 0);
     doc_text := Some text;
     doc_embedding := Some vector;
     doc_active := Some true |}.

(** A store with two chunks of [x.pdf] and one of [y.pdf] in the session
    [s] of the user [u]. *)
Definition db_two_files : Store Z :=
  {| users := {[ "u" := Time 0 ]};
     sessions := {[ ("u", "s") := Time 0 ]};
     documents :=
       <[("u", "s", 0) := stored "x.pdf" "abc" [3%Z]]>
         (<[("u", "s", 1) := stored "x.pdf" "de" [2%Z]]>
            (<[("u", "s", 2) := stored "y.pdf" "f" [1%Z]]> ∅)) |}.

Definition world_two_files : World Z :=
  {| w_db := db_two_files; w_now := 1; w_next_id := 3; w_log := [] |}.

(** A store whose session holds a chunk with a vector, one with an empty
    vector, one without vector, and one with a vector and no text. *)
Definition db_mixed : Store Z :=
  {| users := {[ "u" := Time 0 ]};
     sessions := {[ ("u", "s") := Time 0 ]};
     documents :=
       <[("u", "s", 0) := stored "x.pdf" "abc" [3%Z]]>
         (<[("u", "s", 1) := stored "x.pdf" "de" []]>
            (<[("u", "s", 2) :=
                 {| doc_filename := Some "x.pdf";
                    doc_created_at := Some (Time 0);
                    doc_text := Some "f";
                    doc_embedding := None;
                    doc_active := Some true |}]>
               (<[("u", "s", 3) :=
                    {| doc_filename := Some "x.pdf";
                       doc_created_at := Some (Time 0);
                       doc_text := None;
                       doc_embedding := Some [7%Z];
                       doc_active := Some true |}]> ∅))) |}.

Definition world_mixed : World Z :=
  {| w_db := db_mixed; w_now := 1; w_next_id := 4; w_log := [] |}.

(** Two chunks with their vectors. *)
Definition two_chunks : list (ChunkData Z) :=
  [{| cd_text := "abc"; cd_vector := [3%Z] |};
   {| cd_text := "de"; cd_vector := [2%Z] |}].

Definition file_x : UploadFile :=
  {| up_filename := "x.pdf"; up_content := [] |}.

Definition file_y : UploadFile :=
  {| up_filename := "y.pdf"; up_content := [] |}.

Definition file_corrupt : UploadFile :=
  {| up_filename := "corrupt.pdf"; up_content := [Byte.x00] |}.

(** A store with [n] chunks in the session [s] of the user [u], each with
    a vector and a text. *)
Definition db_n (n : nat) : Store Z :=
  {| users := {[ "u" := Time 0 ]};
     sessions := {[ ("u", "s") := Time 0 ]};
     documents :=
       list_to_map ((λ i, (("u", "s", i), stored "x.pdf" "t" [1%Z]))
                      <$> seq 0 n) |}.

Definition world_n (n : nat) : World Z :=
  {| w_db := db_n n; w_now := 1; w_next_id := n; w_log := [] |}.

End Examples.

(** ** The relevance cutoff that the question endpoint would need *)

(** A cutoff policy with bound [K]: whatever the services, the store and the
    question, a call of the answer service made by [question] carries at
    most [K] candidate vectors. *)
Definition relevance_cutoff (K : nat) : Prop :=
  ∀ (float : Type) (env : Services float) (user session question : string)
    (w : World float) (q : string) (vectors_list : list (list float))
    (texts_list : list (option string)),
    w_log w = [] →
    EvGetAnswer q vectors_list texts_list
      ∈ w_log (chat.question env user session question w).2 →
    length vectors_list ≤ K.

(** * Properties *)

Ltac unfold_monad :=
  unfold bind, ret, raise, lift, try_except, tick, emit, now in *.

(** ** Embedding in batches *)

Section BatcherFacts.
Context {float : Type} (env : Services float).
Import Batcher.

Lemma range_len_covers (len n : nat) :
  0 < n → len ≤ range_len len n * n.
Proof.
  intros Hn. unfold range_len. case_decide; [|lia].
  pose proof (Nat.div_mod_eq (len - 1) n) as Hdiv.
  pose proof (Nat.mod_upper_bound (len - 1) n ltac:(lia)) as Hmod.
  nia.
Qed.

Lemma range_len_start (len n k : nat) :
  0 < n → k < range_len len n → k * n < len.
Proof.
  intros Hn. unfold range_len. case_decide; [|lia].
  intros Hk.
  pose proof (Nat.div_mod_eq (len - 1) n) as Hdiv.
  assert (k ≤ (len - 1) / n) as Hle by lia.
  assert (k * n ≤ (len - 1) / n * n) by (apply Nat.mul_le_mono_r; lia).
  lia.
Qed.

Lemma concat_slices {A} (l : list A) (n m : nat) :
  concat ((λ k, take n (drop (k * n) l)) <$> seq 0 m) = take (m * n) l.
Proof.
  induction m as [|m IH].
  - reflexivity.
  - rewrite seq_S, fmap_app, concat_app, IH. simpl.
    rewrite app_nil_r, take_take_drop. f_equal. lia.
Qed.

(** The batches are a partition of the chunks, in order. *)
Lemma batches_concat (chunks : list string) (n : nat) :
  0 < n → concat (batches chunks n) = chunks.
Proof.
  intros Hn. unfold batches. rewrite concat_slices.
  apply take_ge, range_len_covers, Hn.
Qed.

(** Each batch holds between one and [n] chunks. *)
Lemma batches_bounded (chunks : list string) (n : nat) :
  0 < n → Forall (λ b, 0 < length b ≤ n) (batches chunks n).
Proof.
  intros Hn. unfold batches. apply Forall_fmap, Forall_forall.
  intros k Hk. apply elem_of_seq in Hk. simpl.
  rewrite length_take, length_drop.
  pose proof (range_len_start (length chunks) n k Hn ltac:(lia)). lia.
Qed.

Lemma embed_world_nil (w : World float) : embed_world env w [] = w.
Proof.
  destruct w. unfold embed_world. simpl. rewrite app_nil_r. f_equal. lia.
Qed.

Lemma embed_world_cons (w : World float) batch rest :
  embed_world env (embed_world env w [batch]) rest
  = embed_world env w (batch :: rest).
Proof.
  unfold embed_world. simpl. f_equal; [lia|].
  rewrite <- app_assoc. reflexivity.
Qed.

Lemma generate_embedding_run (texts : list string) (w : World float) :
  VertexAICRUD.generate_embedding env texts w
  = (embed_outcome env (w_now w) texts, embed_world env w [texts]).
Proof.
  unfold VertexAICRUD.generate_embedding,
    VertexAICRUD.generate_embedding_with, VertexAICRUD.call_embed_content.
  unfold_monad. simpl. unfold embed_outcome, embed_world, embed_config.
  simpl. replace (w_now w + 1) with (S (w_now w)) by lia.
  destruct (embed_content env _ _ _ _); reflexivity.
Qed.

Lemma gather_generate_embedding (bl : list (list string)) (w : World float) :
  gather (VertexAICRUD.generate_embedding env <$> bl) w
  = (collect (embed_outcomes env (w_now w) bl), embed_world env w bl).
Proof.
  revert w. induction bl as [|b bl IH]; intros w.
  - simpl. unfold ret. rewrite embed_world_nil. reflexivity.
  - simpl. rewrite generate_embedding_run, IH, embed_world_cons.
    simpl. replace (w_now w + 1) with (S (w_now w)) by lia.
    destruct (embed_outcome env (w_now w) b);
      destruct (collect (embed_outcomes env (S (w_now w)) bl)); reflexivity.
Qed.

(** The batcher, for a positive batch size and at least one chunk. *)
Lemma generate_embeddings_in_batches_run
    (chunks : list string) (batch_size : Z) (w : World float) :
  (0 < batch_size)%Z → chunks ≠ [] →
  document.generate_embeddings_in_batches env chunks batch_size w
  = (match collect (embed_outcomes env (w_now w)
                      (batches chunks (Z.to_nat batch_size))) with
     | Ok all_batch_responses => Ok (flatten_values all_batch_responses)
     | Raise e => Raise e
     end,
     embed_world env w (batches chunks (Z.to_nat batch_size))).
Proof.
  intros Hpos Hne. unfold document.generate_embeddings_in_batches.
  destruct chunks as [|c chunks]; [done|].
  change (negb (truthy_list (c :: chunks))) with false. cbv iota.
  unfold range0. do 2 (case_decide; [lia|]).
  assert (((λ i, VertexAICRUD.generate_embedding env
                   (slice (c :: chunks) i batch_size))
             <$> ((λ k, k * Z.to_nat batch_size)
                    <$> seq 0 (range_len (length (c :: chunks))
                                 (Z.to_nat batch_size))))
          = (VertexAICRUD.generate_embedding env
               <$> batches (c :: chunks) (Z.to_nat batch_size))) as Htasks.
  { unfold batches. rewrite <- !list_fmap_compose. reflexivity. }
  unfold bind, lift. rewrite Htasks, gather_generate_embedding.
  destruct (collect (embed_outcomes env (w_now w) _)); reflexivity.
Qed.

End BatcherFacts.

Section BatcherTheorems.
Context {float : Type} (env : Services float).
Import Batcher.

Lemma collect_embed_outcomes_ok (f : string → ContentEmbedding float)
    (t : nat) (bl : list (list string)) :
  (∀ t model (texts : list string) config,
     embed_content env t model texts config = Ok (f <$> texts)) →
  collect (embed_outcomes env t bl) = Ok (fmap (M := list) f <$> bl).
Proof.
  intros Hf. revert t. induction bl as [|b bl IH]; intros t.
  - reflexivity.
  - simpl. rewrite IH. unfold embed_outcome. rewrite Hf. reflexivity.
Qed.

Lemma flatten_values_fmap (f : string → ContentEmbedding float)
    (bl : list (list string)) :
  flatten_values (fmap (M := list) f <$> bl) = values <$> (f <$> concat bl).
Proof.
  unfold flatten_values. induction bl as [|b bl IH].
  - reflexivity.
  - rewrite fmap_cons, bind_cons, IH. simpl concat.
    rewrite !fmap_app. f_equal.
Qed.

Lemma collect_embed_outcomes_raise (t : nat) (bl : list (list string))
    (k : nat) (batch : list string) (e : exn) :
  bl !! k = Some batch →
  embed_content env (t + k) (GEMINI_EMBEDDING_MODEL (globals env))
    batch (embed_config env) = Raise e →
  ∃ detail,
    collect (embed_outcomes env t bl) = Raise (HTTPException 500 detail).
Proof.
  revert t k. induction bl as [|b bl IH]; intros t k Hk He; [done|].
  destruct k as [|k]; simpl in Hk.
  - injection Hk as ->. simpl. unfold embed_outcome.
    replace (t + 0) with t in He by lia. rewrite He. eauto.
  - replace (t + S k) with (S t + k) in He by lia.
    destruct (IH (S t) k Hk He) as [detail Hd]. simpl. rewrite Hd.
    unfold embed_outcome.
    destruct (embed_content env t _ b _); eauto.
Qed.

(** C1.  For a positive batch size and an embedding service that maps
    every batch to the vectors of its texts, one by one and in order,
    [generate_embeddings_in_batches] sends consecutive batches of at least
    one and at most [batch_size] chunks, which put end to end are the
    chunk list, and it returns exactly the vectors that one call of
    [generate_embedding] over the whole list returns. *)
Theorem generate_embeddings_in_batches_order
    (f : string → ContentEmbedding float)
    (chunks : list string) (batch_size : Z) (w : World float) :
  (0 < batch_size)%Z →
  (∀ t model (texts : list string) config,
     embed_content env t model texts config = Ok (f <$> texts)) →
  ∃ (sent : list (list string)) (whole : list (ContentEmbedding float)),
    concat sent = chunks
    ∧ Forall (λ b, 0 < length b ∧ (Z.of_nat (length b) ≤ batch_size)%Z) sent
    ∧ w_log (document.generate_embeddings_in_batches env chunks batch_size w).2
      = w_log w ++ (embed_event env <$> sent)
    ∧ (VertexAICRUD.generate_embedding env chunks w).1 = Ok whole
    ∧ (document.generate_embeddings_in_batches env chunks batch_size w).1
      = Ok (values <$> whole).
Proof.
  intros Hpos Hf.
  assert ((VertexAICRUD.generate_embedding env chunks w).1
          = Ok (f <$> chunks)) as Hwhole.
  { rewrite generate_embedding_run. simpl. unfold embed_outcome.
    rewrite Hf. reflexivity. }
  destruct (decide (chunks = [])) as [->|Hne].
  - exists [], []. simpl. rewrite app_nil_r. repeat split; auto.
  - exists (batches chunks (Z.to_nat batch_size)), (f <$> chunks).
    rewrite generate_embeddings_in_batches_run by assumption.
    rewrite (collect_embed_outcomes_ok f) by assumption.
    rewrite flatten_values_fmap, batches_concat by lia.
    repeat split; auto.
    eapply Forall_impl; [apply batches_bounded; lia|].
    simpl. intros b Hb. lia.
Qed.

(** C7.  For a positive batch size, when the embedding call of any one
    batch fails, [generate_embeddings_in_batches] raises (an
    [HTTPException] with status 500) and so hands no vector list to its
    caller; and on the empty chunk list it returns the empty list and
    leaves the world as it was: no call is made. *)
Theorem generate_embeddings_in_batches_failure
    (chunks : list string) (batch_size : Z) (w : World float) :
  ((0 < batch_size)%Z →
   (∃ k batch e,
      batches chunks (Z.to_nat batch_size) !! k = Some batch
      ∧ embed_content env (w_now w + k)
          (GEMINI_EMBEDDING_MODEL (globals env)) batch (embed_config env)
        = Raise e) →
   w_log (document.generate_embeddings_in_batches env chunks batch_size w).2
   = w_log w ++ (embed_event env <$> batches chunks (Z.to_nat batch_size))
   ∧ ∃ detail,
       (document.generate_embeddings_in_batches env chunks batch_size w).1
       = Raise (HTTPException 500 detail))
  ∧ (chunks = [] →
     document.generate_embeddings_in_batches env chunks batch_size w
     = (Ok [], w)).
Proof.
  split.
  - intros Hpos (k & batch & e & Hk & He).
    assert (chunks ≠ []) as Hne.
    { intros ->. unfold batches in Hk. simpl in Hk. done. }
    rewrite generate_embeddings_in_batches_run by assumption.
    destruct (collect_embed_outcomes_raise _ _ _ _ _ Hk He) as [detail ->].
    simpl. eauto.
  - intros ->. reflexivity.
Qed.

End BatcherTheorems.

Lemma generate_embeddings_in_batches_order_witness :
  ∃ (sent : list (list string)) (whole : list (ContentEmbedding Z)),
    concat sent = ["a"; "bb"; "ccc"; "dddd"; "eeeee"]
    ∧ Forall (λ b, 0 < length b ∧ (Z.of_nat (length b) ≤ 2)%Z) sent
    ∧ w_log (document.generate_embeddings_in_batches Examples.env_ok
               ["a"; "bb"; "ccc"; "dddd"; "eeeee"] 2 Examples.world0).2
      = w_log Examples.world0
          ++ (Batcher.embed_event Examples.env_ok <$> sent)
    ∧ (VertexAICRUD.generate_embedding Examples.env_ok
         ["a"; "bb"; "ccc"; "dddd"; "eeeee"] Examples.world0).1 = Ok whole
    ∧ (document.generate_embeddings_in_batches Examples.env_ok
         ["a"; "bb"; "ccc"; "dddd"; "eeeee"] 2 Examples.world0).1
      = Ok (values <$> whole).
Proof.
  apply (generate_embeddings_in_batches_order Examples.env_ok
           Examples.embed_length);
    [lia | reflexivity].
Defined.

Lemma generate_embeddings_in_batches_failure_witness :
  w_log (document.generate_embeddings_in_batches Examples.env_embed_fails_at_1
           ["a"; "b"; "c"] 2 Examples.world0).2
  = w_log Examples.world0
      ++ (Batcher.embed_event Examples.env_embed_fails_at_1
            <$> Batcher.batches ["a"; "b"; "c"] (Z.to_nat 2))
  ∧ ∃ detail,
      (document.generate_embeddings_in_batches Examples.env_embed_fails_at_1
         ["a"; "b"; "c"] 2 Examples.world0).1
      = Raise (HTTPException 500 detail).
Proof.
  apply (proj1 (generate_embeddings_in_batches_failure
                  Examples.env_embed_fails_at_1 ["a"; "b"; "c"] 2
                  Examples.world0));
    [lia | exists 1, ["c"], (PyError "ServerError" "503 UNAVAILABLE");
           split; reflexivity].
Defined.

(** ** The store client *)

Section FirestoreFacts.
Context {float : Type} (env : Services float).
Import Firestore StoreSpec.

Lemma collection_documents_spec (db : Store float) (user session : string)
    (id : nat) (d : DocData float) :
  (id, d) ∈ collection_documents db user session
  ↔ documents db !! (user, session, id) = Some d.
Proof.
  unfold collection_documents. rewrite list_elem_of_omap. split.
  - intros ([[[u s] i] d'] & Hin & Hsel). simpl in Hsel.
    case_decide as Hk; [|done]. destruct Hk as [-> ->].
    injection Hsel as -> ->. by apply elem_of_map_to_list in Hin.
  - intros Hlook. exists ((user, session, id), d). split.
    + by apply elem_of_map_to_list.
    + simpl. case_decide as Hk; [done|]. by destruct Hk.
Qed.

Lemma round_trip_run (w : World float) :
  round_trip env w
  = match store_fault env (w_now w) with
    | Some e => (Raise e, ticked w)
    | None => (Ok (w_now w), ticked w)
    end.
Proof.
  unfold round_trip. unfold_monad. simpl.
  destruct (store_fault env (w_now w)); reflexivity.
Qed.

Lemma stream_documents_run (user session : string) (w : World float) :
  stream_documents env user session w
  = match store_fault env (w_now w) with
    | Some e => (Raise e, ticked w)
    | None => (Ok (collection_documents (w_db w) user session), ticked w)
    end.
Proof.
  unfold stream_documents. unfold bind at 1. rewrite round_trip_run.
  destruct (store_fault env (w_now w)); reflexivity.
Qed.

Lemma stream_sessions_run (user : string) (w : World float) :
  stream_sessions env user w
  = match store_fault env (w_now w) with
    | Some e => (Raise e, ticked w)
    | None => (Ok (collection_sessions (w_db w) user), ticked w)
    end.
Proof.
  unfold stream_sessions. unfold bind at 1. rewrite round_trip_run.
  destruct (store_fault env (w_now w)); reflexivity.
Qed.

Lemma stream_where_filename_run (user session filename : string)
    (w : World float) :
  stream_where_filename env user session filename w
  = match store_fault env (w_now w) with
    | Some e => (Raise e, ticked w)
    | None =>
        (Ok (List.filter (matches filename)
               (collection_documents (w_db w) user session)), ticked w)
    end.
Proof.
  unfold stream_where_filename. unfold bind at 1. rewrite round_trip_run.
  destruct (store_fault env (w_now w)); reflexivity.
Qed.

Lemma commit_run (batch : list (WriteOp float)) (w : World float) :
  commit env batch w
  = match store_fault env (w_now w) with
    | Some e => (Raise e, ticked w)
    | None => (Ok tt, committed w batch)
    end.
Proof.
  unfold commit. unfold bind at 1. rewrite round_trip_run.
  destruct (store_fault env (w_now w)); reflexivity.
Qed.

End FirestoreFacts.

(** ** Fetching the vectors of a session *)

Section VectorsTheorems.
Context {float : Type} (env : Services float).
Import Firestore StoreSpec.

Lemma vectors_run (user session : string) (w : World float) :
  FirestoreCRUD.vectors env user session w
  = match store_fault env (w_now w) with
    | Some e =>
        (Raise (HTTPException 500 ("Failed to retrieve vectors: " ++ str e)),
         ticked w)
    | None =>
        (Ok (foldl FirestoreCRUD.vectors_step ([], [])
               (collection_documents (w_db w) user session)), ticked w)
    end.
Proof.
  unfold FirestoreCRUD.vectors, try_except. unfold bind at 1.
  rewrite stream_documents_run.
  destruct (store_fault env (w_now w)); reflexivity.
Qed.

Lemma vectors_loop_spec (docs : list (nat * DocData float))
    (acc : list (list float) * list (option string)) :
  foldl FirestoreCRUD.vectors_step acc docs
  = (acc.1 ++ (omap with_embedding docs).*1,
     acc.2 ++ (omap with_embedding docs).*2).
Proof.
  revert acc. induction docs as [|doc docs IH]; intros [vs ts].
  - simpl. by rewrite !app_nil_r.
  - destruct doc as [id [fn created tx [[|x v]|] act]];
      simpl; rewrite IH; simpl; rewrite <- ?app_assoc; reflexivity.
Qed.

(** C9.  When the store answers, [vectors] returns a list of vectors and
    a list of texts of the same length; position by position they are the
    vector and the text of one stored chunk of the scope, and the chunks
    whose embedding is absent or empty appear in neither list.  (When the
    store does not answer, [vectors] raises: see [vectors_run].) *)
Theorem vectors_aligned (user session : string) (w : World float) :
  store_fault env (w_now w) = None →
  ∃ all_vectors all_texts,
    (FirestoreCRUD.vectors env user session w).1
    = Ok (all_vectors, all_texts)
    ∧ length all_vectors = length all_texts
    ∧ zip all_vectors all_texts
      = omap with_embedding (collection_documents (w_db w) user session)
    ∧ (∀ i vector text,
         all_vectors !! i = Some vector → all_texts !! i = Some text →
         vector ≠ []
         ∧ ∃ id d,
             documents (w_db w) !! (user, session, id) = Some d
             ∧ doc_embedding d = Some vector ∧ doc_text d = text).
Proof.
  intros Hok. rewrite vectors_run, Hok. simpl.
  rewrite vectors_loop_spec. simpl.
  set (sel := omap with_embedding
                (collection_documents (w_db w) user session)).
  exists (sel.*1), (sel.*2).
  assert (zip (sel.*1) (sel.*2) = sel) as Hzip by apply zip_fst_snd.
  repeat split.
  - by rewrite !length_fmap.
  - exact Hzip.
  - assert ((vector, text) ∈ sel) as Hin.
    { rewrite <- Hzip. apply list_elem_of_lookup. exists i.
      apply lookup_zip_with_Some. eauto. }
    apply list_elem_of_omap in Hin as ([id d] & _ & Hsel).
    unfold with_embedding in Hsel. simpl in Hsel.
    destruct (doc_embedding d) as [[|x v]|]; try done.
    by injection Hsel as <- <-.
  - assert ((vector, text) ∈ sel) as Hin.
    { rewrite <- Hzip. apply list_elem_of_lookup. exists i.
      apply lookup_zip_with_Some. eauto. }
    apply list_elem_of_omap in Hin as ([id d] & Hdoc & Hsel).
    apply collection_documents_spec in Hdoc.
    unfold with_embedding in Hsel. simpl in Hsel.
    exists id, d. destruct (doc_embedding d) as [[|x v]|]; try done.
    by injection Hsel as <- <-.
Qed.

End VectorsTheorems.

(** ** Deleting the chunks of a file *)

Section DeleteFacts.
Context {float : Type} (env : Services float).
Import Firestore StoreSpec.

Lemma apply_batch_deletes (t : nat) (refs : list DocRef) (db : Store float) :
  users (apply_batch t db (DeleteDocument <$> refs)) = users db
  ∧ sessions (apply_batch t db (DeleteDocument <$> refs)) = sessions db
  ∧ ∀ key,
      documents (apply_batch t db (DeleteDocument <$> refs)) !! key
      = if decide (key ∈ refs) then None else documents db !! key.
Proof.
  unfold apply_batch. revert db.
  induction refs as [|ref refs IH]; intros db.
  - simpl. split; [done|]. split; [done|]. intros key.
    destruct (decide (key ∈ [])) as [Hin|]; [|done].
    by apply elem_of_nil in Hin.
  - rewrite fmap_cons. simpl foldl.
    destruct (IH (apply_op t db (DeleteDocument ref))) as (Hu & Hs & Hd).
    simpl in Hu, Hs, Hd.
    rewrite Hu, Hs. split; [done|]. split; [done|].
    intros key. rewrite Hd.
    destruct (decide (key = ref)) as [->|Hne].
    + rewrite lookup_delete_eq.
      rewrite (decide_True (P := ref ∈ ref :: refs)) by apply list_elem_of_here.
      by case_decide.
    + rewrite lookup_delete_ne by done.
      destruct (decide (key ∈ refs)) as [Hin|Hnin].
      * by rewrite decide_True by by apply list_elem_of_further.
      * rewrite decide_False; [done|].
        intros Hin. apply elem_of_cons in Hin as [?|?]; done.
Qed.

Lemma matched_refs (db : Store float) (user session filename : string)
    (key : string * string * nat) :
  key ∈ ((λ doc : nat * DocData float, (user, session, doc.1))
           <$> List.filter (matches filename)
                 (collection_documents db user session))
  ↔ chunk_of db user session filename key.
Proof.
  rewrite list_elem_of_fmap. unfold chunk_of. split.
  - intros ([id d] & -> & Hin). simpl.
    apply list_elem_of_In, filter_In in Hin as [Hin Hm].
    apply list_elem_of_In, collection_documents_spec in Hin.
    unfold matches in Hm. apply bool_decide_eq_true in Hm. eauto.
  - intros (Hu & Hs & d & Hd & Hf). destruct key as [[u s] id].
    simpl in Hu, Hs. subst u s. exists (id, d). split; [done|].
    apply list_elem_of_In, filter_In. split.
    + by apply list_elem_of_In, collection_documents_spec.
    + unfold matches. by apply bool_decide_eq_true.
Qed.

Lemma delete_run (user session filename : string) (w : World float) :
  FirestoreCRUD.delete env user session filename w
  = match store_fault env (w_now w) with
    | Some e =>
        (Raise (if is_http e then e
                else HTTPException 500
                       ("Failed to delete documents: " ++ str e)),
         ticked w)
    | None =>
        let docs_to_delete :=
          List.filter (matches filename)
            (collection_documents (w_db w) user session) in
        if negb (truthy_list docs_to_delete) then
          (Raise (HTTPException 404
                    ("No documents found with the filename '"
                       ++ filename ++ "'.")),
           ticked w)
        else
          match store_fault env (S (w_now w)) with
          | Some e =>
              (Raise (if is_http e then e
                      else HTTPException 500
                             ("Failed to delete documents: " ++ str e)),
               ticked (ticked w))
          | None =>
              (Ok {| message :=
                       "Successfully deleted "
                         ++ pretty (length docs_to_delete)
                         ++ " document(s) with the filename '"
                         ++ filename ++ "'." |},
               committed (ticked w)
                 ((λ doc : nat * DocData float,
                     DeleteDocument (user, session, doc.1))
                    <$> docs_to_delete))
          end
    end.
Proof.
  unfold FirestoreCRUD.delete, try_except. unfold bind at 1.
  rewrite stream_where_filename_run.
  destruct (store_fault env (w_now w)) as [e|].
  { unfold raise. destruct (is_http e); reflexivity. }
  simpl.
  destruct (negb (truthy_list _)); [reflexivity|].
  unfold bind at 1. rewrite commit_run. simpl.
  destruct (store_fault env (S (w_now w))) as [e|].
  { unfold raise. destruct (is_http e); reflexivity. }
  reflexivity.
Qed.

End DeleteFacts.

Section DeleteTheorems.
Context {float : Type} (env : Services float).
Import Firestore StoreSpec.

Lemma delete_batch_refs (user session : string)
    (docs : list (nat * DocData float)) :
  ((λ doc : nat * DocData float, DeleteDocument (user, session, doc.1))
     <$> docs : list (WriteOp float))
  = DeleteDocument <$> ((λ doc : nat * DocData float, (user, session, doc.1))
                          <$> docs).
Proof. by rewrite <- list_fmap_compose. Qed.

(** What a [delete] that returns has done to the store. *)
Lemma delete_ok (user session filename : string) (w w' : World float)
    (res : DeleteResult) :
  FirestoreCRUD.delete env user session filename w = (Ok res, w') →
  w_now w' = 2 + w_now w
  ∧ users (w_db w') = users (w_db w)
  ∧ sessions (w_db w') = sessions (w_db w)
  ∧ (∀ key, chunk_of (w_db w) user session filename key →
            documents (w_db w') !! key = None)
  ∧ (∀ key, ¬ chunk_of (w_db w) user session filename key →
            documents (w_db w') !! key = documents (w_db w) !! key).
Proof.
  rewrite delete_run.
  destruct (store_fault env (w_now w)); [done|]. simpl.
  destruct (negb (truthy_list _)); [done|].
  destruct (store_fault env (S (w_now w))); [done|].
  intros [= <- <-]. simpl. rewrite delete_batch_refs.
  destruct (apply_batch_deletes (S (w_now w))
              ((λ doc : nat * DocData float, (user, session, doc.1))
                 <$> List.filter (matches filename)
                       (collection_documents (w_db w) user session))
              (w_db w)) as (Hu & Hs & Hd).
  split; [done|]. split; [done|]. split; [done|]. split.
  - intros key Hkey. rewrite Hd.
    apply matched_refs in Hkey. by rewrite decide_True.
  - intros key Hkey. rewrite Hd. rewrite decide_False; [done|].
    by rewrite matched_refs.
Qed.

Lemma matched_nonempty (db : Store float) (user session filename : string) :
  (∃ key, chunk_of db user session filename key) →
  truthy_list (List.filter (matches filename)
                 (collection_documents db user session)) = true.
Proof.
  intros [key Hkey]. apply matched_refs in Hkey.
  destruct (List.filter _ _); [|done].
  by apply elem_of_nil in Hkey.
Qed.

(** C10.  When at least one chunk of the scope carries the file name,
    [delete] has one of two outcomes.  If the store answers the query and
    accepts the commit, [delete] returns after these two round trips, every
    chunk of the scope with that file name is gone and nothing else in the
    store has changed.  If the query or the one commit fails, [delete]
    raises and the store is as it was: no chunk has been deleted. *)
Theorem delete_all_or_nothing (user session filename : string)
    (w : World float) :
  (∃ key, chunk_of (w_db w) user session filename key) →
  (store_fault env (w_now w) = None
   ∧ store_fault env (S (w_now w)) = None
   ∧ ∃ res,
       (FirestoreCRUD.delete env user session filename w).1 = Ok res
       ∧ w_now (FirestoreCRUD.delete env user session filename w).2
         = 2 + w_now w
       ∧ users (w_db (FirestoreCRUD.delete env user session filename w).2)
         = users (w_db w)
       ∧ sessions
           (w_db (FirestoreCRUD.delete env user session filename w).2)
         = sessions (w_db w)
       ∧ (∀ key, chunk_of (w_db w) user session filename key →
            documents
              (w_db (FirestoreCRUD.delete env user session filename w).2)
              !! key = None)
       ∧ (∀ key, ¬ chunk_of (w_db w) user session filename key →
            documents
              (w_db (FirestoreCRUD.delete env user session filename w).2)
              !! key = documents (w_db w) !! key))
  ∨ ((is_Some (store_fault env (w_now w))
      ∨ is_Some (store_fault env (S (w_now w))))
     ∧ ∃ e,
         (FirestoreCRUD.delete env user session filename w).1 = Raise e
         ∧ w_db (FirestoreCRUD.delete env user session filename w).2
           = w_db w).
Proof.
  intros Hmatch.
  destruct (FirestoreCRUD.delete env user session filename w)
    as [r w'] eqn:Hrun.
  pose proof Hrun as Hrun'. rewrite delete_run in Hrun'.
  destruct (store_fault env (w_now w)) as [e1|] eqn:H1.
  { right. injection Hrun' as <- <-. split; [left; eauto|]. eauto. }
  simpl in Hrun'. rewrite matched_nonempty in Hrun' by done.
  simpl in Hrun'.
  destruct (store_fault env (S (w_now w))) as [e2|] eqn:H2.
  { right. injection Hrun' as <- <-. split; [right; eauto|]. eauto. }
  left. split; [done|]. split; [done|].
  injection Hrun' as <- <-.
  eexists. split; [reflexivity|]. exact (delete_ok _ _ _ _ _ _ Hrun).
Qed.

End DeleteTheorems.

Lemma delete_all_or_nothing_witness :
  (store_fault Examples.env_ok (w_now Examples.world_two_files) = None
   ∧ store_fault Examples.env_ok (S (w_now Examples.world_two_files)) = None
   ∧ ∃ res,
       (FirestoreCRUD.delete Examples.env_ok "u" "s" "x.pdf"
          Examples.world_two_files).1 = Ok res
       ∧ w_now (FirestoreCRUD.delete Examples.env_ok "u" "s" "x.pdf"
                  Examples.world_two_files).2
         = 2 + w_now Examples.world_two_files
       ∧ users (w_db (FirestoreCRUD.delete Examples.env_ok "u" "s" "x.pdf"
                        Examples.world_two_files).2)
         = users (w_db Examples.world_two_files)
       ∧ sessions (w_db (FirestoreCRUD.delete Examples.env_ok "u" "s" "x.pdf"
                           Examples.world_two_files).2)
         = sessions (w_db Examples.world_two_files)
       ∧ (∀ key,
            StoreSpec.chunk_of (w_db Examples.world_two_files)
              "u" "s" "x.pdf" key →
            documents
              (w_db (FirestoreCRUD.delete Examples.env_ok "u" "s" "x.pdf"
                       Examples.world_two_files).2) !! key = None)
       ∧ (∀ key,
            ¬ StoreSpec.chunk_of (w_db Examples.world_two_files)
                "u" "s" "x.pdf" key →
            documents
              (w_db (FirestoreCRUD.delete Examples.env_ok "u" "s" "x.pdf"
                       Examples.world_two_files).2) !! key
            = documents (w_db Examples.world_two_files) !! key))
  ∨ ((is_Some (store_fault Examples.env_ok (w_now Examples.world_two_files))
      ∨ is_Some (store_fault Examples.env_ok
                   (S (w_now Examples.world_two_files))))
     ∧ ∃ e,
         (FirestoreCRUD.delete Examples.env_ok "u" "s" "x.pdf"
            Examples.world_two_files).1 = Raise e
         ∧ w_db (FirestoreCRUD.delete Examples.env_ok "u" "s" "x.pdf"
                   Examples.world_two_files).2
           = w_db Examples.world_two_files).
Proof.
  apply (delete_all_or_nothing Examples.env_ok "u" "s" "x.pdf"
           Examples.world_two_files).
  exists ("u", "s", 0). unfold StoreSpec.chunk_of. simpl.
  split; [reflexivity|]. split; [reflexivity|].
  exists (Examples.stored "x.pdf" "abc" [3%Z]).
  split; [vm_compute; reflexivity | reflexivity].
Defined.

(** ** Listing the documents of a user *)

Section ListFacts.
Context {float : Type} (env : Services float).
Import Firestore StoreSpec.

Lemma dict_get_elem {V} (k : string) (d : PyDict.dict V) (v : V) :
  PyDict.get k d = Some v → (k, v) ∈ d.
Proof.
  induction d as [|[k' v'] d IH]; simpl; [done|].
  case_decide as Hk.
  - intros [= ->]. subst k'. apply list_elem_of_here.
  - intros Hget. apply list_elem_of_further, IH, Hget.
Qed.

Lemma dict_set_elem {V} (k : string) (v : V) (d : PyDict.dict V)
    (k' : string) (v' : V) :
  (k', v') ∈ PyDict.set k v d → (k', v') = (k, v) ∨ (k', v') ∈ d.
Proof.
  induction d as [|[k0 v0] d IH]; simpl.
  - intros Hin. apply list_elem_of_singleton in Hin. by left.
  - case_decide as Hk.
    + intros Hin. apply elem_of_cons in Hin as [?|?]; [by left|].
      right. by apply list_elem_of_further.
    + intros Hin. apply elem_of_cons in Hin as [->|Hin].
      * right. apply list_elem_of_here.
      * destruct (IH Hin) as [?|?]; [by left|].
        right. by apply list_elem_of_further.
Qed.

Lemma summary_sound_nil (flat : list FlatDocument) : summary_sound flat [].
Proof. intros sid files k v Hin. by apply elem_of_nil in Hin. Qed.

Lemma list_summary_step_sound (flat : list FlatDocument)
    (sessions_summary : PyDict.dict (PyDict.dict FileSummary))
    (doc : FlatDocument) :
  doc ∈ flat →
  summary_sound flat sessions_summary →
  summary_sound flat (FirestoreCRUD.list_summary_step sessions_summary doc).
Proof.
  intros Hdoc Hsound. unfold FirestoreCRUD.list_summary_step.
  destruct (negb (truthy_str (fd_session_id doc))
            || negb (truthy_opt_str (fd_filename doc))) eqn:Hskip;
    [done|].
  destruct (fd_filename doc) as [fname|] eqn:Hfname;
    [|by rewrite orb_true_r in Hskip].
  simpl default.
  set (sid := fd_session_id doc).
  set (summary1 := if PyDict.mem sid sessions_summary then sessions_summary
                   else PyDict.set sid [] sessions_summary).
  assert (summary_sound flat summary1) as Hsound1.
  { subst summary1. destruct (PyDict.mem sid sessions_summary); [done|].
    intros sid' files k v Hin Hkv.
    apply dict_set_elem in Hin as [[= -> ->]|Hin].
    - by apply elem_of_nil in Hkv.
    - by eapply Hsound. }
  set (files := default [] (PyDict.get sid summary1)).
  assert (∀ k v, (k, v) ∈ files →
            fs_filename v = k
            ∧ ∃ doc', doc' ∈ flat ∧ fd_session_id doc' = sid
                      ∧ fd_filename doc' = Some k) as Hfiles.
  { subst files. destruct (PyDict.get sid summary1) as [fs|] eqn:Hget.
    - simpl. intros k v Hkv. apply dict_get_elem in Hget.
      by eapply Hsound1.
    - simpl. intros k v Hkv. by apply elem_of_nil in Hkv. }
  set (files1 := if PyDict.mem fname files then files
                 else PyDict.set fname
                        {| fs_filename := fname; fs_chunk_count := 0 |}
                        files).
  assert (∀ k v, (k, v) ∈ files1 →
            fs_filename v = k
            ∧ ∃ doc', doc' ∈ flat ∧ fd_session_id doc' = sid
                      ∧ fd_filename doc' = Some k) as Hfiles1.
  { subst files1. destruct (PyDict.mem fname files); [done|].
    intros k v Hkv. apply dict_set_elem in Hkv as [[= -> ->]|Hkv].
    - split; [done|]. exists doc. done.
    - by apply Hfiles. }
  intros sid' files' k v Hin Hkv.
  apply dict_set_elem in Hin as [[= -> ->]|Hin];
    [|by eapply Hsound1].
  destruct (PyDict.get fname files1) as [entry|] eqn:Hentry;
    [|by apply Hfiles1].
  apply dict_get_elem in Hentry.
  apply dict_set_elem in Hkv as [[= -> ->]|Hkv]; [|by apply Hfiles1].
  simpl. apply Hfiles1 in Hentry as [Hname Hfrom]. done.
Qed.

Lemma list_summary_sound_from (flat rest : list FlatDocument)
    (sessions_summary : PyDict.dict (PyDict.dict FileSummary)) :
  rest ⊆ flat →
  summary_sound flat sessions_summary →
  summary_sound flat
    (foldl FirestoreCRUD.list_summary_step sessions_summary rest).
Proof.
  revert sessions_summary.
  induction rest as [|doc rest IH]; intros summary Hsub Hsound; [done|].
  simpl. apply IH.
  - intros x Hx. apply Hsub. by apply list_elem_of_further.
  - apply list_summary_step_sound; [|done].
    apply Hsub, list_elem_of_here.
Qed.

Lemma list_summary_sound (flat : list FlatDocument) :
  summary_sound flat (FirestoreCRUD.list_summary flat).
Proof.
  apply list_summary_sound_from; [done|apply summary_sound_nil].
Qed.

(** The documents that the first loop of [list] gathers are stored chunks
    of the user; the loop only reads the store. *)
Lemma list_flat_loop_ok (user : string) (all_sessions : list string)
    (acc flat : list FlatDocument) (w w' : World float) :
  FirestoreCRUD.list_flat_loop env user all_sessions acc w = (Ok flat, w') →
  w_db w' = w_db w
  ∧ ∀ doc, doc ∈ flat →
      doc ∈ acc
      ∨ ∃ id d, documents (w_db w) !! (user, fd_session_id doc, id) = Some d
                ∧ doc_filename d = fd_filename doc.
Proof.
  revert acc w. induction all_sessions as [|session rest IH]; intros acc w.
  - simpl. intros [= <- <-]. split; [done|]. by left.
  - simpl. unfold bind at 1. rewrite stream_documents_run.
    destruct (store_fault env (w_now w)); [done|].
    intros Hrest. apply IH in Hrest as [Hdb Hflat].
    split; [done|]. intros doc Hdoc.
    destruct (Hflat doc Hdoc) as [Hacc|Hstored]; [|by right].
    apply elem_of_app in Hacc as [?|Hnew]; [by left|]. right.
    apply list_elem_of_fmap in Hnew as ([id d] & -> & Hin).
    apply collection_documents_spec in Hin. simpl. eauto.
Qed.

Lemma list_flat_loop_returns (user : string) (all_sessions : list string)
    (acc : list FlatDocument) (w : World float) :
  (∀ t, w_now w ≤ t → store_fault env t = None) →
  ∃ flat w',
    FirestoreCRUD.list_flat_loop env user all_sessions acc w = (Ok flat, w').
Proof.
  revert acc w. induction all_sessions as [|session rest IH];
    intros acc w Hok.
  - simpl. eauto.
  - simpl. unfold bind at 1. rewrite stream_documents_run.
    rewrite Hok by lia. apply IH. simpl. intros t Ht. apply Hok. lia.
Qed.

(** A listing that [list] returns names only files of stored chunks. *)
Lemma list_ok (user : string) (w : World float)
    (listing : list SessionSummary) :
  (FirestoreCRUD.list env user w).1 = Ok listing →
  ∀ entry file,
    entry ∈ listing → file ∈ ss_files entry →
    ∃ id d,
      documents (w_db w) !! (user, ss_session_id entry, id) = Some d
      ∧ doc_filename d = Some (fs_filename file).
Proof.
  unfold FirestoreCRUD.list, try_except. unfold bind at 1.
  rewrite stream_sessions_run.
  destruct (store_fault env (w_now w)); [done|].
  unfold bind.
  destruct (FirestoreCRUD.list_flat_loop env user _ [] (ticked w))
    as [[flat|e] w'] eqn:Hloop; [|done].
  simpl. intros [= <-] entry file Hentry Hfile.
  apply list_flat_loop_ok in Hloop as [_ Hflat].
  unfold FirestoreCRUD.list_final_result, PyDict.items in Hentry.
  apply list_elem_of_fmap in Hentry as ([sid files] & -> & Hin).
  simpl in *. unfold PyDict.values in Hfile.
  apply list_elem_of_fmap in Hfile as ([k v] & -> & Hkv). simpl.
  destruct (list_summary_sound flat sid files k v Hin Hkv)
    as (-> & doc & Hdoc & <- & Hname).
  destruct (Hflat doc Hdoc) as [Hnil|(id & d & Hd & Hf)].
  - by apply elem_of_nil in Hnil.
  - exists id, d. by rewrite Hf.
Qed.

Lemma list_returns (user : string) (w : World float) :
  (∀ t, w_now w ≤ t → store_fault env t = None) →
  ∃ listing, (FirestoreCRUD.list env user w).1 = Ok listing.
Proof.
  intros Hok. unfold FirestoreCRUD.list, try_except. unfold bind at 1.
  rewrite stream_sessions_run, Hok by lia. unfold bind.
  destruct (list_flat_loop_returns user
              (collection_sessions (w_db w) user) [] (ticked w))
    as (flat & w' & ->).
  { simpl. intros t Ht. apply Hok. lia. }
  simpl. eauto.
Qed.

(** C8.  After a [delete] that returned, a listing of the user's documents
    shows no file of that name in that session; and the listing is
    returned whenever the store answers its queries. *)
Theorem delete_then_list (user session filename : string)
    (w w1 : World float) (res : DeleteResult) :
  FirestoreCRUD.delete env user session filename w = (Ok res, w1) →
  (∀ listing entry file,
     (FirestoreCRUD.list env user w1).1 = Ok listing →
     entry ∈ listing → ss_session_id entry = session →
     file ∈ ss_files entry → fs_filename file ≠ filename)
  ∧ ((∀ t, w_now w1 ≤ t → store_fault env t = None) →
     ∃ listing, (FirestoreCRUD.list env user w1).1 = Ok listing).
Proof.
  intros Hdel. split; [|apply list_returns].
  intros listing entry file Hlist Hentry Hsession Hfile Hname.
  destruct (list_ok user w1 listing Hlist entry file Hentry Hfile)
    as (id & d & Hd & Hf).
  rewrite Hsession, Hname in *.
  apply delete_ok in Hdel as (_ & _ & _ & Hgone & Hrest).
  destruct (documents (w_db w) !! (user, session, id)) as [d0|] eqn:Hold.
  - destruct (doc_filename d0) as [f0|] eqn:Hf0.
    + destruct (decide (f0 = filename)) as [->|Hne].
      * rewrite Hgone in Hd; [done|].
        split; [done|]. split; [done|]. eauto.
      * rewrite Hrest, Hold in Hd.
        { injection Hd as <-. congruence. }
        intros (_ & _ & d' & Hd' & Hf'). congruence.
    + rewrite Hrest, Hold in Hd.
      { injection Hd as <-. congruence. }
      intros (_ & _ & d' & Hd' & Hf'). congruence.
  - rewrite Hrest, Hold in Hd; [done|].
    intros (_ & _ & d' & Hd' & Hf'). congruence.
Qed.

End ListFacts.

(** ** Indexing the chunks of a file *)

Section IndexFacts.
Context {float : Type} (env : Services float).
Import Firestore StoreSpec.

Lemma set_ops_cons (user session filename : string) (start : nat)
    (c : ChunkData float) (cs : list (ChunkData float)) :
  set_ops user session filename start (c :: cs)
  = SetDocument (user, session, start)
      (FirestoreCRUD.document_payload filename c)
      :: set_ops user session filename (S start) cs.
Proof. reflexivity. Qed.

Lemma index_batch_loop_run (user session filename : string)
    (chunks : list (ChunkData float)) (ids : list nat)
    (batch : list (WriteOp float)) (w : World float) :
  FirestoreCRUD.index_batch_loop user session filename chunks ids batch w
  = (Ok (ids ++ seq (w_next_id w) (length chunks),
         batch ++ set_ops user session filename (w_next_id w) chunks),
     allocated w (length chunks)).
Proof.
  revert ids batch w. induction chunks as [|c cs IH]; intros ids batch w.
  - simpl. unfold ret, allocated, set_ops. simpl. rewrite !app_nil_r.
    destruct w. simpl. do 2 f_equal. lia.
  - simpl FirestoreCRUD.index_batch_loop. unfold bind, document_auto_id.
    rewrite IH. simpl. rewrite set_ops_cons, <- !app_assoc. simpl.
    unfold allocated. simpl. do 2 f_equal. lia.
Qed.

Lemma index_batch_run (user session filename : string)
    (chunks : list (ChunkData float)) (w : World float) :
  FirestoreCRUD.index_batch env user session filename chunks w
  = match store_fault env (w_now w) with
    | Some e =>
        (Raise (HTTPException 500
                  ("Falha ao indexar documentos em lote: " ++ str e)),
         ticked (allocated w (length chunks)))
    | None =>
        (Ok (seq (w_next_id w) (length chunks)),
         committed (allocated w (length chunks))
           (index_ops user session filename (w_next_id w) chunks))
    end.
Proof.
  unfold FirestoreCRUD.index_batch, try_except. unfold bind at 1.
  rewrite index_batch_loop_run. simpl. unfold bind. rewrite commit_run.
  simpl. destruct (store_fault env (w_now w)); reflexivity.
Qed.

(** The documents after the [batch.set] writes of the chunks. *)
Lemma apply_set_ops (t : nat) (user session filename : string)
    (chunks : list (ChunkData float)) (start : nat) (db : Store float) :
  users (apply_batch t db (set_ops user session filename start chunks))
  = users db
  ∧ sessions (apply_batch t db (set_ops user session filename start chunks))
    = sessions db
  ∧ ∀ u s id,
      documents
        (apply_batch t db (set_ops user session filename start chunks))
        !! (u, s, id)
      = if decide (u = user ∧ s = session
                   ∧ start ≤ id < start + length chunks)
        then (λ c, persisted t filename (cd_text c) (cd_vector c))
               <$> chunks !! (id - start)
        else documents db !! (u, s, id).
Proof.
  unfold apply_batch. revert start db.
  induction chunks as [|c cs IH]; intros start db.
  - simpl. split; [done|]. split; [done|]. intros u s id.
    rewrite decide_False; [done|]. lia.
  - rewrite set_ops_cons. simpl foldl.
    destruct (IH (S start)
                (apply_op t db
                   (SetDocument (user, session, start)
                      (FirestoreCRUD.document_payload filename c))))
      as (Hu & Hs & Hd).
    simpl in Hu, Hs, Hd. rewrite Hu, Hs.
    split; [done|]. split; [done|]. intros u s id. rewrite Hd.
    simpl length.
    case_decide as H1; case_decide as H2.
    + destruct H1 as (-> & -> & Hid).
      replace (id - start) with (S (id - S start)) by lia. reflexivity.
    + exfalso. apply H2. destruct H1 as (-> & -> & Hid).
      repeat split; lia.
    + destruct H2 as (-> & -> & Hid).
      assert (id = start) as ->.
      { destruct (decide (id = start)); [done|].
        exfalso. apply H1. repeat split; lia. }
      rewrite lookup_insert_eq, Nat.sub_diag. reflexivity.
    + rewrite lookup_insert_ne; [done|].
      intros [= -> -> ->]. apply H2. repeat split; lia.
Qed.

Lemma apply_index_ops (t : nat) (user session filename : string)
    (chunks : list (ChunkData float)) (start : nat) (db : Store float) :
  ∀ u s id,
    documents
      (apply_batch t db (index_ops user session filename start chunks))
      !! (u, s, id)
    = if decide (u = user ∧ s = session
                 ∧ start ≤ id < start + length chunks)
      then (λ c, persisted t filename (cd_text c) (cd_vector c))
             <$> chunks !! (id - start)
      else documents db !! (u, s, id).
Proof.
  intros u s id. unfold index_ops, apply_batch. simpl foldl.
  destruct (apply_set_ops t user session filename chunks start
              (apply_op t (apply_op t db (SetUserUpdated user))
                 (SetSessionUpdated user session))) as (_ & _ & Hd).
  unfold apply_batch in Hd. simpl in Hd. rewrite Hd. done.
Qed.

End IndexFacts.

(** ** Processing one uploaded file *)

Section ProcessFacts.
Context {float : Type} (env : Services float).
Import Firestore StoreSpec Batcher.

Lemma generate_embeddings_world (chunks : list string) (batch_size : Z)
    (w : World float) :
  (0 < batch_size)%Z →
  w_db (document.generate_embeddings_in_batches env chunks batch_size w).2
  = w_db w
  ∧ w_next_id
      (document.generate_embeddings_in_batches env chunks batch_size w).2
    = w_next_id w.
Proof.
  intros Hpos. destruct (decide (chunks = [])) as [->|Hne]; [done|].
  by rewrite generate_embeddings_in_batches_run.
Qed.

Lemma flatten_values_cons (a : list (ContentEmbedding float))
    (l : list (list (ContentEmbedding float))) :
  flatten_values (a :: l) = (values <$> a) ++ flatten_values l.
Proof. reflexivity. Qed.

Lemma collect_lengths (t : nat) (bl : list (list string))
    (rs : list (list (ContentEmbedding float))) :
  one_to_one env →
  collect (embed_outcomes env t bl) = Ok rs →
  length (flatten_values rs) = length (concat bl).
Proof.
  intros Hcontract. revert t rs.
  induction bl as [|b bl IH]; intros t rs.
  - simpl. by intros [= <-].
  - simpl. destruct (embed_outcome env t b) as [a|e] eqn:Ha; [|done].
    destruct (collect (embed_outcomes env (S t) bl)) as [l|e] eqn:Hl;
      [|done].
    intros [= <-]. rewrite flatten_values_cons, !length_app, length_fmap.
    rewrite (IH _ _ Hl). f_equal.
    unfold embed_outcome in Ha.
    destruct (embed_content env t _ b _) as [a'|] eqn:Hcall; [|done].
    injection Ha as ->. by eapply Hcontract.
Qed.

Lemma generate_embeddings_lengths (chunks : list string) (batch_size : Z)
    (w : World float) (vectors : list (list float)) :
  one_to_one env → (0 < batch_size)%Z →
  (document.generate_embeddings_in_batches env chunks batch_size w).1
  = Ok vectors →
  length vectors = length chunks.
Proof.
  intros Hcontract Hpos.
  destruct (decide (chunks = [])) as [->|Hne].
  - simpl. by intros [= <-].
  - rewrite generate_embeddings_in_batches_run by done. simpl.
    destruct (collect _) as [rs|] eqn:Hrs; [|done].
    intros [= <-]. rewrite (collect_lengths _ _ _ Hcontract Hrs).
    rewrite batches_concat; [done|lia].
Qed.

Lemma process_run (user session : string) (file : UploadFile)
    (w : World float) :
  document._process_and_index_file env user session file w
  = let chunks := document._extract_and_chunk_text env (up_content file) in
    if truthy_list chunks then
      match document.generate_embeddings_in_batches env chunks
              document.default_batch_size w with
      | (Raise e, w1) => (Ok (FileError (up_filename file) (str e)), w1)
      | (Ok chunk_vectors, w1) =>
          if truthy_list chunk_vectors then
            match FirestoreCRUD.index_batch env user session
                    (up_filename file)
                    (document.chunks_to_index chunks chunk_vectors) w1 with
            | (Raise e, w2) =>
                (Ok (FileError (up_filename file) (str e)), w2)
            | (Ok indexed_ids, w2) =>
                (Ok (FileSuccess (up_filename file) (length indexed_ids)
                       indexed_ids), w2)
            end
          else
            (Ok (FileError (up_filename file)
                   "Failed to generate embeddings for text chunks."), w1)
      end
    else
      (Ok (FileError (up_filename file)
             "No text found or failed to create chunks."), w).
Proof.
  unfold document._process_and_index_file, try_except, bind, ret.
  cbv zeta.
  destruct (truthy_list (document._extract_and_chunk_text env
                           (up_content file))); simpl; [|reflexivity].
  destruct (document.generate_embeddings_in_batches env _ _ w)
    as [[chunk_vectors|e] w1]; simpl; [|reflexivity].
  destruct (truthy_list chunk_vectors); simpl; [|reflexivity].
  destruct (FirestoreCRUD.index_batch env user session _ _ w1)
    as [[indexed_ids|e] w2]; reflexivity.
Qed.

(** The two ways a file can end: an error and an untouched store, or a
    success and one committed batch with all its chunk records. *)
Lemma process_spec (user session : string) (file : UploadFile)
    (w : World float) :
  ∃ res,
    (document._process_and_index_file env user session file w).1 = Ok res
    ∧ result_filename res = up_filename file
    ∧ w_next_id w
      ≤ w_next_id (document._process_and_index_file env user session file w).2
    ∧ ((∃ detail,
          res = FileError (up_filename file) detail
          ∧ w_db (document._process_and_index_file env user session file w).2
            = w_db w)
       ∨ (∃ vectors t,
            (document.generate_embeddings_in_batches env
               (document._extract_and_chunk_text env (up_content file))
               document.default_batch_size w).1 = Ok vectors
            ∧ res = FileSuccess (up_filename file)
                      (length (document.chunks_to_index
                                 (document._extract_and_chunk_text env
                                    (up_content file)) vectors))
                      (seq (w_next_id w)
                         (length (document.chunks_to_index
                                    (document._extract_and_chunk_text env
                                       (up_content file)) vectors)))
            ∧ w_db (document._process_and_index_file env user session
                      file w).2
              = apply_batch t (w_db w)
                  (index_ops user session (up_filename file) (w_next_id w)
                     (document.chunks_to_index
                        (document._extract_and_chunk_text env
                           (up_content file)) vectors))
            ∧ w_next_id (document._process_and_index_file env user session
                           file w).2
              = w_next_id w
                + length (document.chunks_to_index
                            (document._extract_and_chunk_text env
                               (up_content file)) vectors))).
Proof.
  rewrite process_run. cbv zeta.
  set (chunks := document._extract_and_chunk_text env (up_content file)).
  destruct (truthy_list chunks) eqn:Hchunks; simpl.
  2:{ eexists. split; [done|]. split; [done|]. split; [done|].
      left. eauto. }
  destruct (generate_embeddings_world chunks document.default_batch_size w)
    as [Hdb Hid]; [done|].
  destruct (document.generate_embeddings_in_batches env chunks
              document.default_batch_size w) as [[vectors|e] w1] eqn:Hgen;
    simpl in Hdb, Hid; simpl.
  2:{ eexists. split; [done|]. split; [done|]. split; [lia|].
      left. eauto. }
  destruct (truthy_list vectors) eqn:Hvectors; simpl.
  2:{ eexists. split; [done|]. split; [done|]. split; [lia|].
      left. eauto. }
  rewrite index_batch_run.
  destruct (store_fault env (w_now w1)) as [e|]; simpl.
  { eexists. split; [done|]. split; [done|]. split; [lia|].
    left. eauto. }
  rewrite length_seq, Hid, Hdb.
  eexists. split; [done|]. split; [done|]. split; [lia|].
  right. exists vectors, (w_now w1). done.
Qed.

End ProcessFacts.

Section ProcessTheorems.
Context {float : Type} (env : Services float).
Import Firestore StoreSpec Batcher.

Lemma chunks_to_index_length (chunks : list string)
    (vectors : list (list float)) :
  length vectors = length chunks →
  length (document.chunks_to_index chunks vectors) = length chunks.
Proof.
  intros Hlen. unfold document.chunks_to_index.
  rewrite length_zip_with. lia.
Qed.

(** C2.  The ingestion of a file, in two parts.  When the embedding step
    raises, the file's result is an error and the store is exactly as
    before: no chunk of the file is in it.  When the embedding step returns
    one vector per chunk, the ingestion ends in one of two ways: an error
    with the store exactly as before, or a success, and then the one commit
    has stored a record (file name, time, text, vector, active) for every
    chunk of the file, each under its own fresh id, and has left every
    other chunk document as it was.  An embedding service that answers one
    embedding per text always returns one vector per chunk. *)
Theorem process_file_atomic (user session : string) (file : UploadFile)
    (w : World float) :
  (∀ e,
     (document.generate_embeddings_in_batches env
        (document._extract_and_chunk_text env (up_content file))
        document.default_batch_size w).1 = Raise e →
     ∃ detail,
       (document._process_and_index_file env user session file w).1
       = Ok (FileError (up_filename file) detail)
       ∧ w_db (document._process_and_index_file env user session file w).2
         = w_db w)
  ∧ (∀ vectors,
       (document.generate_embeddings_in_batches env
          (document._extract_and_chunk_text env (up_content file))
          document.default_batch_size w).1 = Ok vectors →
       length vectors
       = length (document._extract_and_chunk_text env (up_content file)) →
       (∃ detail,
          (document._process_and_index_file env user session file w).1
          = Ok (FileError (up_filename file) detail)
          ∧ w_db (document._process_and_index_file env user session file w).2
            = w_db w)
       ∨ (∃ t,
            (document._process_and_index_file env user session file w).1
            = Ok (FileSuccess (up_filename file)
                    (length (document._extract_and_chunk_text env
                               (up_content file)))
                    (seq (w_next_id w)
                       (length (document._extract_and_chunk_text env
                                  (up_content file)))))
            ∧ (∀ i text vector,
                 document._extract_and_chunk_text env (up_content file) !! i
                 = Some text →
                 vectors !! i = Some vector →
                 documents
                   (w_db (document._process_and_index_file env user session
                            file w).2)
                   !! (user, session, w_next_id w + i)
                 = Some (persisted t (up_filename file) text vector))
            ∧ (∀ u s id,
                 ¬ (u = user ∧ s = session
                    ∧ w_next_id w ≤ id
                      < w_next_id w
                        + length (document._extract_and_chunk_text env
                                    (up_content file))) →
                 documents
                   (w_db (document._process_and_index_file env user session
                            file w).2) !! (u, s, id)
                 = documents (w_db w) !! (u, s, id))))
  ∧ (one_to_one env →
     ∀ vectors,
       (document.generate_embeddings_in_batches env
          (document._extract_and_chunk_text env (up_content file))
          document.default_batch_size w).1 = Ok vectors →
       length vectors
       = length (document._extract_and_chunk_text env (up_content file))).
Proof.
  destruct (process_spec env user session file w)
    as (res & Hres & _ & _ & Hcases).
  set (chunks := document._extract_and_chunk_text env (up_content file))
    in *.
  split; [|split].
  - intros e He.
    destruct Hcases as [(detail & -> & Hdb)|(vectors & t & Hgen & _)];
      [eauto|].
    rewrite He in Hgen. done.
  - intros vectors Hgen Hlen.
    destruct Hcases as [(detail & -> & Hdb)|(vectors' & t & Hgen' & -> & Hdb & _)];
      [left; eauto|].
    rewrite Hgen in Hgen'. injection Hgen' as <-.
    rewrite chunks_to_index_length in Hres by done.
    right. exists t. split; [done|].
    pose proof (apply_index_ops t user session (up_filename file)
                  (document.chunks_to_index chunks vectors)
                  (w_next_id w) (w_db w)) as Hlook.
    rewrite chunks_to_index_length in Hlook by done.
    rewrite Hdb. split.
    + intros i text vector Htext Hvector. rewrite Hlook.
      apply lookup_lt_Some in Htext as Hi.
      rewrite decide_True by (repeat split; lia).
      replace (w_next_id w + i - w_next_id w) with i by lia.
      assert (document.chunks_to_index chunks vectors !! i
              = Some {| cd_text := text; cd_vector := vector |}) as ->.
      { unfold document.chunks_to_index.
        apply lookup_zip_with_Some. eauto. }
      reflexivity.
    + intros u s id Hout. rewrite Hlook. by rewrite decide_False.
  - intros Hcontract vectors Hgen.
    by apply (generate_embeddings_lengths env chunks
                document.default_batch_size w vectors Hcontract).
Qed.

End ProcessTheorems.

Lemma process_file_atomic_witness :
  (document.generate_embeddings_in_batches Examples.env_ok
     (document._extract_and_chunk_text Examples.env_ok
        (up_content Examples.file_x))
     document.default_batch_size Examples.world0).1 = Ok [[3%Z]; [2%Z]; [1%Z]]
  ∧ ((∃ detail,
        (document._process_and_index_file Examples.env_ok "u" "s"
           Examples.file_x Examples.world0).1
        = Ok (FileError (up_filename Examples.file_x) detail)
        ∧ w_db (document._process_and_index_file Examples.env_ok "u" "s"
                  Examples.file_x Examples.world0).2
          = w_db Examples.world0)
     ∨ (∃ t,
          (document._process_and_index_file Examples.env_ok "u" "s"
             Examples.file_x Examples.world0).1
          = Ok (FileSuccess (up_filename Examples.file_x)
                  (length (document._extract_and_chunk_text Examples.env_ok
                             (up_content Examples.file_x)))
                  (seq (w_next_id Examples.world0)
                     (length (document._extract_and_chunk_text
                                Examples.env_ok
                                (up_content Examples.file_x)))))
          ∧ (∀ i text vector,
               document._extract_and_chunk_text Examples.env_ok
                 (up_content Examples.file_x) !! i = Some text →
               [[3%Z]; [2%Z]; [1%Z]] !! i = Some vector →
               documents
                 (w_db (document._process_and_index_file Examples.env_ok
                          "u" "s" Examples.file_x Examples.world0).2)
                 !! ("u", "s", w_next_id Examples.world0 + i)
               = Some (StoreSpec.persisted t (up_filename Examples.file_x)
                         text vector))
          ∧ (∀ u s id,
               ¬ (u = "u" ∧ s = "s"
                  ∧ w_next_id Examples.world0 ≤ id
                    < w_next_id Examples.world0
                      + length (document._extract_and_chunk_text
                                  Examples.env_ok
                                  (up_content Examples.file_x))) →
               documents
                 (w_db (document._process_and_index_file Examples.env_ok
                          "u" "s" Examples.file_x Examples.world0).2)
                 !! (u, s, id)
               = documents (w_db Examples.world0) !! (u, s, id)))).
Proof.
  split; [vm_compute; reflexivity|].
  apply (proj1 (proj2 (process_file_atomic Examples.env_ok "u" "s"
                         Examples.file_x Examples.world0))).
  - vm_compute. reflexivity.
  - reflexivity.
Defined.

(** C2 as it is written fails when the embedding service answers fewer
    embeddings than it was given texts.  The upload [x.pdf] has the three
    chunks ["abc"], ["de"] and ["f"]; the one embedding call does not fail
    but returns a single vector; [zip] pairs it with the first chunk and
    drops the other two.  The file's result is a success with one indexed
    chunk, and the store, empty before, holds the record of ["abc"] and
    nothing else: a partial chunk set. *)
Lemma process_partial_chunk_set :
  document._extract_and_chunk_text Examples.env_short
    (up_content Examples.file_x) = ["abc"; "de"; "f"]
  ∧ (document.generate_embeddings_in_batches Examples.env_short
       ["abc"; "de"; "f"] document.default_batch_size Examples.world0).1
    = Ok [[3%Z]]
  ∧ map_to_list (documents (w_db Examples.world0)) = []
  ∧ (document._process_and_index_file Examples.env_short "u" "s"
       Examples.file_x Examples.world0).1
    = Ok (FileSuccess "x.pdf" 1 [0])
  ∧ map_to_list
      (documents
         (w_db (document._process_and_index_file Examples.env_short "u" "s"
                  Examples.file_x Examples.world0).2))
    = [(("u", "s", 0), StoreSpec.persisted 1 "x.pdf" "abc" [3%Z])].
Proof.
  split; [reflexivity|]. split; [vm_compute; reflexivity|].
  split; [reflexivity|]. split; [vm_compute; reflexivity|].
  vm_compute. reflexivity.
Qed.

(** ** Ingesting several files *)

Section IndexDocumentsFacts.
Context {float : Type} (env : Services float).
Import Firestore StoreSpec Batcher.

(** A file never removes or overwrites a chunk document that was there
    before it. *)
Lemma process_preserves (user session : string) (file : UploadFile)
    (w : World float) (u s : string) (id : nat) (d : DocData float) :
  id < w_next_id w →
  documents (w_db w) !! (u, s, id) = Some d →
  documents (w_db (document._process_and_index_file env user session
                     file w).2) !! (u, s, id) = Some d.
Proof.
  intros Hid Hd.
  destruct (process_spec env user session file w)
    as (res & _ & _ & _ & [(detail & _ & ->)|(vs & t & _ & _ & -> & _)]);
    [done|].
  rewrite apply_index_ops, decide_False; [done|]. lia.
Qed.

(** The chunks of a file that succeeded are in the store. *)
Lemma process_success_stored (user session : string) (file : UploadFile)
    (w : World float) (fname : string) (n : nat) (ids : list nat) (id : nat) :
  (document._process_and_index_file env user session file w).1
  = Ok (FileSuccess fname n ids) →
  id ∈ ids →
  id < w_next_id (document._process_and_index_file env user session
                    file w).2
  ∧ ∃ d,
      documents (w_db (document._process_and_index_file env user session
                         file w).2) !! (user, session, id) = Some d
      ∧ doc_filename d = Some fname.
Proof.
  intros Hres Hid.
  destruct (process_spec env user session file w)
    as (res & Hres' & _ & _
        & [(detail & -> & _)|(vs & t & _ & -> & -> & ->)]);
    rewrite Hres' in Hres; [done|].
  injection Hres as <- <- <-. apply elem_of_seq in Hid.
  split; [lia|]. rewrite apply_index_ops.
  rewrite decide_True by (repeat split; lia).
  destruct (lookup_lt_is_Some_2 (document.chunks_to_index
              (document._extract_and_chunk_text env (up_content file)) vs)
              (id - w_next_id w)) as [c ->]; [lia|].
  simpl. eauto.
Qed.

(** Every file of a request is processed, whatever happened to the files
    before it, and what a file has stored stays in the store. *)
Lemma gather_process (user session : string) (files : list UploadFile)
    (w : World float) :
  ∃ results,
    (gather (document._process_and_index_file env user session <$> files)
       w).1 = Ok results
    ∧ Forall2 (λ file res, result_filename res = up_filename file)
        files results
    ∧ w_next_id w
      ≤ w_next_id (gather (document._process_and_index_file env user session
                             <$> files) w).2
    ∧ (∀ u s id d,
         id < w_next_id w →
         documents (w_db w) !! (u, s, id) = Some d →
         documents
           (w_db (gather (document._process_and_index_file env user session
                            <$> files) w).2) !! (u, s, id) = Some d)
    ∧ (∀ fname n ids id,
         FileSuccess fname n ids ∈ results → id ∈ ids →
         id < w_next_id
                (gather (document._process_and_index_file env user session
                           <$> files) w).2
         ∧ ∃ d,
             documents
               (w_db (gather (document._process_and_index_file env user
                                session <$> files) w).2)
               !! (user, session, id) = Some d
             ∧ doc_filename d = Some fname).
Proof.
  revert w. induction files as [|file files IH]; intros w.
  - exists []. simpl. split; [done|]. split; [constructor|].
    split; [done|]. split; [done|].
    intros fname n ids id Hin. by apply elem_of_nil in Hin.
  - rewrite fmap_cons. simpl gather.
    destruct (process_spec env user session file w)
      as (res & Hres & Hname & Hmono & _).
    pose proof (process_preserves user session file w) as Hkeep.
    pose proof (process_success_stored user session file w) as Hnew.
    destruct (document._process_and_index_file env user session file w)
      as [r w1]. simpl in Hres, Hmono, Hkeep, Hnew. subst r.
    destruct (IH w1) as (results & Hresults & Hall & Hmono1 & Hkeep1 & Hnew1).
    destruct (gather (document._process_and_index_file env user session
                        <$> files) w1) as [rs w2].
    simpl in Hresults, Hmono1, Hkeep1, Hnew1. subst rs. simpl.
    exists (res :: results). split; [done|].
    split; [by constructor|]. split; [lia|]. split.
    + intros u s id d Hid Hd. apply Hkeep1; [lia|]. by apply Hkeep.
    + intros fname n ids id Hin Hid.
      apply elem_of_cons in Hin as [<-|Hin].
      * destruct (Hnew _ _ _ id eq_refl Hid) as (Hlt & d & Hd & Hf).
        split; [lia|]. exists d. split; [|done]. by apply Hkeep1.
      * by eapply Hnew1.
Qed.

Lemma index_documents_run (user session : string) (files : list UploadFile)
    (w : World float) (results : list FileResult) :
  files ≠ [] →
  (gather (document._process_and_index_file env user session <$> files)
     w).1 = Ok results →
  document.index_documents env user session files w
  = (Ok (if negb (truthy_list (List.filter is_success results))
            && truthy_list (List.filter is_error results)
         then {| status_code := 500;
                 content := IndexFailed "Failed to process all documents."
                              (List.filter is_error results) |}
         else {| status_code := 200;
                 content :=
                   IndexCompleted "Document processing completed."
                     (List.filter is_success results)
                     (List.filter is_error results) |}),
     (gather (document._process_and_index_file env user session <$> files)
        w).2).
Proof.
  intros Hne Hresults. unfold document.index_documents.
  destruct files as [|file files]; [done|].
  change (negb (truthy_list (file :: files))) with false. cbv iota.
  unfold bind.
  destruct (gather _ w) as [r w']. simpl in Hresults. subst r.
  destruct (negb _ && _); reflexivity.
Qed.

End IndexDocumentsFacts.

Section IndexDocumentsTheorems.
Context {float : Type} (env : Services float).
Import Firestore StoreSpec Batcher.

Lemma no_success_all_error (results : list FileResult) :
  List.filter is_success results = [] →
  (∀ res, res ∈ results → status res = error)
  ∧ List.filter is_error results = results.
Proof.
  induction results as [|[f d|f n ids] results IH]; simpl.
  - intros _. split; [|done]. intros res Hin. by apply elem_of_nil in Hin.
  - intros Hnone. destruct (IH Hnone) as [Hall Hsame]. split.
    + intros res Hin. apply elem_of_cons in Hin as [->|Hin]; [done|].
      by apply Hall.
    + by rewrite Hsame.
  - done.
Qed.

Lemma some_success (results : list FileResult) :
  List.filter is_success results ≠ [] →
  ∃ res, res ∈ results ∧ status res = success.
Proof.
  induction results as [|[f d|f n ids] results IH]; simpl; [done| |].
  - intros Hsome. destruct (IH Hsome) as (res & Hin & Hres).
    exists res. split; [by apply list_elem_of_further|done].
  - intros _. exists (FileSuccess f n ids).
    split; [apply list_elem_of_here|done].
Qed.

(** C3.  A request with at least one file gives every file its own
    result, in the order of the files: a file is processed whatever
    happened to the others.  Every chunk id reported by a successful file
    is in the store when the request ends, under that file's name: no
    later failure takes it back.  When at least one file succeeded the
    response is the 200 "completed" body with the successful and the
    failed results; when none did, it is the 500 body with the failed
    results, which are then all the results. *)
Theorem index_documents_partial (user session : string)
    (files : list UploadFile) (w : World float) :
  files ≠ [] →
  ∃ results,
    (gather (document._process_and_index_file env user session <$> files)
       w).1 = Ok results
    ∧ Forall2 (λ file res, result_filename res = up_filename file)
        files results
    ∧ (∀ fname n ids id,
         FileSuccess fname n ids ∈ results → id ∈ ids →
         ∃ d,
           documents
             (w_db (document.index_documents env user session files w).2)
             !! (user, session, id) = Some d
           ∧ doc_filename d = Some fname)
    ∧ (((∃ res, res ∈ results ∧ status res = success)
        ∧ (document.index_documents env user session files w).1
          = Ok {| status_code := 200;
                  content :=
                    IndexCompleted "Document processing completed."
                      (List.filter is_success results)
                      (List.filter is_error results) |})
       ∨ ((∀ res, res ∈ results → status res = error)
          ∧ (document.index_documents env user session files w).1
            = Ok {| status_code := 500;
                    content :=
                      IndexFailed "Failed to process all documents."
                        results |})).
Proof.
  intros Hne.
  destruct (gather_process env user session files w)
    as (results & Hresults & Hall & _ & _ & Hstored).
  exists results. rewrite (index_documents_run env _ _ _ _ _ Hne Hresults).
  simpl. split; [done|]. split; [done|]. split.
  - intros fname n ids id Hin Hid.
    by destruct (Hstored fname n ids id Hin Hid) as [_ ?].
  - destruct (List.filter is_success results) as [|r rs] eqn:Hsucc.
    + right. destruct (no_success_all_error results Hsucc) as [Herr Hsame].
      split; [done|]. rewrite Hsame.
      destruct results as [|res results]; [|done].
      apply Forall2_nil_inv_r in Hall. done.
    + left. split; [|done]. apply some_success. by rewrite Hsucc.
Qed.

End IndexDocumentsTheorems.

Lemma index_documents_partial_witness :
  ∃ results,
    (gather (document._process_and_index_file Examples.env_ok "u" "s"
               <$> [Examples.file_x; Examples.file_corrupt; Examples.file_y])
       Examples.world0).1 = Ok results
    ∧ Forall2 (λ file res, result_filename res = up_filename file)
        [Examples.file_x; Examples.file_corrupt; Examples.file_y] results
    ∧ (∀ fname n ids id,
         FileSuccess fname n ids ∈ results → id ∈ ids →
         ∃ d,
           documents
             (w_db (document.index_documents Examples.env_ok "u" "s"
                      [Examples.file_x; Examples.file_corrupt; Examples.file_y]
                      Examples.world0).2)
             !! ("u", "s", id) = Some d
           ∧ doc_filename d = Some fname)
    ∧ (((∃ res, res ∈ results ∧ status res = success)
        ∧ (document.index_documents Examples.env_ok "u" "s"
             [Examples.file_x; Examples.file_corrupt; Examples.file_y]
             Examples.world0).1
          = Ok {| status_code := 200;
                  content :=
                    IndexCompleted "Document processing completed."
                      (List.filter is_success results)
                      (List.filter is_error results) |})
       ∨ ((∀ res, res ∈ results → status res = error)
          ∧ (document.index_documents Examples.env_ok "u" "s"
               [Examples.file_x; Examples.file_corrupt; Examples.file_y]
               Examples.world0).1
            = Ok {| status_code := 500;
                    content :=
                      IndexFailed "Failed to process all documents."
                        results |})).
Proof.
  apply (index_documents_partial Examples.env_ok "u" "s"
           [Examples.file_x; Examples.file_corrupt; Examples.file_y]
           Examples.world0).
  discriminate.
Defined.

(** ** Answering a question *)

Section QuestionFacts.
Context {float : Type} (env : Services float).
Import Firestore StoreSpec.

Lemma question_run (user session question : string) (w : World float) :
  chat.question env user session question w
  = if strip_is_empty question then
      (Raise (HTTPException 500
                ("Failed to generate response: "
                   ++ str (HTTPException 400 "Question cannot be empty."))),
       w)
    else
      match store_fault env (w_now w) with
      | Some e =>
          (Raise (HTTPException 500
                    ("Failed to generate response: "
                       ++ str (HTTPException 500
                                 ("Failed to retrieve vectors: " ++ str e)))),
           ticked w)
      | None =>
          let selected :=
            omap with_embedding
              (collection_documents (w_db w) user session) in
          let w1 :=
            {| w_db := w_db w; w_now := S (S (w_now w));
               w_next_id := w_next_id w;
               w_log := w_log w
                          ++ [EvGetAnswer question (selected.*1)
                                (selected.*2)] |} in
          match get_answer env (S (w_now w)) question
                  (selected.*1) (selected.*2) with
          | Raise e =>
              (Raise (HTTPException 500
                        ("Failed to generate response: " ++ str e)), w1)
          | Ok response =>
              if truthy_opt_str response then
                (Ok {| status_code := 200; content := response |}, w1)
              else
                (Raise (HTTPException 500
                          ("Failed to generate response: "
                             ++ str (HTTPException 404
                                       "No relevant information found for the question."))),
                 w1)
          end
      end.
Proof.
  unfold chat.question, try_except.
  destruct (strip_is_empty question); [reflexivity|].
  unfold bind at 1. rewrite vectors_run.
  destruct (store_fault env (w_now w)); [reflexivity|].
  rewrite vectors_loop_spec. cbv zeta.
  unfold chat.call_get_answer. unfold_monad. simpl.
  destruct (get_answer env _ _ _ _) as [response|e]; [|reflexivity].
  destruct (truthy_opt_str response); reflexivity.
Qed.

(** With a question that is not blank and a store that answers,
    [question] calls the answer service once, with every vector and text
    that [vectors] returned. *)
Lemma question_log (user session question : string) (w : World float) :
  strip_is_empty question = false →
  store_fault env (w_now w) = None →
  w_log (chat.question env user session question w).2
  = w_log w
      ++ [EvGetAnswer question
            (omap with_embedding
               (collection_documents (w_db w) user session)).*1
            (omap with_embedding
               (collection_documents (w_db w) user session)).*2].
Proof.
  intros Hq Hok. rewrite question_run, Hq, Hok. cbv zeta.
  destruct (get_answer env _ _ _ _) as [response|e]; [|reflexivity].
  destruct (truthy_opt_str response); reflexivity.
Qed.

(** X26.  Whatever happens, [question] answers with status 200 or raises
    an [HTTPException] with status 500: the 400 and the 404 raised in its
    body are caught by its own handler. *)
Lemma question_outcome (user session question : string) (w : World float) :
  (∃ response,
     (chat.question env user session question w).1
     = Ok {| status_code := 200; content := response |})
  ∨ (∃ detail,
       (chat.question env user session question w).1
       = Raise (HTTPException 500 detail)).
Proof.
  rewrite question_run.
  destruct (strip_is_empty question); [right; simpl; eauto|].
  destruct (store_fault env (w_now w)); [right; simpl; eauto|].
  cbv zeta.
  destruct (get_answer env _ _ _ _) as [response|e];
    [|right; simpl; eauto].
  destruct (truthy_opt_str response); simpl; eauto.
Qed.

(** X27.  Whatever happens, [delete_document] answers with status 200 or
    raises an [HTTPException] with status 500. *)
Lemma delete_document_outcome (user session filename : string)
    (w : World float) :
  (∃ msg,
     (document.delete_document env user session filename w).1
     = Ok {| status_code := 200; content := msg |})
  ∨ (∃ detail,
       (document.delete_document env user session filename w).1
       = Raise (HTTPException 500 detail)).
Proof.
  unfold document.delete_document, try_except. unfold bind.
  destruct (FirestoreCRUD.delete env user session filename w)
    as [[res|e] w']; simpl; eauto.
Qed.

(** C4, as amended.  With a question that is not blank and a store that
    answers, [question] hands to [LangChainQA.get_answer], in one call,
    the vector and the text of every stored chunk of the scope whose
    embedding is not empty: it selects nothing and applies no cutoff. *)
Theorem question_forwards_all (user session question : string)
    (w : World float) :
  strip_is_empty question = false →
  store_fault env (w_now w) = None →
  ∃ vectors_list texts_list,
    w_log (chat.question env user session question w).2
    = w_log w ++ [EvGetAnswer question vectors_list texts_list]
    ∧ (FirestoreCRUD.vectors env user session w).1
      = Ok (vectors_list, texts_list)
    ∧ length vectors_list = length texts_list
    ∧ zip vectors_list texts_list
      = omap with_embedding (collection_documents (w_db w) user session).
Proof.
  intros Hq Hok. eexists _, _. split; [by apply question_log|].
  rewrite vectors_run, Hok, vectors_loop_spec. simpl.
  split; [done|]. split; [by rewrite !length_fmap|]. apply zip_fst_snd.
Qed.

(** C5, as amended.  For a question that is not blank, in a scope without
    any stored chunk and with a store that answers, [question] calls
    [LangChainQA.get_answer] once, with empty lists of vectors and texts:
    nothing skips the call.  The result of that call decides: an answer
    that is not empty is returned with status 200, and an absent or empty
    answer makes [question] raise instead of answering. *)
Theorem question_without_chunks (user session question : string)
    (w : World float) :
  strip_is_empty question = false →
  store_fault env (w_now w) = None →
  collection_documents (w_db w) user session = [] →
  w_log (chat.question env user session question w).2
  = w_log w ++ [EvGetAnswer question [] []]
  ∧ ((∃ response,
        get_answer env (S (w_now w)) question [] [] = Ok response
        ∧ truthy_opt_str response = true
        ∧ (chat.question env user session question w).1
          = Ok {| status_code := 200; content := response |})
     ∨ (∃ response e,
          get_answer env (S (w_now w)) question [] [] = Ok response
          ∧ truthy_opt_str response = false
          ∧ (chat.question env user session question w).1 = Raise e)
     ∨ (∃ e e',
          get_answer env (S (w_now w)) question [] [] = Raise e
          ∧ (chat.question env user session question w).1 = Raise e')).
Proof.
  intros Hq Hok Hempty. split.
  - rewrite question_log, Hempty by done. reflexivity.
  - rewrite question_run, Hq, Hok, Hempty. simpl.
    destruct (get_answer env (S (w_now w)) question [] [])
      as [response|e] eqn:Hanswer.
    + destruct (truthy_opt_str response) eqn:Htruthy.
      * left. eauto.
      * right. left. eauto.
    + right. right. eauto.
Qed.

End QuestionFacts.

Lemma question_without_chunks_witness :
  w_log (chat.question Examples.env_ok "u" "s" "What is in the file?"
           Examples.world0).2
  = w_log Examples.world0 ++ [EvGetAnswer "What is in the file?" [] []]
  ∧ ((∃ response,
        get_answer Examples.env_ok (S (w_now Examples.world0))
          "What is in the file?" [] [] = Ok response
        ∧ truthy_opt_str response = true
        ∧ (chat.question Examples.env_ok "u" "s" "What is in the file?"
             Examples.world0).1
          = Ok {| status_code := 200; content := response |})
     ∨ (∃ response e,
          get_answer Examples.env_ok (S (w_now Examples.world0))
            "What is in the file?" [] [] = Ok response
          ∧ truthy_opt_str response = false
          ∧ (chat.question Examples.env_ok "u" "s" "What is in the file?"
               Examples.world0).1 = Raise e)
     ∨ (∃ e e',
          get_answer Examples.env_ok (S (w_now Examples.world0))
            "What is in the file?" [] [] = Raise e
          ∧ (chat.question Examples.env_ok "u" "s" "What is in the file?"
               Examples.world0).1 = Raise e')).
Proof.
  apply (question_without_chunks Examples.env_ok "u" "s"
           "What is in the file?" Examples.world0);
    reflexivity.
Defined.

Lemma question_forwards_all_witness :
  ∃ vectors_list texts_list,
    w_log (chat.question Examples.env_ok "u" "s" "What is in x.pdf?"
             Examples.world_two_files).2
    = w_log Examples.world_two_files
        ++ [EvGetAnswer "What is in x.pdf?" vectors_list texts_list]
    ∧ (FirestoreCRUD.vectors Examples.env_ok "u" "s"
         Examples.world_two_files).1 = Ok (vectors_list, texts_list)
    ∧ length vectors_list = length texts_list
    ∧ zip vectors_list texts_list
      = omap StoreSpec.with_embedding
          (Firestore.collection_documents (w_db Examples.world_two_files)
             "u" "s").
Proof.
  apply (question_forwards_all Examples.env_ok "u" "s" "What is in x.pdf?"
           Examples.world_two_files);
    reflexivity.
Defined.

(** The [n] chunks of [Examples.db_n n] are all candidates. *)
Lemma db_n_candidates (n : nat) :
  length (omap StoreSpec.with_embedding
            (Firestore.collection_documents (Examples.db_n n) "u" "s")) = n.
Proof.
  unfold Firestore.collection_documents, Examples.db_n. simpl documents.
  rewrite map_to_list_to_map.
  2:{ rewrite <- list_fmap_compose. apply NoDup_fmap_2_strong;
        [|apply NoDup_seq].
      intros i j _ _ Hij. simpl in Hij. congruence. }
  transitivity (length (seq 0 n)); [|apply length_seq].
  induction (seq 0 n) as [|i l IH]; [done|].
  simpl. f_equal. exact IH.
Qed.

(** C4, as stated, fails: no bound [K] is respected.  In the session of
    [Examples.world_n (S K)], which holds [S K] chunks, the one call of the
    answer service carries [S K] vectors. *)
Lemma no_relevance_cutoff : ¬ ∃ K, relevance_cutoff K.
Proof.
  intros [K Hcut].
  assert (EvGetAnswer "q"
            (omap StoreSpec.with_embedding
               (Firestore.collection_documents (Examples.db_n (S K))
                  "u" "s")).*1
            (omap StoreSpec.with_embedding
               (Firestore.collection_documents (Examples.db_n (S K))
                  "u" "s")).*2
          ∈ w_log (chat.question Examples.env_ok "u" "s" "q"
                     (Examples.world_n (S K))).2) as Hin.
  { rewrite question_log by reflexivity.
    apply elem_of_app. right. apply list_elem_of_here. }
  apply Hcut in Hin; [|reflexivity].
  rewrite length_fmap, db_n_candidates in Hin. lia.
Qed.

(** ** The status codes that reach the client *)

(** C5, as stated, fails.  In a scope without any chunk, with an answer
    service that finds no answer, [question] does call the answer service,
    with an empty context, and what reaches the client is an [HTTPException]
    with status 500, not the 404: the 404 of "no relevant information" is
    raised inside the [try] block, and the handler for [Exception] catches
    and wraps it. *)
Lemma question_without_chunks_is_500 :
  (FirestoreCRUD.vectors Examples.env_ok "u" "s" Examples.world0).1
  = Ok ([], [])
  ∧ (chat.question Examples.env_ok "u" "s" "What is in the file?"
       Examples.world0).1
    = Raise (HTTPException 500
               "Failed to generate response: 404: No relevant information found for the question.")
  ∧ w_log (chat.question Examples.env_ok "u" "s" "What is in the file?"
             Examples.world0).2
    = [EvGetAnswer "What is in the file?" [] []].
Proof. repeat split; vm_compute; reflexivity. Qed.

(** C6.  In a scope without any chunk of the file, [FirestoreCRUD.delete]
    raises the 404, and the endpoint [delete_document], which catches every
    [Exception], turns it into an [HTTPException] with status 500. *)
Theorem delete_document_without_match_is_500 :
  (FirestoreCRUD.delete Examples.env_ok "u" "s" "x.pdf" Examples.world0).1
  = Raise (HTTPException 404 "No documents found with the filename 'x.pdf'.")
  ∧ (document.delete_document Examples.env_ok "u" "s" "x.pdf"
       Examples.world0).1
    = Raise (HTTPException 500
               "Failed to delete the document: 404: No documents found with the filename 'x.pdf'.").
Proof. split; vm_compute; reflexivity. Qed.

(** ** The theorems at concrete inputs *)

Lemma vectors_aligned_witness :
  ∃ all_vectors all_texts,
    (FirestoreCRUD.vectors Examples.env_ok "u" "s" Examples.world_mixed).1
    = Ok (all_vectors, all_texts)
    ∧ length all_vectors = length all_texts
    ∧ zip all_vectors all_texts
      = omap StoreSpec.with_embedding
          (Firestore.collection_documents (w_db Examples.world_mixed) "u" "s")
    ∧ (∀ i vector text,
         all_vectors !! i = Some vector → all_texts !! i = Some text →
         vector ≠ []
         ∧ ∃ id d,
             documents (w_db Examples.world_mixed) !! ("u", "s", id) = Some d
             ∧ doc_embedding d = Some vector ∧ doc_text d = text).
Proof.
  apply (vectors_aligned Examples.env_ok "u" "s" Examples.world_mixed).
  reflexivity.
Defined.

Lemma delete_then_list_witness :
  (∀ listing entry file,
     (FirestoreCRUD.list Examples.env_ok "u"
        (FirestoreCRUD.delete Examples.env_ok "u" "s" "x.pdf"
           Examples.world_two_files).2).1 = Ok listing →
     entry ∈ listing → ss_session_id entry = "s" →
     file ∈ ss_files entry → fs_filename file ≠ "x.pdf")
  ∧ ((∀ t,
        w_now (FirestoreCRUD.delete Examples.env_ok "u" "s" "x.pdf"
                 Examples.world_two_files).2 ≤ t →
        store_fault Examples.env_ok t = None) →
     ∃ listing,
       (FirestoreCRUD.list Examples.env_ok "u"
          (FirestoreCRUD.delete Examples.env_ok "u" "s" "x.pdf"
             Examples.world_two_files).2).1 = Ok listing).
Proof.
  apply (delete_then_list Examples.env_ok "u" "s" "x.pdf"
           Examples.world_two_files
           (FirestoreCRUD.delete Examples.env_ok "u" "s" "x.pdf"
              Examples.world_two_files).2
           {| message :=
                "Successfully deleted 2 document(s) with the filename 'x.pdf'." |}).
  apply injective_projections; [vm_compute; reflexivity | reflexivity].
Defined.

(** The store of the examples, before and after the deletion of [x.pdf]. *)
Example list_before_delete :
  (FirestoreCRUD.list Examples.env_ok "u" Examples.world_two_files).1
  = Ok [{| ss_session_id := "s";
           ss_files := [{| fs_filename := "y.pdf"; fs_chunk_count := 1 |};
                        {| fs_filename := "x.pdf"; fs_chunk_count := 2 |}] |}].
Proof. vm_compute. reflexivity. Qed.

Example list_after_delete :
  (FirestoreCRUD.list Examples.env_ok "u"
     (FirestoreCRUD.delete Examples.env_ok "u" "s" "x.pdf"
        Examples.world_two_files).2).1
  = Ok [{| ss_session_id := "s";
           ss_files := [{| fs_filename := "y.pdf"; fs_chunk_count := 1 |}] |}].
Proof. vm_compute. reflexivity. Qed.

(** A request with a readable file and a corrupt one: the 200 body with one
    success and one failure; a request with the corrupt file alone: the 500
    body. *)
Example index_documents_mixed :
  (document.index_documents Examples.env_ok "u" "s"
     [Examples.file_corrupt; Examples.file_x] Examples.world0).1
  = Ok {| status_code := 200;
          content :=
            IndexCompleted "Document processing completed."
              [FileSuccess "x.pdf" 3 [0; 1; 2]]
              [FileError "corrupt.pdf"
                 "No text found or failed to create chunks."] |}.
Proof. vm_compute. reflexivity. Qed.

Example index_documents_all_failed :
  (document.index_documents Examples.env_ok "u" "s"
     [Examples.file_corrupt] Examples.world0).1
  = Ok {| status_code := 500;
          content :=
            IndexFailed "Failed to process all documents."
              [FileError "corrupt.pdf"
                 "No text found or failed to create chunks."] |}.
Proof. vm_compute. reflexivity. Qed.

(** An embedding call that fails on the second batch: the file fails and
    the store stays empty. *)
Example process_embedding_failure :
  (document.generate_embeddings_in_batches Examples.env_embed_fails_at_1
     ["a"; "b"; "c"] 2 Examples.world0).1
  = Raise (HTTPException 500
             "Failed to generate embeddings: 503 UNAVAILABLE").
Proof. vm_compute. reflexivity. Qed.

(** The batch size is assumed positive in the theorems on the batcher;
    outside of that, [range] decides: a zero step raises, a negative one
    makes no batch at all. *)
Example batch_size_zero :
  (document.generate_embeddings_in_batches Examples.env_ok
     ["a"; "b"; "c"] 0 Examples.world0).1
  = Raise (PyError "ValueError" "range() arg 3 must not be zero").
Proof. vm_compute. reflexivity. Qed.

Example batch_size_negative :
  (document.generate_embeddings_in_batches Examples.env_ok
     ["a"; "b"; "c"] (-1) Examples.world0).1
  = Ok [].
Proof. vm_compute. reflexivity. Qed.

(** [str.strip()] removes Unicode white space as well: a text made of a
    no-break space, a space, an ideographic space and a next-line control
    is blank.  One character that is not white space makes a text
    non-blank, and the zero-width space is such a character. *)
Example strip_unicode :
  code_points Examples.blank_text = [160%N; 32%N; 12288%N; 133%N]
  ∧ strip_is_empty Examples.blank_text = true
  ∧ strip_is_empty (Examples.no_break_space ++ "a") = false
  ∧ strip_is_empty Examples.zero_width_space = false.
Proof. vm_compute. done. Qed.

(** A question that is a single no-break space is blank: the answer
    service, which would answer, is not asked. *)
Example question_no_break_space :
  chat.question Examples.env_answers "u" "s" Examples.no_break_space
    Examples.world_two_files
  = (Raise (HTTPException 500
              "Failed to generate response: 400: Question cannot be empty."),
     Examples.world_two_files).
Proof. vm_compute. reflexivity. Qed.

(** * Further properties of the code *)

(** ** The batcher: how many calls, and of what size *)

Section BatcherShape.
Context {float : Type} (env : Services float).
Import Batcher.

Lemma range_len_div_up (len n : nat) :
  0 < n → range_len len n = (len + n - 1) / n.
Proof.
  intros Hn. unfold range_len. case_decide as Hlen.
  - replace (len + n - 1) with ((len - 1) + 1 * n) by lia.
    rewrite Nat.div_add by lia. reflexivity.
  - replace (len + n - 1) with (n - 1) by lia.
    rewrite Nat.div_small by lia. reflexivity.
Qed.

Lemma batches_length (chunks : list string) (n : nat) :
  length (batches chunks n) = range_len (length chunks) n.
Proof. unfold batches. by rewrite length_fmap, length_seq. Qed.

Lemma batches_full (chunks : list string) (n k : nat) (b : list string) :
  0 < n →
  batches chunks n !! k = Some b →
  S k < length (batches chunks n) →
  length b = n.
Proof.
  intros Hn Hb Hk. rewrite batches_length in Hk.
  unfold batches in Hb. rewrite list_lookup_fmap in Hb.
  destruct (seq 0 (range_len (length chunks) n) !! k) as [k'|] eqn:Hseq;
    [|done].
  apply lookup_seq in Hseq as [-> _]. simpl in Hb. injection Hb as <-.
  rewrite length_take, length_drop.
  pose proof (range_len_start (length chunks) n (S k) Hn Hk). simpl in *. lia.
Qed.

Lemma generate_embeddings_log (chunks : list string) (batch_size : Z)
    (w : World float) :
  (0 < batch_size)%Z →
  w_log (document.generate_embeddings_in_batches env chunks batch_size w).2
  = w_log w ++ (embed_event env <$> batches chunks (Z.to_nat batch_size))
  ∧ w_now (document.generate_embeddings_in_batches env chunks batch_size w).2
    = w_now w + length (batches chunks (Z.to_nat batch_size)).
Proof.
  intros Hpos. destruct (decide (chunks = [])) as [->|Hne].
  - simpl. rewrite app_nil_r. split; [done|]. unfold batches. simpl. lia.
  - by rewrite generate_embeddings_in_batches_run.
Qed.

(** X1.  For a positive batch size, the batcher makes one embedding call per
    batch, [ceil(len(chunks) / batch_size)] calls in all and none for the
    empty list, and every batch but the last one holds exactly [batch_size]
    chunks. *)
Theorem batches_shape (chunks : list string) (batch_size : Z)
    (w : World float) :
  (0 < batch_size)%Z →
  ∃ sent : list (list string),
    w_log (document.generate_embeddings_in_batches env chunks batch_size w).2
    = w_log w ++ (embed_event env <$> sent)
    ∧ length sent
      = (length chunks + Z.to_nat batch_size - 1) / Z.to_nat batch_size
    ∧ w_now (document.generate_embeddings_in_batches env chunks batch_size w).2
      = w_now w + length sent
    ∧ ∀ k b, sent !! k = Some b → S k < length sent →
             Z.of_nat (length b) = batch_size.
Proof.
  intros Hpos. exists (batches chunks (Z.to_nat batch_size)).
  destruct (generate_embeddings_log chunks batch_size w Hpos) as [Hlog Hnow].
  split; [done|]. split.
  - rewrite batches_length. apply range_len_div_up. lia.
  - split; [done|]. intros k b Hb Hk.
    rewrite (batches_full chunks (Z.to_nat batch_size) k b); [lia|lia|done|done].
Qed.

(** X2.  A batch size that is not positive is not refused.  With at least
    one chunk, a batch size of zero makes [range] raise a [ValueError],
    which leaves the batcher as it is, not as an [HTTPException]; a negative
    batch size makes no batch at all, and the batcher returns the empty list
    of vectors as if there had been no chunk.  In both cases no embedding
    call is made. *)
Theorem nonpositive_batch_size (chunks : list string) (batch_size : Z)
    (w : World float) :
  chunks ≠ [] →
  (batch_size ≤ 0)%Z →
  document.generate_embeddings_in_batches env chunks batch_size w
  = (if decide (batch_size = 0)%Z
     then Raise (PyError "ValueError" "range() arg 3 must not be zero")
     else Ok [],
     w).
Proof.
  intros Hne Hbs. unfold document.generate_embeddings_in_batches.
  destruct chunks as [|c chunks]; [done|].
  change (negb (truthy_list (c :: chunks))) with false. cbv iota.
  unfold range0, bind, lift.
  destruct (decide (batch_size = 0)%Z) as [->|Hnz]; [reflexivity|].
  rewrite decide_True by lia. reflexivity.
Qed.

End BatcherShape.

Lemma batches_shape_witness :
  ∃ sent : list (list string),
    w_log (document.generate_embeddings_in_batches Examples.env_ok
             ["a"; "bb"; "ccc"; "dddd"; "eeeee"] 2 Examples.world0).2
    = w_log Examples.world0 ++ (Batcher.embed_event Examples.env_ok <$> sent)
    ∧ length sent
      = (length ["a"; "bb"; "ccc"; "dddd"; "eeeee"] + Z.to_nat 2 - 1)
        / Z.to_nat 2
    ∧ w_now (document.generate_embeddings_in_batches Examples.env_ok
               ["a"; "bb"; "ccc"; "dddd"; "eeeee"] 2 Examples.world0).2
      = w_now Examples.world0 + length sent
    ∧ ∀ k b, sent !! k = Some b → S k < length sent →
             Z.of_nat (length b) = 2%Z.
Proof.
  apply (batches_shape Examples.env_ok ["a"; "bb"; "ccc"; "dddd"; "eeeee"] 2
           Examples.world0).
  lia.
Defined.

Lemma nonpositive_batch_size_witness :
  document.generate_embeddings_in_batches Examples.env_ok
    ["a"; "b"; "c"] (-5) Examples.world0
  = (if decide (-5 = 0)%Z
     then Raise (PyError "ValueError" "range() arg 3 must not be zero")
     else Ok [],
     Examples.world0).
Proof.
  apply (nonpositive_batch_size Examples.env_ok ["a"; "b"; "c"] (-5)
           Examples.world0);
    [discriminate | lia].
Defined.

(** ** The summary of [list]: names once each, and the right counts *)

Section DictFacts.
Context {V : Type}.

Lemma dict_get_set (k : string) (v : V) (d : PyDict.dict V) (k' : string) :
  PyDict.get k' (PyDict.set k v d)
  = if decide (k = k') then Some v else PyDict.get k' d.
Proof.
  induction d as [|[k0 v0] d IH]; simpl.
  - destruct (decide (k = k')); reflexivity.
  - destruct (decide (k0 = k)) as [->|Hk0]; simpl.
    + destruct (decide (k = k')); reflexivity.
    + destruct (decide (k0 = k')) as [->|Hk0'].
      * by rewrite decide_False by congruence.
      * exact IH.
Qed.

Lemma dict_get_None (k : string) (d : PyDict.dict V) :
  PyDict.get k d = None → k ∉ d.*1.
Proof.
  induction d as [|[k0 v0] d IH]; simpl.
  - intros _ Hin. by apply elem_of_nil in Hin.
  - case_decide as Hk; [done|]. intros Hget Hin.
    apply elem_of_cons in Hin as [->|Hin]; [done|]. by apply IH.
Qed.

Lemma dict_set_keys (k : string) (v : V) (d : PyDict.dict V) :
  (PyDict.set k v d).*1
  = match PyDict.get k d with Some _ => d.*1 | None => d.*1 ++ [k] end.
Proof.
  induction d as [|[k0 v0] d IH]; [done|].
  cbn [PyDict.set PyDict.get].
  destruct (decide (k0 = k)) as [->|Hk]; [reflexivity|].
  rewrite fmap_cons, IH. by destruct (PyDict.get k d).
Qed.

Lemma dict_set_NoDup (k : string) (v : V) (d : PyDict.dict V) :
  NoDup (d.*1) → NoDup ((PyDict.set k v d).*1).
Proof.
  intros Hd. rewrite dict_set_keys.
  destruct (PyDict.get k d) eqn:Hget; [done|].
  apply NoDup_app. split; [done|]. split; [|apply NoDup_singleton].
  intros x Hx Hk. apply list_elem_of_singleton in Hk as ->.
  by apply dict_get_None in Hget.
Qed.

Lemma dict_elem_get (k : string) (v : V) (d : PyDict.dict V) :
  NoDup (d.*1) → (k, v) ∈ d → PyDict.get k d = Some v.
Proof.
  induction d as [|[k0 v0] d IH]; simpl.
  - intros _ Hin. by apply elem_of_nil in Hin.
  - intros Hnd Hin. apply NoDup_cons in Hnd as [Hk0 Hnd].
    apply elem_of_cons in Hin as [[= -> ->]|Hin].
    + by rewrite decide_True.
    + rewrite decide_False; [by apply IH|].
      intros ->. apply Hk0. apply list_elem_of_fmap. by exists (k, v).
Qed.

Lemma dict_set_nonempty (k : string) (v : V) (d : PyDict.dict V) :
  PyDict.set k v d ≠ [].
Proof. destruct d as [|[k0 v0] d]; simpl; [done|]. by case_decide. Qed.

Lemma dict_mem_get (k : string) (d : PyDict.dict V) :
  PyDict.mem k d = match PyDict.get k d with Some _ => true | None => false end.
Proof. reflexivity. Qed.

End DictFacts.

Section SummaryCounts.
Import StoreSpec.

Lemma flat_count_snoc (flat : list FlatDocument) (doc : FlatDocument)
    (session_id filename : string) :
  flat_count (flat ++ [doc]) session_id filename
  = flat_count flat session_id filename
    + (if bool_decide (fd_session_id doc = session_id
                       ∧ fd_filename doc = Some filename)
       then 1 else 0).
Proof.
  unfold flat_count. rewrite List.filter_app, length_app. simpl.
  by destruct (bool_decide _).
Qed.

(** What one turn of the loop does to the two levels of the summary, for a
    document with a session id and a file name. *)
Lemma list_summary_step_get
    (sessions_summary : PyDict.dict (PyDict.dict FileSummary))
    (doc : FlatDocument) (filename : string) :
  truthy_str (fd_session_id doc) = true →
  fd_filename doc = Some filename →
  truthy_str filename = true →
  ∃ files2,
    (∀ session_id,
       PyDict.get session_id
         (FirestoreCRUD.list_summary_step sessions_summary doc)
       = if decide (fd_session_id doc = session_id) then Some files2
         else PyDict.get session_id sessions_summary)
    ∧ (∀ name,
         PyDict.get name files2
         = if decide (filename = name)
           then Some
                  {| fs_filename :=
                       fs_filename
                         (default
                            {| fs_filename := filename; fs_chunk_count := 0 |}
                            (PyDict.get filename
                               (default []
                                  (PyDict.get (fd_session_id doc)
                                     sessions_summary))));
                     fs_chunk_count :=
                       fs_chunk_count
                         (default
                            {| fs_filename := filename; fs_chunk_count := 0 |}
                            (PyDict.get filename
                               (default []
                                  (PyDict.get (fd_session_id doc)
                                     sessions_summary)))) + 1 |}
           else PyDict.get name
                  (default []
                     (PyDict.get (fd_session_id doc) sessions_summary)))
    ∧ (NoDup (sessions_summary.*1) →
       NoDup ((FirestoreCRUD.list_summary_step sessions_summary doc).*1))
    ∧ (NoDup ((default []
                 (PyDict.get (fd_session_id doc) sessions_summary)).*1) →
       NoDup (files2.*1))
    ∧ files2 ≠ [].
Proof.
  intros Hsid Hname Htruthy. unfold FirestoreCRUD.list_summary_step.
  rewrite Hsid, Hname. simpl truthy_opt_str. rewrite Htruthy. simpl.
  set (sid := fd_session_id doc).
  set (files_old := default [] (PyDict.get sid sessions_summary)).
  set (summary1 := if PyDict.mem sid sessions_summary then sessions_summary
                   else PyDict.set sid [] sessions_summary).
  assert (PyDict.get sid summary1 = Some files_old) as Hget1.
  { subst summary1 files_old. rewrite dict_mem_get.
    destruct (PyDict.get sid sessions_summary) eqn:Hget; simpl; [done|].
    rewrite dict_get_set. by rewrite decide_True. }
  assert (∀ s, sid ≠ s →
               PyDict.get s summary1 = PyDict.get s sessions_summary)
    as Hother1.
  { intros s Hs. subst summary1.
    destruct (PyDict.mem sid sessions_summary); [done|].
    rewrite dict_get_set. by rewrite decide_False. }
  assert (NoDup (sessions_summary.*1) → NoDup (summary1.*1)) as Hnd1.
  { intros Hnd. subst summary1.
    destruct (PyDict.mem sid sessions_summary); [done|].
    by apply dict_set_NoDup. }
  rewrite Hget1. simpl default.
  set (entry0 := {| fs_filename := filename; fs_chunk_count := 0 |}).
  set (files1 := if PyDict.mem filename files_old then files_old
                 else PyDict.set filename entry0 files_old).
  assert (PyDict.get filename files1
          = Some (default entry0 (PyDict.get filename files_old))) as Hentry.
  { subst files1. rewrite dict_mem_get.
    destruct (PyDict.get filename files_old) eqn:Hget; simpl; [done|].
    rewrite dict_get_set. by rewrite decide_True. }
  assert (∀ name, filename ≠ name →
                  PyDict.get name files1 = PyDict.get name files_old)
    as Hother.
  { intros name Hne. subst files1.
    destruct (PyDict.mem filename files_old); [done|].
    rewrite dict_get_set. by rewrite decide_False. }
  assert (NoDup (files_old.*1) → NoDup (files1.*1)) as Hndf.
  { intros Hnd. subst files1.
    destruct (PyDict.mem filename files_old); [done|].
    by apply dict_set_NoDup. }
  rewrite Hentry. eexists. split; [|split; [|split; [|split]]].
  - intros s. rewrite dict_get_set.
    destruct (decide (sid = s)); [reflexivity|]. by apply Hother1.
  - intros name. rewrite dict_get_set.
    destruct (decide (filename = name)); [reflexivity|]. by apply Hother.
  - intros Hnd. by apply dict_set_NoDup, Hnd1.
  - intros Hnd. by apply dict_set_NoDup, Hndf.
  - apply dict_set_nonempty.
Qed.

Lemma flat_count_positive (flat : list FlatDocument)
    (session_id filename : string) :
  0 < flat_count flat session_id filename ↔
  ∃ doc, doc ∈ flat ∧ fd_session_id doc = session_id
         ∧ fd_filename doc = Some filename.
Proof.
  unfold flat_count. split.
  - intros Hpos.
    destruct (List.filter _ flat) as [|doc l] eqn:Hf; [simpl in Hpos; lia|].
    assert (In doc (List.filter
                      (λ doc, bool_decide (fd_session_id doc = session_id
                                           ∧ fd_filename doc = Some filename))
                      flat)) as Hin by (rewrite Hf; by left).
    apply filter_In in Hin as [Hin Hdoc].
    apply bool_decide_eq_true in Hdoc as [? ?].
    exists doc. split; [by apply list_elem_of_In|done].
  - intros (doc & Hin & Hs & Hn).
    assert (In doc (List.filter
                      (λ doc, bool_decide (fd_session_id doc = session_id
                                           ∧ fd_filename doc = Some filename))
                      flat)) as Hin'.
    { apply filter_In. split; [by apply list_elem_of_In|].
      by apply bool_decide_eq_true. }
    destruct (List.filter _ flat); [done|]. simpl. lia.
Qed.

End SummaryCounts.

Section SummaryInvariant.
Import StoreSpec.

Lemma list_summary_step_skip
    (sessions_summary : PyDict.dict (PyDict.dict FileSummary))
    (doc : FlatDocument) :
  truthy_str (fd_session_id doc) = false
  ∨ truthy_opt_str (fd_filename doc) = false →
  FirestoreCRUD.list_summary_step sessions_summary doc = sessions_summary.
Proof.
  intros Hskip. unfold FirestoreCRUD.list_summary_step.
  destruct Hskip as [-> | ->]; [done|]. by rewrite orb_true_r.
Qed.

Lemma default_get_files
    (sessions_summary : PyDict.dict (PyDict.dict FileSummary))
    (session_id name : string) (entry : FileSummary) :
  PyDict.get name (default [] (PyDict.get session_id sessions_summary))
  = Some entry →
  PyDict.get session_id sessions_summary
  = Some (default [] (PyDict.get session_id sessions_summary)).
Proof. by destruct (PyDict.get session_id sessions_summary). Qed.

Lemma summary_counts_nil : summary_counts [] [].
Proof.
  split; [apply NoDup_nil_2|]. split; [done|]. split; [done|].
  intros sid k _ _ Hpos. unfold flat_count in Hpos. simpl in Hpos. lia.
Qed.

Lemma summary_counts_step (processed : list FlatDocument)
    (sessions_summary : PyDict.dict (PyDict.dict FileSummary))
    (doc : FlatDocument) :
  summary_counts processed sessions_summary →
  summary_counts (processed ++ [doc])
    (FirestoreCRUD.list_summary_step sessions_summary doc).
Proof.
  intros (Hnd & Ha & Hb & Hc).
  destruct (truthy_str (fd_session_id doc)) eqn:Hsid;
    [destruct (fd_filename doc) as [k0|] eqn:Hname;
     [destruct (truthy_str k0) eqn:Hk0|]|].
  2,3,4: rewrite list_summary_step_skip
    by (rewrite ?Hsid, ?Hname; simpl; auto).
  2,3,4: assert (∀ sid k, truthy_str sid = true → truthy_str k = true →
                   flat_count (processed ++ [doc]) sid k
                   = flat_count processed sid k) as Hsame
    by (intros sid k Hs Hk; rewrite flat_count_snoc;
        rewrite bool_decide_eq_false_2; [lia|];
        intros [H1 H2]; rewrite ?Hname in H2; try done;
        congruence).
  2,3,4: (split; [done|]; split; [done|]; split;
    [ intros sid files k entry Hfiles Hentry;
      destruct (Ha sid files Hfiles) as (Hs & _ & _);
      destruct (Hb sid files k entry Hfiles Hentry) as (? & Hk & ? & ?);
      rewrite (Hsame sid k Hs Hk); done
    | intros sid k Hs Hk Hpos; rewrite (Hsame sid k Hs Hk) in Hpos;
      by apply Hc ]).
  destruct (list_summary_step_get sessions_summary doc k0 Hsid Hname Hk0)
    as (files2 & Hg & Hf & Hnd' & Hndf & Hne).
  set (sid0 := fd_session_id doc) in *.
  set (files_old := default [] (PyDict.get sid0 sessions_summary)) in *.
  assert (NoDup (files_old.*1)) as Hnd_old.
  { subst files_old.
    destruct (PyDict.get sid0 sessions_summary) as [f|] eqn:Hget; simpl.
    - by destruct (Ha sid0 f Hget) as (_ & _ & ?).
    - apply NoDup_nil_2. }
  assert (∀ sid k, (sid0 = sid ∧ k0 = k) →
            flat_count (processed ++ [doc]) sid k
            = flat_count processed sid k + 1) as Hhit.
  { intros sid k [<- <-]. rewrite flat_count_snoc.
    by rewrite bool_decide_eq_true_2. }
  assert (∀ sid k, ¬ (sid0 = sid ∧ k0 = k) →
            flat_count (processed ++ [doc]) sid k
            = flat_count processed sid k) as Hmiss.
  { intros sid k Hne'. rewrite flat_count_snoc.
    rewrite bool_decide_eq_false_2; [lia|].
    intros [H1 H2]. apply Hne'. split; [done|]. congruence. }
  split; [by apply Hnd'|]. split; [|split].
  - intros sid files Hfiles. rewrite Hg in Hfiles.
    destruct (decide (sid0 = sid)) as [<-|Hs]; [|by apply Ha].
    injection Hfiles as <-. split; [done|]. split; [done|]. by apply Hndf.
  - intros sid files k entry Hfiles Hentry. rewrite Hg in Hfiles.
    destruct (decide (sid0 = sid)) as [<-|Hs].
    + injection Hfiles as <-. rewrite Hf in Hentry.
      destruct (decide (k0 = k)) as [<-|Hk].
      * injection Hentry as <-. simpl. rewrite Hhit by done.
        destruct (PyDict.get k0 files_old) as [v|] eqn:Hold; simpl.
        -- pose proof (default_get_files _ _ _ _ Hold) as Hfiles.
           destruct (Hb sid0 _ k0 v Hfiles Hold) as (-> & _ & -> & _).
           split; [done|]. split; [done|]. lia.
        -- assert (flat_count processed sid0 k0 = 0) as ->.
           { destruct (flat_count processed sid0 k0) eqn:Hcount; [done|].
             destruct (Hc sid0 k0 Hsid Hk0 ltac:(lia))
               as (files & entry & Hfiles & Hentry).
             subst files_old. rewrite Hfiles in Hold. simpl in Hold.
             congruence. }
           split; [done|]. split; [done|]. lia.
      * pose proof (default_get_files _ _ _ _ Hentry) as Hfiles.
        destruct (Hb sid0 _ k entry Hfiles Hentry) as (? & ? & ? & ?).
        rewrite Hmiss by (intros [_ ?]; done). done.
    + destruct (Hb sid files k entry Hfiles Hentry) as (? & ? & ? & ?).
      rewrite Hmiss by (intros [? _]; done). done.
  - intros sid k Hs Hk Hpos.
    destruct (decide (sid0 = sid ∧ k0 = k)) as [[<- <-]|Hne'].
    + exists files2. eexists. rewrite Hg, Hf.
      by rewrite !decide_True.
    + rewrite Hmiss in Hpos by done.
      destruct (Hc sid k Hs Hk Hpos) as (files & entry & Hfiles & Hentry).
      destruct (decide (sid0 = sid)) as [<-|Hsne].
      * exists files2, entry. rewrite Hg, Hf. rewrite decide_True by done.
        split; [done|]. rewrite decide_False by (intros ->; by apply Hne').
        subst files_old. rewrite Hfiles. done.
      * exists files, entry. rewrite Hg. by rewrite decide_False.
Qed.

Lemma summary_counts_fold (rest processed : list FlatDocument)
    (sessions_summary : PyDict.dict (PyDict.dict FileSummary)) :
  summary_counts processed sessions_summary →
  summary_counts (processed ++ rest)
    (foldl FirestoreCRUD.list_summary_step sessions_summary rest).
Proof.
  revert processed sessions_summary.
  induction rest as [|doc rest IH]; intros processed summary Hinv.
  - by rewrite app_nil_r.
  - simpl. replace (processed ++ doc :: rest)
      with ((processed ++ [doc]) ++ rest) by by rewrite <- app_assoc.
    apply IH. by apply summary_counts_step.
Qed.

Lemma list_summary_counts (flat : list FlatDocument) :
  summary_counts flat (FirestoreCRUD.list_summary flat).
Proof.
  apply (summary_counts_fold flat [] []), summary_counts_nil.
Qed.

End SummaryInvariant.

Section ListCounts.
Context {float : Type} (env : Services float).
Import Firestore StoreSpec.

Lemma collection_sessions_spec (db : Store float) (user session : string) :
  session ∈ collection_sessions db user
  ↔ is_Some (sessions db !! (user, session)).
Proof.
  unfold collection_sessions. rewrite list_elem_of_omap. split.
  - intros ([[u s] t] & Hin & Hsel). simpl in Hsel.
    case_decide as Hu; [|done]. injection Hsel as ->. subst u.
    apply elem_of_map_to_list in Hin. eauto.
  - intros [t Ht]. exists ((user, session), t). split.
    + by apply elem_of_map_to_list.
    + simpl. by rewrite decide_True.
Qed.

Lemma collection_sessions_NoDup (db : Store float) (user : string) :
  NoDup (collection_sessions db user).
Proof.
  unfold collection_sessions.
  pose proof (NoDup_fst_map_to_list (sessions db)) as Hnd.
  induction (map_to_list (sessions db)) as [|[[u s] t] l IH]; simpl.
  - apply NoDup_nil_2.
  - rewrite fmap_cons in Hnd. apply NoDup_cons in Hnd as [Hhead Hnd].
    case_decide as Hu; simpl in Hu; [|by apply IH].
    apply NoDup_cons. split; [|by apply IH].
    intros Hin. apply list_elem_of_omap in Hin as ([[u' s'] t'] & Hin & Hsel).
    simpl in Hsel. case_decide as Hu'; [|done]. simpl in Hu'.
    injection Hsel as ->. subst u u'. apply Hhead.
    apply list_elem_of_fmap. by exists ((user, s), t').
Qed.

Lemma list_flat_loop_eq (user : string) (all_sessions : list string)
    (acc flat : list FlatDocument) (w w' : World float) :
  FirestoreCRUD.list_flat_loop env user all_sessions acc w = (Ok flat, w') →
  flat = acc ++ flat_documents (w_db w) user all_sessions.
Proof.
  revert acc w. induction all_sessions as [|session rest IH]; intros acc w.
  - simpl. intros [= <- <-]. unfold flat_documents. simpl.
    by rewrite app_nil_r.
  - simpl FirestoreCRUD.list_flat_loop. unfold bind at 1.
    rewrite stream_documents_run.
    destruct (store_fault env (w_now w)); [done|].
    intros Hrest. apply IH in Hrest. rewrite Hrest.
    unfold flat_documents. rewrite bind_cons, <- app_assoc. reflexivity.
Qed.

(** A listing that [list] returns is the summary of the documents of the
    user's sessions. *)
Lemma list_run (user : string) (w : World float)
    (listing : list SessionSummary) :
  (FirestoreCRUD.list env user w).1 = Ok listing →
  listing
  = FirestoreCRUD.list_final_result
      (FirestoreCRUD.list_summary
         (flat_documents (w_db w) user (collection_sessions (w_db w) user))).
Proof.
  unfold FirestoreCRUD.list, try_except. unfold bind at 1.
  rewrite stream_sessions_run.
  destruct (store_fault env (w_now w)); [done|].
  unfold bind.
  destruct (FirestoreCRUD.list_flat_loop env user _ [] (ticked w))
    as [[flat|e] w'] eqn:Hloop; [|done].
  simpl. intros [= <-]. apply list_flat_loop_eq in Hloop. by rewrite Hloop.
Qed.

Lemma flat_count_app (l1 l2 : list FlatDocument) (session_id filename : string) :
  flat_count (l1 ++ l2) session_id filename
  = flat_count l1 session_id filename + flat_count l2 session_id filename.
Proof. unfold flat_count. by rewrite List.filter_app, length_app. Qed.

Lemma flat_count_session (session : string)
    (docs : list (nat * DocData float)) (session_id filename : string) :
  flat_count
    ((λ doc : nat * DocData float,
        {| fd_session_id := session; fd_filename := doc_filename doc.2 |})
       <$> docs) session_id filename
  = if decide (session = session_id)
    then length (List.filter (matches filename) docs) else 0.
Proof.
  unfold flat_count, matches. induction docs as [|doc docs IH].
  - simpl. by case_decide.
  - rewrite fmap_cons. simpl List.filter.
    destruct (decide (session = session_id)) as [->|Hne].
    + destruct (decide (doc_filename doc.2 = Some filename)) as [Hf|Hf].
      * rewrite !bool_decide_eq_true_2 by done. simpl. by rewrite IH.
      * rewrite !bool_decide_eq_false_2 by (try intros [_ ?]; done). exact IH.
    + rewrite bool_decide_eq_false_2 by (intros [? _]; done). exact IH.
Qed.

Lemma flat_count_documents (db : Store float) (user : string)
    (all_sessions : list string) (session_id filename : string) :
  NoDup all_sessions →
  flat_count (flat_documents db user all_sessions) session_id filename
  = if decide (session_id ∈ all_sessions)
    then chunk_count db user session_id filename else 0.
Proof.
  unfold flat_documents. induction all_sessions as [|s rest IH]; intros Hnd.
  - destruct (decide (session_id ∈ [])) as [Hin|]; [|done].
    by apply elem_of_nil in Hin.
  - apply NoDup_cons in Hnd as [Hs Hnd].
    rewrite bind_cons, flat_count_app, flat_count_session, (IH Hnd).
    destruct (decide (s = session_id)) as [->|Hne].
    + rewrite (decide_False (P := session_id ∈ rest)) by done.
      rewrite decide_True by apply list_elem_of_here.
      unfold chunk_count. lia.
    + destruct (decide (session_id ∈ rest)) as [Hin|Hnin].
      * by rewrite decide_True by by apply list_elem_of_further.
      * rewrite decide_False; [done|].
        intros Hin. apply elem_of_cons in Hin as [?|?]; done.
Qed.

Lemma file_names_keys (files : PyDict.dict FileSummary) :
  (∀ name entry, (name, entry) ∈ files → fs_filename entry = name) →
  fs_filename <$> PyDict.values files = files.*1.
Proof.
  unfold PyDict.values. induction files as [|[k v] files IH]; intros Hall.
  - reflexivity.
  - rewrite !fmap_cons. simpl. f_equal.
    + apply Hall, list_elem_of_here.
    + apply IH. intros name entry Hin. by apply Hall, list_elem_of_further.
Qed.

(** The entries of a listing, read back from the summary. *)
Lemma listing_entry (flat : list FlatDocument) (entry : SessionSummary)
    (file : FileSummary) :
  entry ∈ FirestoreCRUD.list_final_result (FirestoreCRUD.list_summary flat) →
  file ∈ ss_files entry →
  ∃ files,
    PyDict.get (ss_session_id entry) (FirestoreCRUD.list_summary flat)
    = Some files
    ∧ ss_files entry = PyDict.values files
    ∧ PyDict.get (fs_filename file) files = Some file.
Proof.
  intros Hentry Hfile.
  destruct (list_summary_counts flat) as (Hnd & Ha & Hb & _).
  unfold FirestoreCRUD.list_final_result, PyDict.items in Hentry.
  apply list_elem_of_fmap in Hentry as ([sid files] & -> & Hin).
  simpl in *. apply dict_elem_get in Hin; [|done].
  destruct (Ha sid files Hin) as (_ & _ & Hndf).
  unfold PyDict.values in Hfile.
  apply list_elem_of_fmap in Hfile as ([k v] & -> & Hkv). simpl.
  apply dict_elem_get in Hkv; [|done].
  destruct (Hb sid files k v Hin Hkv) as (-> & _).
  exists files. done.
Qed.

Lemma list_counts_lemma (user : string) (w : World float)
    (listing : list SessionSummary) (entry : SessionSummary)
    (file : FileSummary) :
  (FirestoreCRUD.list env user w).1 = Ok listing →
  entry ∈ listing →
  file ∈ ss_files entry →
  fs_chunk_count file
  = chunk_count (w_db w) user (ss_session_id entry) (fs_filename file)
  ∧ 0 < fs_chunk_count file.
Proof.
  intros Hlist Hentry Hfile. apply list_run in Hlist. subst listing.
  destruct (listing_entry _ entry file Hentry Hfile)
    as (files & Hfiles & _ & Hget).
  destruct (list_summary_counts
              (flat_documents (w_db w) user
                 (collection_sessions (w_db w) user)))
    as (_ & _ & Hb & _).
  destruct (Hb _ _ _ _ Hfiles Hget) as (_ & _ & Hcount & Hpos).
  split; [|done]. rewrite Hcount in Hpos |- *.
  rewrite flat_count_documents in Hpos |- *
    by apply collection_sessions_NoDup.
  destruct (decide (ss_session_id entry ∈ collection_sessions (w_db w) user));
    [done|lia].
Qed.

(** X3.  In a listing that [list] returns, the chunk count of a file is the
    number of chunk documents stored in that session of the user under that
    file name, and it is at least one. *)
Theorem list_counts (user : string) (w : World float)
    (listing : list SessionSummary) (entry : SessionSummary)
    (file : FileSummary) :
  (FirestoreCRUD.list env user w).1 = Ok listing →
  entry ∈ listing →
  file ∈ ss_files entry →
  fs_chunk_count file
  = chunk_count (w_db w) user (ss_session_id entry) (fs_filename file)
  ∧ 0 < fs_chunk_count file.
Proof. apply list_counts_lemma. Qed.

(** X4.  In a listing that [list] returns, every session stands once and
    has a name that is not empty and at least one file, and within a
    session every file stands once, under a name that is not empty. *)
Theorem list_distinct (user : string) (w : World float)
    (listing : list SessionSummary) :
  (FirestoreCRUD.list env user w).1 = Ok listing →
  NoDup (ss_session_id <$> listing)
  ∧ ∀ entry, entry ∈ listing →
      ss_session_id entry ≠ ""
      ∧ ss_files entry ≠ []
      ∧ NoDup (fs_filename <$> ss_files entry)
      ∧ ∀ file, file ∈ ss_files entry → fs_filename file ≠ "".
Proof.
  intros Hlist. apply list_run in Hlist. subst listing.
  set (flat := flat_documents (w_db w) user
                 (collection_sessions (w_db w) user)).
  destruct (list_summary_counts flat) as (Hnd & Ha & Hb & _).
  split.
  - unfold FirestoreCRUD.list_final_result, PyDict.items.
    rewrite <- list_fmap_compose. exact Hnd.
  - intros entry Hentry.
    unfold FirestoreCRUD.list_final_result, PyDict.items in Hentry.
    apply list_elem_of_fmap in Hentry as ([sid files] & -> & Hin).
    simpl. apply dict_elem_get in Hin; [|done].
    destruct (Ha sid files Hin) as (Hsid & Hne & Hndf).
    split; [by intros ->|]. split.
    { unfold PyDict.values. destruct files; [done|]. by rewrite fmap_cons. }
    split.
    + rewrite file_names_keys; [done|].
      intros name e He. apply dict_elem_get in He; [|done].
      by destruct (Hb sid files name e Hin He) as (? & _).
    + intros file Hfile. unfold PyDict.values in Hfile.
      apply list_elem_of_fmap in Hfile as ([k v] & -> & Hkv). simpl.
      apply dict_elem_get in Hkv; [|done].
      destruct (Hb sid files k v Hin Hkv) as (-> & Hk & _).
      by intros ->.
Qed.

(** Every stored chunk with a file name, in a session that has its marker,
    is in the listing. *)
Lemma list_complete_lemma (user session filename : string) (id : nat)
    (d : DocData float) (w : World float) (listing : list SessionSummary) :
  (FirestoreCRUD.list env user w).1 = Ok listing →
  is_Some (sessions (w_db w) !! (user, session)) →
  session ≠ "" →
  documents (w_db w) !! (user, session, id) = Some d →
  doc_filename d = Some filename →
  filename ≠ "" →
  ∃ entry file,
    entry ∈ listing ∧ ss_session_id entry = session
    ∧ file ∈ ss_files entry ∧ fs_filename file = filename.
Proof.
  intros Hlist Hmarker Hs Hd Hf Hname. apply list_run in Hlist.
  subst listing.
  set (flat := flat_documents (w_db w) user
                 (collection_sessions (w_db w) user)).
  destruct (list_summary_counts flat) as (_ & _ & Hb & Hc).
  assert (0 < flat_count flat session filename) as Hpos.
  { apply flat_count_positive.
    exists {| fd_session_id := session; fd_filename := Some filename |}.
    split; [|done]. subst flat. unfold flat_documents.
    apply list_elem_of_bind. exists session. split.
    - apply list_elem_of_fmap. exists (id, d). split; [by rewrite <- Hf|].
      by apply collection_documents_spec.
    - by apply collection_sessions_spec. }
  destruct (Hc session filename) as (files & e & Hfiles & He); [| |done|].
  { by destruct session. }
  { by destruct filename. }
  apply dict_get_elem in Hfiles as Hin.
  apply dict_get_elem in He as Hin'.
  destruct (Hb _ _ _ _ Hfiles He) as (Hfn & _).
  exists {| ss_session_id := session; ss_files := PyDict.values files |}, e.
  split.
  - unfold FirestoreCRUD.list_final_result, PyDict.items.
    apply list_elem_of_fmap. by exists (session, files).
  - split; [done|]. split; [|done]. unfold PyDict.values.
    apply list_elem_of_fmap. by exists (filename, e).
Qed.

(** X5.  When the store answers, [list] returns a listing, and the listing
    shows every stored chunk that has a file name and lies in a session of
    the user that has its marker document: the session is listed, with the
    file among its files. *)
Theorem list_complete (user session filename : string) (id : nat)
    (d : DocData float) (w : World float) :
  (∀ t, w_now w ≤ t → store_fault env t = None) →
  is_Some (sessions (w_db w) !! (user, session)) →
  session ≠ "" →
  documents (w_db w) !! (user, session, id) = Some d →
  doc_filename d = Some filename →
  filename ≠ "" →
  ∃ listing entry file,
    (FirestoreCRUD.list env user w).1 = Ok listing
    ∧ entry ∈ listing ∧ ss_session_id entry = session
    ∧ file ∈ ss_files entry ∧ fs_filename file = filename.
Proof.
  intros Hok Hmarker Hs Hd Hf Hname.
  destruct (list_returns env user w Hok) as [listing Hlist].
  destruct (list_complete_lemma user session filename id d w listing)
    as (entry & file & ?); try done.
  exists listing, entry, file. done.
Qed.

End ListCounts.

Lemma list_counts_witness :
  fs_chunk_count {| fs_filename := "x.pdf"; fs_chunk_count := 2 |}
  = StoreSpec.chunk_count (w_db Examples.world_two_files) "u"
      (ss_session_id
         {| ss_session_id := "s";
            ss_files := [{| fs_filename := "y.pdf"; fs_chunk_count := 1 |};
                         {| fs_filename := "x.pdf"; fs_chunk_count := 2 |}] |})
      (fs_filename {| fs_filename := "x.pdf"; fs_chunk_count := 2 |})
  ∧ 0 < fs_chunk_count {| fs_filename := "x.pdf"; fs_chunk_count := 2 |}.
Proof.
  apply (list_counts Examples.env_ok "u" Examples.world_two_files
           [{| ss_session_id := "s";
               ss_files := [{| fs_filename := "y.pdf"; fs_chunk_count := 1 |};
                            {| fs_filename := "x.pdf"; fs_chunk_count := 2 |}] |}]).
  - vm_compute. reflexivity.
  - apply list_elem_of_here.
  - simpl. apply list_elem_of_further, list_elem_of_here.
Defined.

Lemma list_distinct_witness :
  NoDup (ss_session_id
           <$> [{| ss_session_id := "s";
                   ss_files :=
                     [{| fs_filename := "y.pdf"; fs_chunk_count := 1 |};
                      {| fs_filename := "x.pdf"; fs_chunk_count := 2 |}] |}])
  ∧ ∀ entry,
      entry ∈ [{| ss_session_id := "s";
                  ss_files :=
                    [{| fs_filename := "y.pdf"; fs_chunk_count := 1 |};
                     {| fs_filename := "x.pdf"; fs_chunk_count := 2 |}] |}] →
      ss_session_id entry ≠ ""
      ∧ ss_files entry ≠ []
      ∧ NoDup (fs_filename <$> ss_files entry)
      ∧ ∀ file, file ∈ ss_files entry → fs_filename file ≠ "".
Proof.
  apply (list_distinct Examples.env_ok "u" Examples.world_two_files).
  vm_compute. reflexivity.
Defined.

Lemma list_complete_witness :
  ∃ listing entry file,
    (FirestoreCRUD.list Examples.env_ok "u" Examples.world_two_files).1
    = Ok listing
    ∧ entry ∈ listing ∧ ss_session_id entry = "s"
    ∧ file ∈ ss_files entry ∧ fs_filename file = "x.pdf".
Proof.
  apply (list_complete Examples.env_ok "u" "s" "x.pdf" 0
           (Examples.stored "x.pdf" "abc" [3%Z]) Examples.world_two_files).
  - intros t _. reflexivity.
  - eexists. vm_compute. reflexivity.
  - discriminate.
  - vm_compute. reflexivity.
  - reflexivity.
  - discriminate.
Defined.

(** ** The errors of the store layer, and what its reads leave alone *)

Section CrudErrors.
Context {float : Type} (env : Services float).
Import Firestore StoreSpec.

(** A body under [except Exception as e: raise HTTPException(500, ...)]
    raises nothing but that. *)
Lemma try_except_500 {A} (body : M float A) (prefix : string)
    (w : World float) (e : exn) :
  (try_except body (λ e, raise (HTTPException 500 (prefix ++ str e))) w).1
  = Raise e →
  ∃ cause, e = HTTPException 500 (prefix ++ str cause).
Proof.
  unfold try_except, raise. destruct (body w) as [[a|e'] w']; simpl; [done|].
  intros [= <-]. eauto.
Qed.

(** X6.  Whatever fails underneath, the store layer raises [HTTPException]
    only.  [index], [index_batch], [list] and [vectors] raise it with status
    500 and a detail made of their own prefix and the text of the cause;
    for [index_batch] and [vectors], which make one round trip, the cause is
    the failure of that round trip.  [delete] raises in three cases only:
    its own 404 naming the file, when the query was answered and matched no
    chunk; an [HTTPException] of the store, passed on as it is; and any
    other failure of the query or of the commit, as a 500 with its prefix
    and the text of the cause. *)
Theorem crud_raises_http_only (user session filename document_text : string)
    (vectors_list : list float) (chunks : list (ChunkData float))
    (w : World float) (e : exn) :
  ((FirestoreCRUD.index env user session filename vectors_list document_text
      w).1 = Raise e →
   ∃ cause,
     e = HTTPException 500 ("Failed to index document: " ++ str cause))
  ∧ ((FirestoreCRUD.index_batch env user session filename chunks w).1
     = Raise e →
     ∃ cause,
       store_fault env (w_now w) = Some cause
       ∧ e = HTTPException 500
               ("Falha ao indexar documentos em lote: " ++ str cause))
  ∧ ((FirestoreCRUD.list env user w).1 = Raise e →
     ∃ cause,
       e = HTTPException 500 ("Failed to list documents: " ++ str cause))
  ∧ ((FirestoreCRUD.vectors env user session w).1 = Raise e →
     ∃ cause,
       store_fault env (w_now w) = Some cause
       ∧ e = HTTPException 500 ("Failed to retrieve vectors: " ++ str cause))
  ∧ ((FirestoreCRUD.delete env user session filename w).1 = Raise e →
     is_http e = true
     ∧ ((store_fault env (w_now w) = None
         ∧ (¬ ∃ key, chunk_of (w_db w) user session filename key)
         ∧ e = HTTPException 404
                 ("No documents found with the filename '"
                    ++ filename ++ "'."))
        ∨ (∃ cause,
             (store_fault env (w_now w) = Some cause
              ∨ (store_fault env (w_now w) = None
                 ∧ (∃ key, chunk_of (w_db w) user session filename key)
                 ∧ store_fault env (S (w_now w)) = Some cause))
             ∧ e = if is_http cause then cause
                   else HTTPException 500
                          ("Failed to delete documents: " ++ str cause)))).
Proof.
  split; [apply try_except_500|].
  split.
  { rewrite index_batch_run.
    destruct (store_fault env (w_now w)) as [cause|]; simpl; [|done].
    intros [= <-]. eauto. }
  split; [apply try_except_500|].
  split.
  { rewrite vectors_run.
    destruct (store_fault env (w_now w)) as [cause|]; simpl; [|done].
    intros [= <-]. eauto. }
  rewrite delete_run.
  destruct (store_fault env (w_now w)) as [c1|] eqn:H1.
  { simpl. intros [= <-]. split; [by destruct c1|].
    right. exists c1. split; [by left|done]. }
  cbv zeta.
  destruct (List.filter (matches filename)
              (collection_documents (w_db w) user session))
    as [|doc docs] eqn:Hdocs; simpl.
  - intros [= <-]. split; [done|]. left.
    split; [done|]. split; [|done].
    intros [key Hkey]. apply matched_refs in Hkey.
    rewrite Hdocs in Hkey. by apply elem_of_nil in Hkey.
  - destruct (store_fault env (S (w_now w))) as [c2|] eqn:H2; simpl; [|done].
    intros [= <-]. split; [by destruct c2|].
    right. exists c2. split; [|done]. right.
    split; [done|]. split; [|done].
    exists (user, session, doc.1). apply matched_refs.
    rewrite Hdocs. apply list_elem_of_here.
Qed.

Lemma list_flat_loop_reads (user : string) (all_sessions : list string)
    (acc : list FlatDocument) (w : World float) :
  w_db (FirestoreCRUD.list_flat_loop env user all_sessions acc w).2 = w_db w
  ∧ w_next_id (FirestoreCRUD.list_flat_loop env user all_sessions acc w).2
    = w_next_id w
  ∧ w_log (FirestoreCRUD.list_flat_loop env user all_sessions acc w).2
    = w_log w.
Proof.
  revert acc w. induction all_sessions as [|session rest IH]; intros acc w.
  - done.
  - simpl FirestoreCRUD.list_flat_loop. unfold bind.
    rewrite stream_documents_run.
    destruct (store_fault env (w_now w)); [done|].
    destruct (IH (acc ++ ((λ doc : nat * DocData float,
                             {| fd_session_id := session;
                                fd_filename := doc_filename doc.2 |})
                            <$> collection_documents (w_db w) user session))
                (ticked w)) as (? & ? & ?).
    done.
Qed.

(** X7.  [list] and [vectors] only read: whether they return or raise, the
    store, the supply of document ids and the log of model calls are as
    before. *)
Theorem reads_leave_the_store (user session : string) (w : World float) :
  (w_db (FirestoreCRUD.list env user w).2 = w_db w
   ∧ w_next_id (FirestoreCRUD.list env user w).2 = w_next_id w
   ∧ w_log (FirestoreCRUD.list env user w).2 = w_log w)
  ∧ (w_db (FirestoreCRUD.vectors env user session w).2 = w_db w
     ∧ w_next_id (FirestoreCRUD.vectors env user session w).2 = w_next_id w
     ∧ w_log (FirestoreCRUD.vectors env user session w).2 = w_log w).
Proof.
  split.
  - unfold FirestoreCRUD.list, try_except, bind.
    rewrite stream_sessions_run.
    destruct (store_fault env (w_now w)); [done|].
    destruct (list_flat_loop_reads user (collection_sessions (w_db w) user)
                [] (ticked w)) as (Hdb & Hid & Hlog).
    destruct (FirestoreCRUD.list_flat_loop env user _ [] (ticked w))
      as [[flat|e] w']; done.
  - rewrite vectors_run. by destruct (store_fault env (w_now w)).
Qed.

(** The vectors of every stored chunk whose embedding is not empty are
    returned. *)
Lemma vectors_complete_lemma (user session : string) (w : World float)
    (id : nat) (d : DocData float) (vector : list float) :
  store_fault env (w_now w) = None →
  documents (w_db w) !! (user, session, id) = Some d →
  doc_embedding d = Some vector →
  vector ≠ [] →
  ∃ all_vectors all_texts i,
    (FirestoreCRUD.vectors env user session w).1
    = Ok (all_vectors, all_texts)
    ∧ all_vectors !! i = Some vector
    ∧ all_texts !! i = Some (doc_text d).
Proof.
  intros Hok Hd Hemb Hne. rewrite vectors_run, Hok, vectors_loop_spec. simpl.
  set (sel := omap with_embedding
                (collection_documents (w_db w) user session)).
  assert ((vector, doc_text d) ∈ sel) as Hin.
  { apply list_elem_of_omap. exists (id, d). split.
    - by apply collection_documents_spec.
    - unfold with_embedding. simpl. rewrite Hemb. by destruct vector. }
  apply list_elem_of_lookup in Hin as [i Hi].
  exists (sel.*1), (sel.*2), i. split; [done|].
  rewrite !list_lookup_fmap, Hi. done.
Qed.

(** X8.  When the store answers, [vectors] returns the vector and the text
    of every stored chunk of the scope whose embedding is not empty, at the
    same position of its two lists, whatever the chunk's file name and
    whether or not it is marked active. *)
Theorem vectors_complete (user session : string) (w : World float)
    (id : nat) (d : DocData float) (vector : list float) :
  store_fault env (w_now w) = None →
  documents (w_db w) !! (user, session, id) = Some d →
  doc_embedding d = Some vector →
  vector ≠ [] →
  ∃ all_vectors all_texts i,
    (FirestoreCRUD.vectors env user session w).1
    = Ok (all_vectors, all_texts)
    ∧ all_vectors !! i = Some vector
    ∧ all_texts !! i = Some (doc_text d).
Proof. apply vectors_complete_lemma. Qed.

End CrudErrors.

Lemma vectors_complete_witness :
  ∃ all_vectors all_texts i,
    (FirestoreCRUD.vectors Examples.env_ok "u" "s" Examples.world_mixed).1
    = Ok (all_vectors, all_texts)
    ∧ all_vectors !! i = Some [7%Z]
    ∧ all_texts !! i
      = Some (doc_text {| doc_filename := Some "x.pdf";
                          doc_created_at := Some (Time 0);
                          doc_text := None;
                          doc_embedding := Some [7%Z];
                          doc_active := Some true |}).
Proof.
  apply (vectors_complete Examples.env_ok "u" "s" Examples.world_mixed 3).
  - reflexivity.
  - vm_compute. reflexivity.
  - reflexivity.
  - discriminate.
Defined.

(** ** Deleting what is not there, and deleting twice *)

Section DeleteMore.
Context {float : Type} (env : Services float).
Import Firestore StoreSpec.

Lemma delete_not_found_lemma (user session filename : string)
    (w : World float) :
  store_fault env (w_now w) = None →
  (∀ key, ¬ chunk_of (w_db w) user session filename key) →
  FirestoreCRUD.delete env user session filename w
  = (Raise (HTTPException 404
              ("No documents found with the filename '" ++ filename ++ "'.")),
     ticked w).
Proof.
  intros Hok Hnone. rewrite delete_run, Hok. cbv zeta.
  destruct (List.filter (matches filename)
              (collection_documents (w_db w) user session))
    as [|doc docs] eqn:Hdocs; [reflexivity|].
  exfalso. apply (Hnone (user, session, doc.1)). apply matched_refs.
  rewrite Hdocs, fmap_cons. apply list_elem_of_here.
Qed.

Lemma delete_leaves_none (user session filename : string) (w w1 : World float)
    (res : DeleteResult) :
  FirestoreCRUD.delete env user session filename w = (Ok res, w1) →
  ∀ key, ¬ chunk_of (w_db w1) user session filename key.
Proof.
  intros Hdel key (Hu & Hs & d & Hd & Hf).
  apply delete_ok in Hdel as (_ & _ & _ & Hgone & Hrest).
  destruct (documents (w_db w) !! key) as [d0|] eqn:Hold.
  - destruct (decide (doc_filename d0 = Some filename)) as [Hf0|Hf0].
    + rewrite Hgone in Hd; [done|]. split; [done|]. split; [done|]. eauto.
    + rewrite Hrest, Hold in Hd.
      * injection Hd as <-. done.
      * intros (_ & _ & d' & Hd' & Hf'). congruence.
  - rewrite Hrest, Hold in Hd; [done|].
    intros (_ & _ & d' & Hd' & Hf'). congruence.
Qed.

(** X9.  When the store answers and no chunk of the scope carries the file
    name, [delete] raises an [HTTPException] with status 404 that names the
    file, after its one query: it commits nothing and the store is as
    before. *)
Theorem delete_not_found (user session filename : string) (w : World float) :
  store_fault env (w_now w) = None →
  (∀ key, ¬ chunk_of (w_db w) user session filename key) →
  (FirestoreCRUD.delete env user session filename w).1
  = Raise (HTTPException 404
             ("No documents found with the filename '" ++ filename ++ "'."))
  ∧ w_db (FirestoreCRUD.delete env user session filename w).2 = w_db w
  ∧ w_now (FirestoreCRUD.delete env user session filename w).2 = S (w_now w).
Proof.
  intros Hok Hnone. by rewrite delete_not_found_lemma.
Qed.

(** X10.  Deleting is not idempotent: after a [delete] that returned, the
    same [delete] again, if the store answers its query, finds nothing and
    raises the 404. *)
Theorem delete_twice (user session filename : string) (w w1 : World float)
    (res : DeleteResult) :
  FirestoreCRUD.delete env user session filename w = (Ok res, w1) →
  store_fault env (w_now w1) = None →
  (FirestoreCRUD.delete env user session filename w1).1
  = Raise (HTTPException 404
             ("No documents found with the filename '" ++ filename ++ "'."))
  ∧ w_db (FirestoreCRUD.delete env user session filename w1).2 = w_db w1.
Proof.
  intros Hdel Hok.
  rewrite delete_not_found_lemma; [done|done|].
  by eapply delete_leaves_none.
Qed.

End DeleteMore.

Lemma delete_not_found_witness :
  (FirestoreCRUD.delete Examples.env_ok "u" "s" "z.pdf"
     Examples.world_two_files).1
  = Raise (HTTPException 404
             ("No documents found with the filename '" ++ "z.pdf" ++ "'."))
  ∧ w_db (FirestoreCRUD.delete Examples.env_ok "u" "s" "z.pdf"
            Examples.world_two_files).2
    = w_db Examples.world_two_files
  ∧ w_now (FirestoreCRUD.delete Examples.env_ok "u" "s" "z.pdf"
             Examples.world_two_files).2
    = S (w_now Examples.world_two_files).
Proof.
  apply (delete_not_found Examples.env_ok "u" "s" "z.pdf"
           Examples.world_two_files).
  - reflexivity.
  - intros [[u s] id] (Hu & Hs & d & Hd & Hf). simpl in Hu, Hs, Hd.
    subst u s.
    destruct (decide (id = 0)) as [->|?];
      [vm_compute in Hd; injection Hd as <-; discriminate|].
    destruct (decide (id = 1)) as [->|?];
      [vm_compute in Hd; injection Hd as <-; discriminate|].
    destruct (decide (id = 2)) as [->|?];
      [vm_compute in Hd; injection Hd as <-; discriminate|].
    unfold Examples.db_two_files in Hd. simpl in Hd.
    rewrite !lookup_insert_ne in Hd by congruence.
    by rewrite lookup_empty in Hd.
Defined.

Lemma delete_twice_witness :
  (FirestoreCRUD.delete Examples.env_ok "u" "s" "x.pdf"
     (FirestoreCRUD.delete Examples.env_ok "u" "s" "x.pdf"
        Examples.world_two_files).2).1
  = Raise (HTTPException 404
             ("No documents found with the filename '" ++ "x.pdf" ++ "'."))
  ∧ w_db (FirestoreCRUD.delete Examples.env_ok "u" "s" "x.pdf"
            (FirestoreCRUD.delete Examples.env_ok "u" "s" "x.pdf"
               Examples.world_two_files).2).2
    = w_db (FirestoreCRUD.delete Examples.env_ok "u" "s" "x.pdf"
              Examples.world_two_files).2.
Proof.
  apply (delete_twice Examples.env_ok "u" "s" "x.pdf"
           Examples.world_two_files
           (FirestoreCRUD.delete Examples.env_ok "u" "s" "x.pdf"
              Examples.world_two_files).2
           {| message :=
                "Successfully deleted 2 document(s) with the filename 'x.pdf'." |}).
  - apply injective_projections; [vm_compute; reflexivity | reflexivity].
  - reflexivity.
Defined.

(** ** What [index_batch] and [index] store *)

Section IndexMore.
Context {float : Type} (env : Services float).
Import Firestore StoreSpec.

Lemma apply_index_ops_markers (t : nat) (user session filename : string)
    (chunks : list (ChunkData float)) (start : nat) (db : Store float) :
  users (apply_batch t db (index_ops user session filename start chunks))
  = <[user := Time t]> (users db)
  ∧ sessions (apply_batch t db (index_ops user session filename start chunks))
    = <[(user, session) := Time t]> (sessions db).
Proof.
  unfold index_ops, apply_batch. simpl foldl.
  destruct (apply_set_ops t user session filename chunks start
              (apply_op t (apply_op t db (SetUserUpdated user))
                 (SetSessionUpdated user session))) as (Hu & Hs & _).
  unfold apply_batch in Hu, Hs. simpl in Hu, Hs. by rewrite Hu, Hs.
Qed.

Lemma index_batch_ok (user session filename : string)
    (chunks : list (ChunkData float)) (w w1 : World float) (ids : list nat) :
  FirestoreCRUD.index_batch env user session filename chunks w = (Ok ids, w1) →
  ids = seq (w_next_id w) (length chunks)
  ∧ w_now w1 = S (w_now w)
  ∧ w_db w1
    = apply_batch (w_now w) (w_db w)
        (index_ops user session filename (w_next_id w) chunks).
Proof.
  rewrite index_batch_run.
  destruct (store_fault env (w_now w)); [done|].
  by intros [= <- <-].
Qed.

(** The chunk documents of a batch, as the store lists them afterwards. *)
Lemma index_batch_documents (user session filename : string)
    (chunks : list (ChunkData float)) (w w1 : World float) (ids : list nat)
    (i : nat) (c : ChunkData float) :
  FirestoreCRUD.index_batch env user session filename chunks w = (Ok ids, w1) →
  chunks !! i = Some c →
  ids !! i = Some (w_next_id w + i)
  ∧ documents (w_db w1) !! (user, session, w_next_id w + i)
    = Some (persisted (w_now w) filename (cd_text c) (cd_vector c)).
Proof.
  intros Hrun Hc. apply index_batch_ok in Hrun as (-> & _ & ->).
  apply lookup_lt_Some in Hc as Hi. split.
  - by apply lookup_seq_lt.
  - rewrite apply_index_ops. rewrite decide_True by (repeat split; lia).
    replace (w_next_id w + i - w_next_id w) with i by lia.
    by rewrite Hc.
Qed.

(** X11.  An [index_batch] that returns has made one commit, which wrote
    the [updated] time of the user marker and of the session marker (also
    for an empty chunk list) and one document per chunk; the ids it returns
    are distinct, as many as the chunks and in their order: the i-th id
    holds the file name, the text and the vector of the i-th chunk, marked
    active and dated with the time of the commit. *)
Theorem index_batch_stores (user session filename : string)
    (chunks : list (ChunkData float)) (w w1 : World float) (ids : list nat) :
  FirestoreCRUD.index_batch env user session filename chunks w = (Ok ids, w1) →
  length ids = length chunks
  ∧ NoDup ids
  ∧ users (w_db w1) !! user = Some (Time (w_now w))
  ∧ sessions (w_db w1) !! (user, session) = Some (Time (w_now w))
  ∧ ∀ i c, chunks !! i = Some c →
      ∃ id, ids !! i = Some id
            ∧ documents (w_db w1) !! (user, session, id)
              = Some {| doc_filename := Some filename;
                        doc_created_at := Some (Time (w_now w));
                        doc_text := Some (cd_text c);
                        doc_embedding := Some (cd_vector c);
                        doc_active := Some true |}.
Proof.
  intros Hrun.
  pose proof (λ i c, index_batch_documents user session filename chunks
                       w w1 ids i c Hrun) as Hdocs.
  apply index_batch_ok in Hrun as (-> & _ & Hdb).
  destruct (apply_index_ops_markers (w_now w) user session filename chunks
              (w_next_id w) (w_db w)) as [Hu Hs].
  split; [apply length_seq|]. split; [apply NoDup_seq|].
  split; [rewrite Hdb, Hu; apply lookup_insert_eq|].
  split; [rewrite Hdb, Hs; apply lookup_insert_eq|].
  intros i c Hc. destruct (Hdocs i c Hc) as [Hid Hd]. eauto.
Qed.

(** X12.  What [index_batch] has stored, [vectors] reads back: after an
    [index_batch] that returned, if the store answers, [vectors] on the same
    scope returns the vector of every chunk of the batch whose vector is not
    empty, with the chunk's text at the same position. *)
Theorem index_batch_then_vectors (user session filename : string)
    (chunks : list (ChunkData float)) (w w1 : World float) (ids : list nat)
    (i : nat) (c : ChunkData float) :
  FirestoreCRUD.index_batch env user session filename chunks w = (Ok ids, w1) →
  store_fault env (w_now w1) = None →
  chunks !! i = Some c →
  cd_vector c ≠ [] →
  ∃ all_vectors all_texts j,
    (FirestoreCRUD.vectors env user session w1).1
    = Ok (all_vectors, all_texts)
    ∧ all_vectors !! j = Some (cd_vector c)
    ∧ all_texts !! j = Some (Some (cd_text c)).
Proof.
  intros Hrun Hok Hc Hne.
  destruct (index_batch_documents _ _ _ _ _ _ _ _ _ Hrun Hc) as [_ Hd].
  apply (vectors_complete_lemma env user session w1 _ _ (cd_vector c) Hok Hd);
    done.
Qed.

Lemma chunk_count_after_index_batch (user session filename : string)
    (chunks : list (ChunkData float)) (w w1 : World float) (ids : list nat) :
  FirestoreCRUD.index_batch env user session filename chunks w = (Ok ids, w1) →
  length chunks ≤ chunk_count (w_db w1) user session filename.
Proof.
  intros Hrun.
  set (new := zip (seq (w_next_id w) (length chunks))
                ((λ c, persisted (w_now w) filename (cd_text c) (cd_vector c))
                   <$> chunks)).
  assert (length new = length chunks) as <-.
  { subst new. rewrite length_zip_with, length_seq, length_fmap. lia. }
  unfold chunk_count. apply submseteq_length, NoDup_submseteq.
  - apply (NoDup_fmap_1 fst). subst new.
    rewrite fst_zip by (rewrite length_seq, length_fmap; lia).
    apply NoDup_seq.
  - intros [id d] Hin. apply list_elem_of_lookup in Hin as [i Hi].
    subst new. apply lookup_zip_with_Some in Hi as (a & b & [= <- <-] & Ha & Hb).
    apply lookup_seq in Ha as [-> Hlt].
    rewrite list_lookup_fmap in Hb.
    destruct (chunks !! i) as [c|] eqn:Hc; [|done]. injection Hb as <-.
    destruct (index_batch_documents _ _ _ _ _ _ _ _ _ Hrun Hc) as [_ Hd].
    apply list_elem_of_In, filter_In. split.
    + by apply list_elem_of_In, collection_documents_spec.
    + unfold matches. by apply bool_decide_eq_true.
Qed.

Lemma index_batch_then_list_lemma (user session filename : string)
    (chunks : list (ChunkData float)) (w w1 : World float) (ids : list nat) :
  FirestoreCRUD.index_batch env user session filename chunks w = (Ok ids, w1) →
  chunks ≠ [] → session ≠ "" → filename ≠ "" →
  (∀ t, w_now w1 ≤ t → store_fault env t = None) →
  ∃ listing entry file,
    (FirestoreCRUD.list env user w1).1 = Ok listing
    ∧ entry ∈ listing ∧ ss_session_id entry = session
    ∧ file ∈ ss_files entry ∧ fs_filename file = filename
    ∧ length chunks ≤ fs_chunk_count file.
Proof.
  intros Hrun Hne Hs Hf Hok.
  assert (∃ c, chunks !! 0 = Some c) as [c Hc]
    by (destruct chunks; [done|eauto]).
  destruct (index_batch_documents _ _ _ _ _ _ _ _ _ Hrun Hc) as [_ Hd].
  pose proof (chunk_count_after_index_batch _ _ _ _ _ _ _ Hrun) as Hcount.
  destruct (list_returns env user w1 Hok) as [listing Hlist].
  assert (is_Some (sessions (w_db w1) !! (user, session))) as Hmarker.
  { apply index_batch_ok in Hrun as (_ & _ & Hdb).
    destruct (apply_index_ops_markers (w_now w) user session filename chunks
                (w_next_id w) (w_db w)) as [_ Hs'].
    rewrite Hdb, Hs', lookup_insert_eq. eauto. }
  destruct (list_complete_lemma env user session filename _ _ w1 listing
              Hlist Hmarker Hs Hd eq_refl Hf)
    as (entry & file & Hentry & Hsid & Hfile & Hname).
  exists listing, entry, file.
  destruct (list_counts_lemma env user w1 listing entry file
              Hlist Hentry Hfile) as [Hc' _].
  rewrite Hc', Hsid, Hname. done.
Qed.

(** X13.  What [index_batch] has stored, [list] shows: after an
    [index_batch] of at least one chunk that returned, with a session id and
    a file name that are not empty, if the store answers, the listing of the
    user has the session, with the file among its files and a chunk count
    of at least the number of chunks of the batch. *)
Theorem index_batch_then_list (user session filename : string)
    (chunks : list (ChunkData float)) (w w1 : World float) (ids : list nat) :
  FirestoreCRUD.index_batch env user session filename chunks w = (Ok ids, w1) →
  chunks ≠ [] → session ≠ "" → filename ≠ "" →
  (∀ t, w_now w1 ≤ t → store_fault env t = None) →
  ∃ listing entry file,
    (FirestoreCRUD.list env user w1).1 = Ok listing
    ∧ entry ∈ listing ∧ ss_session_id entry = session
    ∧ file ∈ ss_files entry ∧ fs_filename file = filename
    ∧ length chunks ≤ fs_chunk_count file.
Proof. apply index_batch_then_list_lemma. Qed.

End IndexMore.

Lemma index_batch_stores_witness :
  length [0; 1] = length Examples.two_chunks
  ∧ NoDup [0; 1]
  ∧ users (w_db (FirestoreCRUD.index_batch Examples.env_ok "u" "s" "x.pdf"
                   Examples.two_chunks Examples.world0).2) !! "u"
    = Some (Time (w_now Examples.world0))
  ∧ sessions (w_db (FirestoreCRUD.index_batch Examples.env_ok "u" "s" "x.pdf"
                      Examples.two_chunks Examples.world0).2) !! ("u", "s")
    = Some (Time (w_now Examples.world0))
  ∧ ∀ i c, Examples.two_chunks !! i = Some c →
      ∃ id, [0; 1] !! i = Some id
            ∧ documents
                (w_db (FirestoreCRUD.index_batch Examples.env_ok "u" "s"
                         "x.pdf" Examples.two_chunks Examples.world0).2)
                !! ("u", "s", id)
              = Some {| doc_filename := Some "x.pdf";
                        doc_created_at := Some (Time (w_now Examples.world0));
                        doc_text := Some (cd_text c);
                        doc_embedding := Some (cd_vector c);
                        doc_active := Some true |}.
Proof.
  apply (index_batch_stores Examples.env_ok "u" "s" "x.pdf"
           Examples.two_chunks Examples.world0).
  apply injective_projections; [vm_compute; reflexivity | reflexivity].
Defined.

Lemma index_batch_then_vectors_witness :
  ∃ all_vectors all_texts j,
    (FirestoreCRUD.vectors Examples.env_ok "u" "s"
       (FirestoreCRUD.index_batch Examples.env_ok "u" "s" "x.pdf"
          Examples.two_chunks Examples.world0).2).1
    = Ok (all_vectors, all_texts)
    ∧ all_vectors !! j
      = Some (cd_vector {| cd_text := "de"; cd_vector := [2%Z] |})
    ∧ all_texts !! j
      = Some (Some (cd_text {| cd_text := "de"; cd_vector := [2%Z] |})).
Proof.
  apply (index_batch_then_vectors Examples.env_ok "u" "s" "x.pdf"
           Examples.two_chunks Examples.world0
           (FirestoreCRUD.index_batch Examples.env_ok "u" "s" "x.pdf"
              Examples.two_chunks Examples.world0).2
           [0; 1] 1).
  - apply injective_projections; [vm_compute; reflexivity | reflexivity].
  - reflexivity.
  - reflexivity.
  - discriminate.
Defined.

Lemma index_batch_then_list_witness :
  ∃ listing entry file,
    (FirestoreCRUD.list Examples.env_ok "u"
       (FirestoreCRUD.index_batch Examples.env_ok "u" "s" "x.pdf"
          Examples.two_chunks Examples.world0).2).1 = Ok listing
    ∧ entry ∈ listing ∧ ss_session_id entry = "s"
    ∧ file ∈ ss_files entry ∧ fs_filename file = "x.pdf"
    ∧ length Examples.two_chunks ≤ fs_chunk_count file.
Proof.
  apply (index_batch_then_list Examples.env_ok "u" "s" "x.pdf"
           Examples.two_chunks Examples.world0
           (FirestoreCRUD.index_batch Examples.env_ok "u" "s" "x.pdf"
              Examples.two_chunks Examples.world0).2
           [0; 1]).
  - apply injective_projections; [vm_compute; reflexivity | reflexivity].
  - discriminate.
  - discriminate.
  - discriminate.
  - intros t _. reflexivity.
Defined.

Section IndexSingle.
Context {float : Type} (env : Services float).
Import Firestore StoreSpec.

Lemma index_run_ok (user session filename document_text : string)
    (vectors_list : list float) (w : World float) :
  store_fault env (w_now w) = None →
  store_fault env (S (w_now w)) = None →
  store_fault env (S (S (w_now w))) = None →
  documents (w_db w) !! (user, session, w_next_id w) = None →
  FirestoreCRUD.index env user session filename vectors_list document_text w
  = (Ok {| ir_document_id := w_next_id w;
           ir_message := "Document indexed successfully" |},
     {| w_db :=
          {| users := <[user := Time (w_now w)]> (users (w_db w));
             sessions :=
               <[(user, session) := Time (S (w_now w))]> (sessions (w_db w));
             documents :=
               <[(user, session, w_next_id w) :=
                   persisted (S (S (w_now w))) filename document_text
                     vectors_list]> (documents (w_db w)) |};
        w_now := S (S (S (w_now w)));
        w_next_id := S (w_next_id w);
        w_log := w_log w |}).
Proof.
  intros H0 H1 H2 Hfree.
  unfold FirestoreCRUD.index, try_except, set_now, add, create.
  unfold bind at 1. unfold bind at 1. rewrite commit_run, H0.
  unfold bind at 1. rewrite commit_run. simpl w_now. rewrite H1.
  unfold bind at 1. unfold bind at 1. unfold document_auto_id at 1.
  unfold bind at 1. unfold bind at 1. rewrite round_trip_run.
  simpl w_now. rewrite H2.
  unfold bind, get_db, put_db, ret. simpl. unfold DocRef in *.
  rewrite Hfree. reflexivity.
Qed.

Lemma index_run_late_fault (user session filename document_text : string)
    (vectors_list : list float) (w : World float) :
  store_fault env (w_now w) = None →
  is_Some (store_fault env (S (w_now w)))
  ∨ is_Some (store_fault env (S (S (w_now w)))) →
  ∃ detail w',
    FirestoreCRUD.index env user session filename vectors_list document_text w
    = (Raise (HTTPException 500 detail), w')
    ∧ users (w_db w') = <[user := Time (w_now w)]> (users (w_db w))
    ∧ documents (w_db w') = documents (w_db w).
Proof.
  intros H0 Hlater.
  unfold FirestoreCRUD.index, try_except, set_now, add, create.
  unfold bind at 1. unfold bind at 1. rewrite commit_run, H0.
  unfold bind at 1. rewrite commit_run. simpl w_now.
  destruct (store_fault env (S (w_now w))) as [e1|] eqn:H1.
  { unfold raise. simpl. eauto. }
  unfold bind at 1. unfold bind at 1. unfold document_auto_id at 1.
  unfold bind at 1. unfold bind at 1. rewrite round_trip_run.
  simpl w_now.
  destruct (store_fault env (S (S (w_now w)))) as [e2|] eqn:H2.
  { unfold raise. simpl. eauto. }
  exfalso. destruct Hlater as [[? ?]|[? ?]]; done.
Qed.

(** X14.  When the store accepts its three writes and the fresh id is free,
    [index] returns that id, and the store then holds the document under
    it, with the file name, the text and the vector, marked active, and the
    two markers with the times of their own writes; the other chunk
    documents are as before. *)
Theorem index_stores (user session filename document_text : string)
    (vectors_list : list float) (w : World float) :
  store_fault env (w_now w) = None →
  store_fault env (S (w_now w)) = None →
  store_fault env (S (S (w_now w))) = None →
  documents (w_db w) !! (user, session, w_next_id w) = None →
  (FirestoreCRUD.index env user session filename vectors_list document_text
     w).1
  = Ok {| ir_document_id := w_next_id w;
          ir_message := "Document indexed successfully" |}
  ∧ documents
      (w_db (FirestoreCRUD.index env user session filename vectors_list
               document_text w).2) !! (user, session, w_next_id w)
    = Some {| doc_filename := Some filename;
              doc_created_at := Some (Time (S (S (w_now w))));
              doc_text := Some document_text;
              doc_embedding := Some vectors_list;
              doc_active := Some true |}
  ∧ users
      (w_db (FirestoreCRUD.index env user session filename vectors_list
               document_text w).2) !! user
    = Some (Time (w_now w))
  ∧ sessions
      (w_db (FirestoreCRUD.index env user session filename vectors_list
               document_text w).2) !! (user, session)
    = Some (Time (S (w_now w)))
  ∧ ∀ key, key ≠ (user, session, w_next_id w) →
      documents
        (w_db (FirestoreCRUD.index env user session filename vectors_list
                 document_text w).2) !! key
      = documents (w_db w) !! key.
Proof.
  intros H0 H1 H2 Hfree. rewrite index_run_ok by done. simpl.
  split; [done|]. split; [apply lookup_insert_eq|].
  split; [apply lookup_insert_eq|]. split; [apply lookup_insert_eq|].
  intros key Hkey. by rewrite lookup_insert_ne.
Qed.

(** X15.  [index] is not atomic.  When the first write is accepted and one
    of the two later writes fails, [index] raises its [HTTPException] with
    status 500 and the store keeps what was written before the failure: the
    user marker carries the time of the first write, and no chunk document
    has been added or changed. *)
Theorem index_not_atomic (user session filename document_text : string)
    (vectors_list : list float) (w : World float) :
  store_fault env (w_now w) = None →
  is_Some (store_fault env (S (w_now w)))
  ∨ is_Some (store_fault env (S (S (w_now w)))) →
  (∃ detail,
     (FirestoreCRUD.index env user session filename vectors_list
        document_text w).1 = Raise (HTTPException 500 detail))
  ∧ users
      (w_db (FirestoreCRUD.index env user session filename vectors_list
               document_text w).2) !! user
    = Some (Time (w_now w))
  ∧ documents
      (w_db (FirestoreCRUD.index env user session filename vectors_list
               document_text w).2)
    = documents (w_db w).
Proof.
  intros H0 Hlater.
  destruct (index_run_late_fault user session filename document_text
              vectors_list w H0 Hlater) as (detail & w' & -> & Hu & Hd).
  simpl. split; [eauto|]. split; [|done].
  rewrite Hu. apply lookup_insert_eq.
Qed.

End IndexSingle.

Lemma index_stores_witness :
  (FirestoreCRUD.index Examples.env_ok "u" "s" "x.pdf" [3%Z] "abc"
     Examples.world0).1
  = Ok {| ir_document_id := w_next_id Examples.world0;
          ir_message := "Document indexed successfully" |}
  ∧ documents
      (w_db (FirestoreCRUD.index Examples.env_ok "u" "s" "x.pdf" [3%Z] "abc"
               Examples.world0).2)
      !! ("u", "s", w_next_id Examples.world0)
    = Some {| doc_filename := Some "x.pdf";
              doc_created_at := Some (Time (S (S (w_now Examples.world0))));
              doc_text := Some "abc";
              doc_embedding := Some [3%Z];
              doc_active := Some true |}
  ∧ users
      (w_db (FirestoreCRUD.index Examples.env_ok "u" "s" "x.pdf" [3%Z] "abc"
               Examples.world0).2) !! "u"
    = Some (Time (w_now Examples.world0))
  ∧ sessions
      (w_db (FirestoreCRUD.index Examples.env_ok "u" "s" "x.pdf" [3%Z] "abc"
               Examples.world0).2) !! ("u", "s")
    = Some (Time (S (w_now Examples.world0)))
  ∧ ∀ key, key ≠ ("u", "s", w_next_id Examples.world0) →
      documents
        (w_db (FirestoreCRUD.index Examples.env_ok "u" "s" "x.pdf" [3%Z]
                 "abc" Examples.world0).2) !! key
      = documents (w_db Examples.world0) !! key.
Proof.
  apply (index_stores Examples.env_ok "u" "s" "x.pdf" "abc" [3%Z]
           Examples.world0);
    reflexivity.
Defined.

Lemma index_not_atomic_witness :
  (∃ detail,
     (FirestoreCRUD.index (Examples.env_store_fails_at 2) "u" "s" "x.pdf"
        [3%Z] "abc" Examples.world0).1 = Raise (HTTPException 500 detail))
  ∧ users
      (w_db (FirestoreCRUD.index (Examples.env_store_fails_at 2) "u" "s"
               "x.pdf" [3%Z] "abc" Examples.world0).2) !! "u"
    = Some (Time (w_now Examples.world0))
  ∧ documents
      (w_db (FirestoreCRUD.index (Examples.env_store_fails_at 2) "u" "s"
               "x.pdf" [3%Z] "abc" Examples.world0).2)
    = documents (w_db Examples.world0).
Proof.
  apply (index_not_atomic (Examples.env_store_fails_at 2) "u" "s" "x.pdf"
           "abc" [3%Z] Examples.world0).
  - reflexivity.
  - right. eexists. reflexivity.
Defined.

(** ** One file, from upload to listing *)

Section ProcessMore.
Context {float : Type} (env : Services float).
Import Firestore StoreSpec Batcher.

(** X16.  A file that gives no chunk costs nothing: when the PDF cannot be
    read, or its text is blank (empty, or white space only, Unicode white
    space included), or the chunker fails or returns no chunk,
    the file's result is the error "No text found or failed to create
    chunks." and the world is as before: no embedding call, no store
    access. *)
Theorem process_without_text (user session : string) (file : UploadFile)
    (w : World float) :
  (∃ e, pdf_text env (up_content file) = Raise e)
  ∨ (∃ text,
       pdf_text env (up_content file) = Ok text
       ∧ (strip_is_empty text = true
          ∨ (∃ e, chunk_document_text env text 1000 150 = Raise e)
          ∨ chunk_document_text env text 1000 150 = Ok [])) →
  document._process_and_index_file env user session file w
  = (Ok (FileError (up_filename file)
           "No text found or failed to create chunks."), w).
Proof.
  intros Hnone. rewrite process_run. cbv zeta.
  assert (document._extract_and_chunk_text env (up_content file) = [])
    as ->; [|reflexivity].
  unfold document._extract_and_chunk_text.
  destruct Hnone as [[e ->]|(text & -> & [->|[[e ->]| ->]])];
    try reflexivity; by destruct (strip_is_empty text).
Qed.

(** X17.  [_process_and_index_file] never raises: whatever the services do,
    it returns a result for the file, under the file's name.  An error
    result means that the store is as before; a success result reports as
    many chunks as it lists ids, and the ids are distinct. *)
Theorem process_never_raises (user session : string) (file : UploadFile)
    (w : World float) :
  ∃ res,
    (document._process_and_index_file env user session file w).1 = Ok res
    ∧ result_filename res = up_filename file
    ∧ match res with
      | FileError _ _ =>
          w_db (document._process_and_index_file env user session file w).2
          = w_db w
      | FileSuccess _ indexed_chunks document_ids =>
          indexed_chunks = length document_ids ∧ NoDup document_ids
      end.
Proof.
  destruct (process_spec env user session file w)
    as (res & Hres & Hname & _ & Hcases).
  exists res. split; [done|]. split; [done|].
  destruct Hcases as [(detail & -> & Hdb)|(vs & t & _ & -> & _)]; [done|].
  split; [by rewrite length_seq|apply NoDup_seq].
Qed.

(** A success of [_process_and_index_file] is a success of [index_batch] on
    at least one chunk. *)
Lemma process_success_inv (user session : string) (file : UploadFile)
    (w : World float) (fname : string) (n : nat) (ids : list nat) :
  (document._process_and_index_file env user session file w).1
  = Ok (FileSuccess fname n ids) →
  ∃ chunks w1,
    FirestoreCRUD.index_batch env user session (up_filename file) chunks w1
    = (Ok ids, (document._process_and_index_file env user session file w).2)
    ∧ chunks ≠ [] ∧ fname = up_filename file ∧ n = length chunks.
Proof.
  rewrite process_run. cbv zeta.
  set (chunks := document._extract_and_chunk_text env (up_content file)).
  destruct (truthy_list chunks) eqn:Hchunks; [|done].
  destruct (document.generate_embeddings_in_batches env chunks
              document.default_batch_size w) as [[vs|e] w1]; [|done].
  destruct (truthy_list vs) eqn:Hvs; [|done].
  destruct (FirestoreCRUD.index_batch env user session (up_filename file)
              (document.chunks_to_index chunks vs) w1)
    as [[ids'|e] w2] eqn:Hbatch; [|done].
  simpl. intros [= <- <- <-].
  exists (document.chunks_to_index chunks vs), w1.
  split; [done|]. split; [by destruct chunks, vs|]. split; [done|].
  apply index_batch_ok in Hbatch as (-> & _). by rewrite length_seq.
Qed.

(** X18.  A file that succeeded is in the listing: after a success of
    [_process_and_index_file], for a session id and a file name that are
    not empty and a store that answers, the listing of the user has the
    session, with the file among its files and a chunk count of at least
    the number of chunks that the result reports. *)
Theorem process_then_list (user session : string) (file : UploadFile)
    (w : World float) (fname : string) (n : nat) (ids : list nat) :
  (document._process_and_index_file env user session file w).1
  = Ok (FileSuccess fname n ids) →
  session ≠ "" → up_filename file ≠ "" →
  (∀ t,
     w_now (document._process_and_index_file env user session file w).2 ≤ t →
     store_fault env t = None) →
  ∃ listing entry item,
    (FirestoreCRUD.list env user
       (document._process_and_index_file env user session file w).2).1
    = Ok listing
    ∧ entry ∈ listing ∧ ss_session_id entry = session
    ∧ item ∈ ss_files entry ∧ fs_filename item = fname
    ∧ 0 < n ≤ fs_chunk_count item.
Proof.
  intros Hres Hs Hf Hok.
  destruct (process_success_inv user session file w fname n ids Hres)
    as (chunks & w1 & Hbatch & Hne & -> & ->).
  destruct (index_batch_then_list_lemma env user session (up_filename file)
              chunks w1 _ ids Hbatch Hne Hs Hf Hok)
    as (listing & entry & item & ? & ? & ? & ? & ? & ?).
  exists listing, entry, item. repeat split; try done.
  destruct chunks; [done|]. simpl. lia.
Qed.

End ProcessMore.

Lemma process_without_text_witness :
  document._process_and_index_file Examples.env_blank_pdf "u" "s"
    Examples.file_x Examples.world0
  = (Ok (FileError (up_filename Examples.file_x)
           "No text found or failed to create chunks."), Examples.world0).
Proof.
  apply (process_without_text Examples.env_blank_pdf "u" "s" Examples.file_x
           Examples.world0).
  right. exists Examples.blank_text. split; [reflexivity|].
  left. reflexivity.
Defined.

Lemma process_then_list_witness :
  ∃ listing entry item,
    (FirestoreCRUD.list Examples.env_ok "u"
       (document._process_and_index_file Examples.env_ok "u" "s"
          Examples.file_x Examples.world0).2).1
    = Ok listing
    ∧ entry ∈ listing ∧ ss_session_id entry = "s"
    ∧ item ∈ ss_files entry ∧ fs_filename item = "x.pdf"
    ∧ 0 < 3 ≤ fs_chunk_count item.
Proof.
  apply (process_then_list Examples.env_ok "u" "s" Examples.file_x
           Examples.world0 "x.pdf" 3 [0; 1; 2]).
  - vm_compute. reflexivity.
  - discriminate.
  - discriminate.
  - intros t _. reflexivity.
Defined.

(** ** The ingestion request as a whole *)

Section IndexDocumentsMore.
Context {float : Type} (env : Services float).
Import Firestore StoreSpec.

Lemma results_split (results : list FileResult) :
  length (List.filter is_success results)
  + length (List.filter is_error results) = length results
  ∧ Forall (λ res, status res = success) (List.filter is_success results)
  ∧ Forall (λ res, status res = error) (List.filter is_error results).
Proof.
  induction results as [|[f d|f n ids] results (Hlen & Hs & He)]; simpl.
  - done.
  - split; [lia|]. split; [done|]. by constructor.
  - split; [lia|]. split; [by constructor|done].
Qed.

(** X19.  [index_documents] raises in one case only, the empty file list,
    and then before doing anything: the exception is the [HTTPException]
    with status 400 and the world is untouched.  With at least one file it
    always answers, with status 200 or 500. *)
Theorem index_documents_raises_iff_empty (user session : string)
    (files : list UploadFile) (w : World float) :
  (files = [] →
   document.index_documents env user session files w
   = (Raise (HTTPException 400 "No files uploaded."), w))
  ∧ (files ≠ [] →
     ∃ response,
       (document.index_documents env user session files w).1 = Ok response
       ∧ (status_code response = 200%Z ∨ status_code response = 500%Z)).
Proof.
  split; [by intros ->|]. intros Hne.
  destruct (gather_process env user session files w)
    as (results & Hresults & _).
  rewrite (index_documents_run env _ _ _ _ _ Hne Hresults). simpl.
  destruct (negb _ && _); eauto.
Qed.

(** X20.  The answer of [index_documents] accounts for every file once.  In
    the 200 body there is at least one successful result, the successful
    and the failed results are as many as the files, and each list holds
    only results of its kind; in the 500 body the failed results are as
    many as the files. *)
Theorem index_documents_accounts (user session : string)
    (files : list UploadFile) (w : World float) :
  files ≠ [] →
  ∃ response,
    (document.index_documents env user session files w).1 = Ok response
    ∧ match content response with
      | IndexCompleted _ successful failed =>
          status_code response = 200%Z
          ∧ successful ≠ []
          ∧ length successful + length failed = length files
          ∧ Forall (λ res, status res = success) successful
          ∧ Forall (λ res, status res = error) failed
      | IndexFailed _ failed =>
          status_code response = 500%Z
          ∧ length failed = length files
          ∧ Forall (λ res, status res = error) failed
      end.
Proof.
  intros Hne.
  destruct (gather_process env user session files w)
    as (results & Hresults & Hall & _).
  rewrite (index_documents_run env _ _ _ _ _ Hne Hresults). simpl.
  apply Forall2_length in Hall.
  destruct (results_split results) as (Hlen & Hs & He).
  destruct (List.filter is_success results) as [|r rs] eqn:Hsucc; simpl.
  - destruct (List.filter is_error results) as [|r' rs'] eqn:Herr; simpl.
    + exfalso. simpl in Hlen. destruct files; [done|]. simpl in Hall. lia.
    + eexists. split; [done|]. simpl. split; [done|].
      split; [simpl in Hlen; lia|done].
  - eexists. split; [done|]. simpl. split; [done|]. split; [done|].
    split; [simpl in Hlen; lia|]. done.
Qed.

End IndexDocumentsMore.

Lemma index_documents_accounts_witness :
  ∃ response,
    (document.index_documents Examples.env_ok "u" "s"
       [Examples.file_x; Examples.file_corrupt; Examples.file_y]
       Examples.world0).1 = Ok response
    ∧ match content response with
      | IndexCompleted _ successful failed =>
          status_code response = 200%Z
          ∧ successful ≠ []
          ∧ length successful + length failed
            = length [Examples.file_x; Examples.file_corrupt; Examples.file_y]
          ∧ Forall (λ res, status res = success) successful
          ∧ Forall (λ res, status res = error) failed
      | IndexFailed _ failed =>
          status_code response = 500%Z
          ∧ length failed
            = length [Examples.file_x; Examples.file_corrupt; Examples.file_y]
          ∧ Forall (λ res, status res = error) failed
      end.
Proof.
  apply (index_documents_accounts Examples.env_ok "u" "s"
           [Examples.file_x; Examples.file_corrupt; Examples.file_y]
           Examples.world0).
  discriminate.
Defined.

(** ** The endpoints for questions, deletion and listing *)

Section EndpointsMore.
Context {float : Type} (env : Services float).
Import Firestore StoreSpec.

(** X21.  A blank question (empty, or white space only, Unicode white
    space included) is turned away before anything is read or asked, but not with the 400 that the code raises for it: the handler of
    [question] wraps it, and what leaves the endpoint is an [HTTPException]
    with status 500 whose detail quotes the 400. *)
Theorem question_blank (user session question : string) (w : World float) :
  strip_is_empty question = true →
  chat.question env user session question w
  = (Raise (HTTPException 500
              "Failed to generate response: 400: Question cannot be empty."),
     w).
Proof. intros Hq. rewrite question_run, Hq. reflexivity. Qed.

(** X22.  [question] only reads: the store and the supply of document ids
    are as before, it never calls the embedding service, and it calls the
    answer service at most once, with the question as it was asked. *)
Theorem question_reads_only (user session question : string)
    (w : World float) :
  w_db (chat.question env user session question w).2 = w_db w
  ∧ w_next_id (chat.question env user session question w).2 = w_next_id w
  ∧ (w_log (chat.question env user session question w).2 = w_log w
     ∨ ∃ vectors_list texts_list,
         w_log (chat.question env user session question w).2
         = w_log w ++ [EvGetAnswer question vectors_list texts_list]).
Proof.
  rewrite question_run.
  destruct (strip_is_empty question); [simpl; auto|].
  destruct (store_fault env (w_now w)); [simpl; auto|].
  cbv zeta.
  destruct (get_answer env _ _ _ _) as [response|e];
    [destruct (truthy_opt_str response)|];
    simpl; (split; [done|]; split; [done|]; right; eauto).
Qed.

(** X23.  When the answer service returns an answer that is not empty,
    [question] returns it as it is, with status 200. *)
Theorem question_answer_verbatim (user session question : string)
    (w : World float) (vectors_list : list (list float))
    (texts_list : list (option string)) (answer : string) :
  strip_is_empty question = false →
  (FirestoreCRUD.vectors env user session w).1
  = Ok (vectors_list, texts_list) →
  get_answer env (S (w_now w)) question vectors_list texts_list
  = Ok (Some answer) →
  answer ≠ "" →
  (chat.question env user session question w).1
  = Ok {| status_code := 200; content := Some answer |}.
Proof.
  intros Hq Hvectors Hanswer Hne. rewrite question_run, Hq.
  rewrite vectors_run in Hvectors.
  destruct (store_fault env (w_now w)); [done|].
  rewrite vectors_loop_spec in Hvectors. simpl in Hvectors.
  injection Hvectors as <- <-. cbv zeta. rewrite Hanswer.
  by destruct answer.
Qed.

(** X24.  When the store answers the query and accepts the commit,
    [delete_document] answers with status 200 and a message that gives the
    number of chunk documents that carried the file name in the scope, at
    least one, and the file name. *)
Theorem delete_document_message (user session filename : string)
    (w : World float) :
  store_fault env (w_now w) = None →
  store_fault env (S (w_now w)) = None →
  (∃ key, chunk_of (w_db w) user session filename key) →
  (document.delete_document env user session filename w).1
  = Ok {| status_code := 200;
          content :=
            "Successfully deleted "
              +:+ pretty (chunk_count (w_db w) user session filename)
              +:+ " document(s) with the filename '" +:+ filename +:+ "'." |}
  ∧ 0 < chunk_count (w_db w) user session filename.
Proof.
  intros H0 H1 Hmatch. unfold document.delete_document, try_except, bind.
  rewrite delete_run, H0. cbv zeta.
  pose proof (matched_nonempty (w_db w) user session filename Hmatch)
    as Hne.
  rewrite Hne, H1. simpl. split; [done|]. unfold chunk_count.
  destruct (List.filter _ _); [done|]. simpl. lia.
Qed.

(** X25.  [list_documents] answers with status 200 and the listing of
    [FirestoreCRUD.list], or raises an [HTTPException] with status 500 whose
    detail wraps the one of the store layer: the prefix "Failed to list
    documents" stands twice in it. *)
Theorem list_documents_outcome (user : string) (w : World float) :
  (∃ listing,
     (FirestoreCRUD.list env user w).1 = Ok listing
     ∧ (document.list_documents env user w).1
       = Ok {| status_code := 200; content := listing |})
  ∨ (∃ e,
       (document.list_documents env user w).1
       = Raise (HTTPException 500
                  ("Failed to list documents: 500: Failed to list documents: "
                     ++ str e))).
Proof.
  unfold document.list_documents, try_except, bind, ret, raise.
  destruct (FirestoreCRUD.list env user w) as [[listing|e] w'] eqn:Hlist;
    simpl.
  - left. eauto.
  - right.
    assert ((FirestoreCRUD.list env user w).1 = Raise e) as Hraise
      by by rewrite Hlist.
    apply try_except_500 in Hraise as [cause ->]. exists cause. reflexivity.
Qed.

End EndpointsMore.

Lemma question_blank_witness :
  chat.question Examples.env_ok "u" "s" Examples.blank_text
    Examples.world_two_files
  = (Raise (HTTPException 500
              "Failed to generate response: 400: Question cannot be empty."),
     Examples.world_two_files).
Proof.
  apply (question_blank Examples.env_ok "u" "s" Examples.blank_text
           Examples.world_two_files).
  reflexivity.
Defined.

Lemma delete_document_message_witness :
  (document.delete_document Examples.env_ok "u" "s" "x.pdf"
     Examples.world_two_files).1
  = Ok {| status_code := 200;
          content :=
            "Successfully deleted "
              +:+ pretty (StoreSpec.chunk_count
                            (w_db Examples.world_two_files) "u" "s" "x.pdf")
              +:+ " document(s) with the filename '" +:+ "x.pdf" +:+ "'." |}
  ∧ 0 < StoreSpec.chunk_count (w_db Examples.world_two_files)
          "u" "s" "x.pdf".
Proof.
  apply (delete_document_message Examples.env_ok "u" "s" "x.pdf"
           Examples.world_two_files).
  - reflexivity.
  - reflexivity.
  - exists ("u", "s", 0). unfold StoreSpec.chunk_of. simpl.
    split; [reflexivity|]. split; [reflexivity|].
    exists (Examples.stored "x.pdf" "abc" [3%Z]).
    split; [vm_compute; reflexivity | reflexivity].
Defined.

Lemma question_answer_verbatim_witness :
  (chat.question Examples.env_answers "u" "s" "What is in x.pdf?"
     Examples.world_two_files).1
  = Ok {| status_code := 200; content := Some "42" |}.
Proof.
  apply (question_answer_verbatim Examples.env_answers "u" "s"
           "What is in x.pdf?" Examples.world_two_files
           [[1%Z]; [3%Z]; [2%Z]] [Some "f"; Some "abc"; Some "de"] "42").
  - reflexivity.
  - vm_compute. reflexivity.
  - reflexivity.
  - discriminate.
Defined.
